(** * CVE-2023-44487 scanner: the three core operations of [cve202344487.py]

    A shallow embedding of [extract_hostname_port_uri], [check_http2_support]
    and [send_rst_stream_h2].  The Python standard library ([urllib.parse],
    [ssl], [http.client]) and the third-party packages ([h2], [httpx]) are
    not part of the program: they appear as interfaces ([Urllib], [Host])
    whose every operation may return a value or raise.  The three functions
    are written against these interfaces, statement by statement. *)

From Stdlib Require Import ZArith List Bool Ascii String Strings.Byte Lia.
From Stdlib Require Import DecimalString.
From stdpp Require Import base gmap strings.
Import ListNotations.

Local Open Scope Z_scope.

(** ** Python values *)

(** The values that flow through the three functions: [None], integers,
    strings and tuples (the resolver returns the tuple [(80, 443)] as a
    port). *)
#[warnings="-register-all"]
Inductive pyval : Type :=
| PyNone
| PyInt (z : Z)
| PyStr (s : string)
| PyTuple (items : list pyval).

(** Python truthiness ([if v:], [not v]). *)
Definition truthy (v : pyval) : bool :=
  match v with
  | PyNone => false
  | PyInt z => negb (z =? 0)
  | PyStr s => negb (String.eqb s "")
  | PyTuple items => match items with [] => false | _ :: _ => true end
  end.

(** [v == n] for an integer literal [n]. *)
Definition py_eq_int (v : pyval) (n : Z) : bool :=
  match v with
  | PyInt z => z =? n
  | _ => false
  end.

Definition py_of_ostr (o : option string) : pyval :=
  match o with Some s => PyStr s | None => PyNone end.

Definition py_of_oint (o : option Z) : pyval :=
  match o with Some z => PyInt z | None => PyNone end.

(** ** Exceptions and fallible computations *)

(** An exception object: its class name and [str(e)].  Only instances of
    [Exception] are modelled; these are what [except Exception] catches. *)
Inductive exn : Type := Exn (cls : string) (msg : string).

Definition exn_str (e : exn) : string :=
  match e with Exn _ msg => msg end.

(** A pure computation that returns or raises. *)
Inductive result (A : Type) : Type :=
| Ok (a : A)
| Err (e : exn).
Arguments Ok {A} a.
Arguments Err {A} e.

Definition rbind {A B} (m : result A) (k : A -> result B) : result B :=
  match m with
  | Ok a => k a
  | Err e => Err e
  end.

(** [try: m  except Exception as e: h e] for pure code. *)
Definition rtry {A} (m : result A) (h : exn -> result A) : result A :=
  match m with
  | Ok a => Ok a
  | Err e => h e
  end.

Notation "'let?' x ':=' m 'in' k" := (rbind m (fun x => k))
  (at level 10, x name, m at level 100, k at level 200).
Notation "'let?' ' x ':=' m 'in' k" := (rbind m (fun x => k))
  (at level 10, x strict pattern, m at level 100, k at level 200).

(** ** [urllib.parse] as an interface *)

(** The named tuple returned by [urlparse]. *)
Record parse_result : Type := ParseResult {
  pr_scheme : string;
  pr_netloc : string;
  pr_path : string;
  pr_params : string;
  pr_query : string;
  pr_fragment : string
}.

(** [urlparse] itself and the two properties the program reads,
    [.hostname] and [.port].  All three may raise [ValueError]. *)
Class Urllib : Type := {
  urlparse : string -> result parse_result;
  parsed_hostname : parse_result -> result (option string);
  parsed_port : parse_result -> result (option Z)
}.

(** ** The target resolver *)

Module Resolver.

(** The value returned on a missing host and from the exception handler:
    [-1, -1, ""]. *)
Definition invalid : pyval * pyval * pyval :=
  (PyInt (-1), PyInt (-1), PyStr "").

(** The [try] block of [extract_hostname_port_uri] (lines 190-210). *)
Definition extract_hostname_port_uri_try {U : Urllib} (url : string)
  : result (pyval * pyval * pyval) :=
  let? parsed_url := urlparse url in
  let? hostname := parsed_hostname parsed_url in
  let hostname := py_of_ostr hostname in
  let? port := parsed_port parsed_url in
  let port := py_of_oint port in
  let scheme := pr_scheme parsed_url in
  let uri := pr_path parsed_url in
  let uri := if String.eqb uri "" then "/" else uri in
  if negb (truthy hostname) then Ok (PyInt (-1), PyInt (-1), PyStr "")
  else if truthy port then Ok (hostname, port, PyStr uri)
  else if String.eqb scheme "http" then Ok (hostname, PyInt 80, PyStr uri)
  else if String.eqb scheme "https" then Ok (hostname, PyInt 443, PyStr uri)
  else Ok (hostname, PyTuple [PyInt 80; PyInt 443], PyStr uri).

(** [extract_hostname_port_uri(url)]: the [try] block under its
    [except Exception] handler (lines 211-212). *)
Definition extract_hostname_port_uri {U : Urllib} (url : string)
  : result (pyval * pyval * pyval) :=
  rtry (extract_hostname_port_uri_try url)
       (fun e => Ok (PyInt (-1), PyInt (-1), PyStr "")).

End Resolver.

(** ** The outside world *)

Definition bytes : Type := list byte.

(** The [ssl.SSLContext] attributes the program sets. *)
Inductive VerifyMode : Type := CERT_NONE | CERT_OPTIONAL | CERT_REQUIRED.

Record ssl_context : Type := SSLContext {
  check_hostname : bool;
  verify_mode : VerifyMode
}.

(** [ctx.check_hostname = b].  Enabling the check on a context that does
    not verify certificates switches verification on, as [ssl] does. *)
Definition set_check_hostname (b : bool) (ctx : ssl_context)
  : result ssl_context :=
  Ok {| check_hostname := b;
        verify_mode := match b, verify_mode ctx with
                  | true, CERT_NONE => CERT_REQUIRED
                  | _, m => m
                  end |}.

(** [ctx.verify_mode = m].  [ssl] refuses [CERT_NONE] while
    [check_hostname] is enabled. *)
Definition set_verify_mode (m : VerifyMode) (ctx : ssl_context)
  : result ssl_context :=
  match m, check_hostname ctx with
  | CERT_NONE, true =>
      Err (Exn "ValueError"
        "Cannot set verify_mode to CERT_NONE when check_hostname is enabled.")
  | _, _ => Ok {| check_hostname := check_hostname ctx; verify_mode := m |}
  end.

(** An [h2] event.  Some event classes have a [stream_id] attribute
    (whose value may be [None]), others have none. *)
Record event : Type := Event {
  ev_class : string;
  ev_stream_id : option pyval
}.

(** An [httpx.Response], as far as the program looks at it. *)
Record response : Type := Response {
  http_version : string
}.

(** A keyword-argument value of [httpx.Client(...)]. *)
Inductive kwarg : Type :=
| KwBool (b : bool)
| KwDict (d : gmap string string).

(** Every call the two probers make on a library object, indexed by the
    type of what it returns.  One prober invocation owns one connection
    object [conn] and one protocol-state object [h2_conn], so the calls
    name no receiver. *)
Inductive call : Type -> Type :=
| ssl_create_default_context : call ssl_context
| HTTPSConnection (host port : pyval) (timeout : Z) (context : ssl_context)
    : call unit
| HTTPConnection (host port : pyval) (timeout : Z) : call unit
| conn_set_tunnel (host port : pyval) : call unit
| conn_connect : call unit
| conn_send (data : bytes) : call unit
| conn_sock_recv (bufsize : Z) : call bytes
| conn_close : call unit
| H2Configuration (client_side : bool) : call unit
| H2Connection : call unit
| h2_initiate_connection : call unit
| h2_data_to_send : call bytes
| h2_send_headers (stream_id : Z) (headers : list (string * pyval))
    : call unit
| h2_receive_data (data : bytes) : call (list event)
| h2_reset_stream (stream_id : pyval) : call unit
| h2_get_next_available_stream_id : call Z
| httpx_Client (kwargs : gmap string kwarg) : call unit
| client_enter : call unit
| client_get (url : string) : call response
| client_exit : call unit.

(** A call that was made, whatever it returned. *)
Inductive entry : Type :=
| Called (X : Type) (c : call X).
Arguments Called {X} c.

(** The network and the libraries: a state and, for every call, what it
    returns or raises and the state it leaves. *)
Class Host (W : Type) : Type := {
  respond : forall X : Type, call X -> W -> result X * W
}.
Arguments respond {W _ X} c w.

(** ** Effectful computations *)

(** The state of the world and the calls made so far, oldest first. *)
Record state (W : Type) : Type := State {
  world : W;
  trace : list entry
}.
Arguments State {W} world trace.
Arguments world {W} s.
Arguments trace {W} s.

Definition init {W} (w : W) : state W := State w [].

(** How a computation ends: with a value, with an exception, or (for the
    receive loop only) without an answer within the given number of
    iterations. *)
Inductive outcome (A : Type) : Type :=
| Ret (a : A)
| Raise (e : exn)
| OutOfFuel.
Arguments Ret {A} a.
Arguments Raise {A} e.
Arguments OutOfFuel {A}.

Definition M (W A : Type) : Type := state W -> outcome A * state W.

Definition ret {W A} (a : A) : M W A := fun s => (Ret a, s).

Definition bind {W A B} (m : M W A) (k : A -> M W B) : M W B :=
  fun s =>
    match m s with
    | (Ret a, s') => k a s'
    | (Raise e, s') => (Raise e, s')
    | (OutOfFuel, s') => (OutOfFuel, s')
    end.

Notation "'let*' x ':=' m 'in' k" := (bind m (fun x => k))
  (at level 10, x name, m at level 100, k at level 200).

(** A pure fallible step inside an effectful computation. *)
Definition lift {W A} (r : result A) : M W A :=
  fun s =>
    match r with
    | Ok a => (Ret a, s)
    | Err e => (Raise e, s)
    end.

(** Make a library call: log it, and let the world answer. *)
Definition perform {W} {HW : Host W} {X} (c : call X) : M W X :=
  fun s =>
    let '(r, w') := respond c (world s) in
    (match r with Ok x => Ret x | Err e => Raise e end,
     State w' (trace s ++ [Called c])).

(** [try: m  except Exception as e: h e]. *)
Definition try_except {W A} (m : M W A) (h : exn -> M W A) : M W A :=
  fun s =>
    match m s with
    | (Ret a, s') => (Ret a, s')
    | (Raise e, s') => h e s'
    | (OutOfFuel, s') => (OutOfFuel, s')
    end.

(** ** The HTTP/2 negotiation prober *)

Module Negotiation.

(** [if d:] for a dict. *)
Definition dict_truthy {V} (d : gmap string V) : bool :=
  negb (Nat.eqb (size d) 0).

(** [d[k]], raising [KeyError] on a missing key. *)
Definition getitem (d : gmap string string) (k : string) : result string :=
  match d !! k with
  | Some v => Ok v
  | None => Err (Exn "KeyError" ("'" +:+ k +:+ "'"))
  end.

(** [with httpx.Client(kwargs...) as client: body].  The client's
    [__exit__] runs on both ways out of the body and does not swallow the
    body's exception. *)
Definition with_client {W} {HW : Host W} {A}
  (kwargs : gmap string kwarg) (body : M W A) : M W A :=
  let* _ := perform (httpx_Client kwargs) in
  let* _ := perform client_enter in
  fun s =>
    match body s with
    | (Ret a, s') => (let* _ := perform client_exit in ret a) s'
    | (Raise e, s') =>
        (let* _ := perform client_exit in fun s'' => (Raise e, s'')) s'
    | (OutOfFuel, s') => (OutOfFuel, s')
    end.

(** Lines 67-81: build the client options and issue the one GET. *)
Definition request {W} {HW : Host W}
  (url : string) (proxies : gmap string string) : M W response :=
  let local_proxies : gmap string string := ∅ in
  let* local_proxies :=
    if dict_truthy proxies then
      let* http := lift (getitem proxies "http") in
      let* https := lift (getitem proxies "https") in
      ret (<["https://" := https]> (<["http://" := http]> ∅))
    else ret local_proxies in
  let client_options : gmap string kwarg :=
    <["verify" := KwBool false]> (<["http2" := KwBool true]> ∅) in
  let client_options :=
    if dict_truthy local_proxies
    then <["proxies" := KwDict local_proxies]> client_options
    else client_options in
  with_client client_options (perform (client_get url)).

(** The [try] block of [check_http2_support] (lines 67-86). *)
Definition check_http2_support_try {W} {HW : Host W}
  (url : string) (proxies : gmap string string) : M W (Z * string) :=
  let* response := request url proxies in
  if String.eqb (http_version response) "HTTP/2"
  then ret (1, "")
  else ret (0, http_version response).

(** [check_http2_support(url, proxies)]. *)
Definition check_http2_support {W} {HW : Host W}
  (url : string) (proxies : gmap string string) : M W (Z * string) :=
  try_except (check_http2_support_try url proxies)
    (fun e => ret (-1, "check_http2_support - " +:+ exn_str e)).

End Negotiation.

(** ** The frame-level reset prober *)

Module Reset.

(** How one pass through the body of [while True:] ends. *)
Inductive ctl : Type :=
| Continue
| Break
| Return (v : Z * string).

(** [while True: body], for at most [fuel] iterations.  [None] is the
    fall-through after [break]; [Some v] is a [return v] from inside. *)
Fixpoint while_true {W} (fuel : nat) (body : M W ctl)
  : M W (option (Z * string)) :=
  match fuel with
  | O => fun s => (OutOfFuel, s)
  | S fuel' =>
      let* c := body in
      match c with
      | Continue => while_true fuel' body
      | Break => ret None
      | Return v => ret (Some v)
      end
  end.

(** [if proxy and proxy != "":] *)
Definition proxy_set (proxy : option string) : bool :=
  match proxy with
  | Some p => truthy (PyStr p) && negb (String.eqb p "")
  | None => false
  end.

(** Lines 108-126: the SSL context and the connection object. *)
Definition create_connection {W} {HW : Host W} {U : Urllib}
  (host port : pyval) (timeout : Z) (proxy : option string) : M W unit :=
  let* ssl_context := perform ssl_create_default_context in
  let* ssl_context := lift (set_check_hostname false ssl_context) in
  let* ssl_context := lift (set_verify_mode CERT_NONE ssl_context) in
  if proxy_set proxy then
    let* proxy_parts :=
      lift (urlparse (match proxy with Some p => p | None => "" end)) in
    if py_eq_int port 443 then
      let* proxy_host := lift (parsed_hostname proxy_parts) in
      let* proxy_port := lift (parsed_port proxy_parts) in
      let* _ := perform (HTTPSConnection (py_of_ostr proxy_host)
                           (py_of_oint proxy_port) timeout ssl_context) in
      perform (conn_set_tunnel host port)
    else
      let* proxy_host := lift (parsed_hostname proxy_parts) in
      let* proxy_port := lift (parsed_port proxy_parts) in
      let* _ := perform (HTTPConnection (py_of_ostr proxy_host)
                           (py_of_oint proxy_port) timeout) in
      perform (conn_set_tunnel host port)
  else
    if py_eq_int port 443 then
      perform (HTTPSConnection host port timeout ssl_context)
    else
      perform (HTTPConnection host port timeout).

(** Lines 128-139: connect, send the connection preface, send the request
    headers on [stream_id]. *)
Definition send_request {W} {HW : Host W}
  (host : pyval) (stream_id : Z) (uri_path : string) : M W unit :=
  let* _ := perform conn_connect in
  let* _ := perform (H2Configuration true) in
  let* _ := perform H2Connection in
  let* _ := perform h2_initiate_connection in
  let* data := perform h2_data_to_send in
  let* _ := perform (conn_send data) in
  let headers := [(":method", PyStr "GET"); (":authority", host);
                  (":scheme", PyStr "https"); (":path", PyStr uri_path)] in
  let* _ := perform (h2_send_headers stream_id headers) in
  let* data := perform h2_data_to_send in
  perform (conn_send data).

(** [h2_conn.reset_stream(id); conn.send(h2_conn.data_to_send())] *)
Definition reset_and_flush {W} {HW : Host W} (id : pyval) : M W unit :=
  let* _ := perform (h2_reset_stream id) in
  let* data := perform h2_data_to_send in
  perform (conn_send data).

(** Lines 148-155: the [for event in events] loop; the value is
    [has_sent]. *)
Fixpoint scan_events {W} {HW : Host W} (stream_id : Z) (events : list event)
  : M W bool :=
  match events with
  | [] => ret false
  | event :: events' =>
      match ev_stream_id event with
      | Some event_stream_id =>
          if py_eq_int event_stream_id stream_id then
            let* _ := reset_and_flush event_stream_id in
            ret true
          else scan_events stream_id events'
      | None => scan_events stream_id events'
      end
  end.

(** Lines 143-172: the body of [while True:]. *)
Definition receive_step {W} {HW : Host W} (stream_id : Z) : M W ctl :=
  let* data := perform (conn_sock_recv 65535) in
  match data with
  | [] => ret Break
  | _ :: _ =>
      let* events := perform (h2_receive_data data) in
      let* has_sent := scan_events stream_id events in
      if has_sent then ret (Return (1, ""))
      else
        let* available_id := perform h2_get_next_available_stream_id in
        if available_id =? 0 then
          let* _ := reset_and_flush (PyInt 1) in
          ret (Return (0, "Able to send RST_STREAM to stream 1 but could not find any available stream ids"))
        else
          let* _ := reset_and_flush (PyInt available_id) in
          ret (Return (1, ""))
  end.

(** The [try] block of [send_rst_stream_h2] (lines 108-175). *)
Definition send_rst_stream_h2_try {W} {HW : Host W} {U : Urllib} (fuel : nat)
  (host port : pyval) (stream_id : Z) (uri_path : string) (timeout : Z)
  (proxy : option string) : M W (Z * string) :=
  let* _ := create_connection host port timeout proxy in
  let* _ := send_request host stream_id uri_path in
  let* returned := while_true fuel (receive_step stream_id) in
  match returned with
  | Some v => ret v
  | None =>
      let* _ := perform conn_close in
      ret (0, "No response")
  end.

(** [send_rst_stream_h2(host, port, stream_id, uri_path, timeout, proxy)]. *)
Definition send_rst_stream_h2 {W} {HW : Host W} {U : Urllib} (fuel : nat)
  (host port : pyval) (stream_id : Z) (uri_path : string) (timeout : Z)
  (proxy : option string) : M W (Z * string) :=
  try_except
    (send_rst_stream_h2_try fuel host port stream_id uri_path timeout proxy)
    (fun e => ret (-1, "send_rst_stream_h2 - " +:+ exn_str e)).

End Reset.

(** ** A reference [urllib.parse]

    [urlparse] and the [hostname] and [port] properties as CPython 3.11
    defines them ([Lib/urllib/parse.py]), on ASCII strings.  It gives the
    interface [Urllib] an instance on which the resolver can be run on
    actual URLs.  [ipaddress.ip_address], which [urlsplit] consults for a
    bracketed host only, stays a parameter. *)

Module PyUrllib.

Inductive ip_version : Type := IPv4 | IPv6.

Definition code (c : ascii) : Z := Z.of_N (N_of_ascii c).

Definition ascii_eqb (a b : ascii) : bool := code a =? code b.

(** [c in s] *)
Fixpoint str_in (c : ascii) (s : string) : bool :=
  match s with
  | EmptyString => false
  | String a s' => ascii_eqb a c || str_in c s'
  end.

(** [s.partition(c)]: before, whether [c] occurs, after. *)
Fixpoint partition (c : ascii) (s : string) : string * bool * string :=
  match s with
  | EmptyString => ("", false, "")
  | String a s' =>
      if ascii_eqb a c then ("", true, s')
      else let '(before, found, after) := partition c s' in
           (String a before, found, after)
  end.

(** [s.rpartition(c)]: when [c] does not occur, everything is "after". *)
Fixpoint rpartition (c : ascii) (s : string) : string * bool * string :=
  match s with
  | EmptyString => ("", false, "")
  | String a s' =>
      let '(before, found, after) := rpartition c s' in
      if found then (String a before, true, after)
      else if ascii_eqb a c then ("", true, s')
      else ("", false, String a after)
  end.

(** [s.lstrip(_WHATWG_C0_CONTROL_OR_SPACE)] *)
Fixpoint lstrip_c0 (s : string) : string :=
  match s with
  | EmptyString => ""
  | String a s' => if code a <=? 32 then lstrip_c0 s' else s
  end.

(** Removal of [_UNSAFE_URL_BYTES_TO_REMOVE]: tab, CR, LF. *)
Fixpoint remove_unsafe (s : string) : string :=
  match s with
  | EmptyString => ""
  | String a s' =>
      if (code a =? 9) || (code a =? 13) || (code a =? 10)
      then remove_unsafe s'
      else String a (remove_unsafe s')
  end.

Definition is_upper (c : ascii) : bool := (65 <=? code c) && (code c <=? 90).
Definition is_lower (c : ascii) : bool := (97 <=? code c) && (code c <=? 122).
Definition is_digit (c : ascii) : bool := (48 <=? code c) && (code c <=? 57).
Definition is_ascii_alpha (c : ascii) : bool := is_upper c || is_lower c.

Definition is_hex (c : ascii) : bool :=
  is_digit c || ((65 <=? code c) && (code c <=? 70))
             || ((97 <=? code c) && (code c <=? 102)).

(** [c in scheme_chars] *)
Definition scheme_char (c : ascii) : bool :=
  is_ascii_alpha c || is_digit c || str_in c "+-.".

Fixpoint str_forall (p : ascii -> bool) (s : string) : bool :=
  match s with
  | EmptyString => true
  | String a s' => p a && str_forall p s'
  end.

Definition lower_char (c : ascii) : ascii :=
  if is_upper c then ascii_of_N (N_of_ascii c + 32) else c.

(** [s.lower()] *)
Fixpoint lower (s : string) : string :=
  match s with
  | EmptyString => ""
  | String a s' => String (lower_char a) (lower s')
  end.

Definition nonempty (s : string) : bool := negb (String.eqb s "").

(** [_splitnetloc(url, 2)] on [url[2:]]: the domain part runs to the first
    of [/], [?], [#]. *)
Fixpoint splitnetloc (s : string) : string * string :=
  match s with
  | EmptyString => ("", "")
  | String a s' =>
      if str_in a "/?#" then ("", s)
      else let '(domain, rest) := splitnetloc s' in (String a domain, rest)
  end.

(** [re.match(r"\Av[a-fA-F0-9]+\..+\Z", hostname)] *)
Fixpoint hex_run_then_dot_rest (seen_hex : bool) (s : string) : bool :=
  match s with
  | EmptyString => false
  | String a s' =>
      if is_hex a then hex_run_then_dot_rest true s'
      else seen_hex && ascii_eqb a "."
           && nonempty s' && str_forall (fun c => negb (code c =? 10)) s'
  end.

Definition ipvfuture_match (hostname : string) : bool :=
  match hostname with
  | String "v" s' => hex_run_then_dot_rest false s'
  | _ => false
  end.

Section WithIpaddress.

Variable ip_address : string -> result ip_version.

Definition check_bracketed_host (hostname : string) : result unit :=
  match hostname with
  | String "v" _ =>
      if ipvfuture_match hostname then Ok tt
      else Err (Exn "ValueError" "IPvFuture address is invalid")
  | _ =>
      let? ip := ip_address hostname in
      match ip with
      | IPv4 =>
          Err (Exn "ValueError" "An IPv4 address cannot be in brackets")
      | IPv6 => Ok tt
      end
  end.

Definition check_bracketed_netloc (netloc : string) : result unit :=
  let hostname_and_port := snd (rpartition "@" netloc) in
  let '(before_bracket, have_open_br, bracketed) :=
    partition "[" hostname_and_port in
  if have_open_br then
    if nonempty before_bracket
    then Err (Exn "ValueError" "Invalid IPv6 URL")
    else
      let '(hostname, _, port) := partition "]" bracketed in
      if nonempty port
         && negb (match port with String ":" _ => true | _ => false end)
      then Err (Exn "ValueError" "Invalid IPv6 URL")
      else check_bracketed_host hostname
  else
    let '(hostname, _, port) := partition ":" hostname_and_port in
    check_bracketed_host hostname.

(** [urlsplit(url)]: scheme, netloc, path, query, fragment. *)
Definition urlsplit (url : string)
  : result (string * string * string * string * string) :=
  let url := lstrip_c0 url in
  let url := remove_unsafe url in
  let scheme := "" in
  let '(scheme, url) :=
    let '(before, found, after) := partition ":" url in
    match before with
    | String first _ =>
        if found && is_ascii_alpha first && str_forall scheme_char before
        then (lower before, after)
        else (scheme, url)
    | EmptyString => (scheme, url)
    end in
  let? '(netloc, url) :=
    match url with
    | String "/" (String "/" rest) =>
        let '(netloc, url) := splitnetloc rest in
        if (str_in "[" netloc && negb (str_in "]" netloc))
           || (str_in "]" netloc && negb (str_in "[" netloc))
        then Err (Exn "ValueError" "Invalid IPv6 URL")
        else if str_in "[" netloc && str_in "]" netloc
        then let? _ := check_bracketed_netloc netloc in Ok (netloc, url)
        else Ok (netloc, url)
    | _ => Ok ("", url)
    end in
  let '(url, fragment) :=
    if str_in "#" url
    then let '(before, _, after) := partition "#" url in (before, after)
    else (url, "") in
  let '(url, query) :=
    if str_in "?" url
    then let '(before, _, after) := partition "?" url in (before, after)
    else (url, "") in
  Ok (scheme, netloc, url, query, fragment).

Definition uses_params : list string :=
  [""; "ftp"; "hdl"; "prospero"; "http"; "imap"; "https"; "shttp"; "rtsp";
   "rtspu"; "sip"; "sips"; "mms"; "sftp"; "tel"].

(** [_splitparams(url)], called only when [;] occurs in [url]. *)
Definition splitparams (url : string) : string * string :=
  if str_in "/" url then
    let '(head, _, tail) := rpartition "/" url in
    let '(before, found, after) := partition ";" tail in
    if found then (head +:+ "/" +:+ before, after) else (url, "")
  else
    let '(before, _, after) := partition ";" url in (before, after).

(** [urlparse(url)] *)
Definition py_urlparse (url : string) : result parse_result :=
  let? '(scheme, netloc, url, query, fragment) := urlsplit url in
  let '(url, params) :=
    if existsb (String.eqb scheme) uses_params && str_in ";" url
    then splitparams url
    else (url, "") in
  Ok (ParseResult scheme netloc url params query fragment).

End WithIpaddress.

(** The [_hostinfo] property: host and port parts of the netloc. *)
Definition hostinfo (p : parse_result) : string * option string :=
  let netloc := pr_netloc p in
  let '(_, _, hostinfo) := rpartition "@" netloc in
  let '(_, have_open_br, bracketed) := partition "[" hostinfo in
  let '(hostname, port) :=
    if have_open_br then
      let '(hostname, _, port) := partition "]" bracketed in
      let '(_, _, port) := partition ":" port in
      (hostname, port)
    else
      let '(hostname, _, port) := partition ":" hostinfo in
      (hostname, port) in
  (hostname, if nonempty port then Some port else None).

(** The [hostname] property. *)
Definition py_hostname (p : parse_result) : result (option string) :=
  let hostname := fst (hostinfo p) in
  if negb (nonempty hostname) then Ok None
  else
    let '(hostname, found, zone) := partition "%" hostname in
    let percent := if found then "%" else "" in
    Ok (Some (lower hostname +:+ percent +:+ zone)).

(** The value of a string of ASCII digits, most significant first. *)
Fixpoint int_of_digits (acc : Z) (s : string) : Z :=
  match s with
  | EmptyString => acc
  | String a s' => int_of_digits (10 * acc + (code a - 48)) s'
  end.

(** [sys.get_int_max_str_digits()]: [int] refuses longer digit strings. *)
Definition int_max_str_digits : nat := 4300.

(** [int(s)] for a non-empty string of ASCII digits. *)
Definition int_of_str (s : string) : result Z :=
  if Nat.ltb int_max_str_digits (String.length s) then
    Err (Exn "ValueError"
           ("Exceeds the limit (4300 digits) for integer string conversion: value has "
              +:+ NilZero.string_of_uint (Nat.to_uint (String.length s))
              +:+ " digits; use sys.set_int_max_str_digits() to increase the limit"))
  else Ok (int_of_digits 0 s).

(** The [port] property. *)
Definition py_port (p : parse_result) : result (option Z) :=
  match snd (hostinfo p) with
  | Some port =>
      if nonempty port && str_forall is_digit port then
        let? port := int_of_str port in
        if negb ((0 <=? port) && (port <=? 65535))
        then Err (Exn "ValueError" "Port out of range 0-65535")
        else Ok (Some port)
      else
        Err (Exn "ValueError"
               ("Port could not be cast to integer value as '"
                  +:+ port +:+ "'"))
  | None => Ok None
  end.

(** The examples below contain no bracketed host; they run with an
    [ipaddress] that accepts no literal. *)
Definition no_ip_literals (s : string) : result ip_version :=
  Err (Exn "ValueError"
         ("'" +:+ s +:+ "' does not appear to be an IPv4 or IPv6 address")).

Definition py_urllib_with (ip_address : string -> result ip_version)
  : Urllib :=
  {| urlparse := py_urlparse ip_address;
     parsed_hostname := py_hostname;
     parsed_port := py_port |}.

Definition py_urllib : Urllib := py_urllib_with no_ip_literals.

End PyUrllib.

(** ** A scripted world

    A [Host] whose answers are fixed in advance: what the handshake, the
    read, the frame decoder, the stream-id allocator and the HTTP client
    yield.  Constructors, sends and the remaining calls succeed. *)

Module Script.

Record script : Type := Script {
  sc_context : result ssl_context;
  sc_connect : result unit;
  sc_recv : result bytes;
  sc_events : result (list event);
  sc_next_id : result Z;
  sc_reset : result unit;
  sc_close : result unit;
  sc_get : result response
}.

Definition answer (w : script) {X : Type} (c : call X) : result X :=
  match c in call X return result X with
  | ssl_create_default_context => sc_context w
  | HTTPSConnection _ _ _ _ => Ok tt
  | HTTPConnection _ _ _ => Ok tt
  | conn_set_tunnel _ _ => Ok tt
  | conn_connect => sc_connect w
  | conn_send _ => Ok tt
  | conn_sock_recv _ => sc_recv w
  | conn_close => sc_close w
  | H2Configuration _ => Ok tt
  | H2Connection => Ok tt
  | h2_initiate_connection => Ok tt
  | h2_data_to_send => Ok []
  | h2_send_headers _ _ => Ok tt
  | h2_receive_data _ => sc_events w
  | h2_reset_stream _ => sc_reset w
  | h2_get_next_available_stream_id => sc_next_id w
  | httpx_Client _ => Ok tt
  | client_enter => Ok tt
  | client_get _ => sc_get w
  | client_exit => Ok tt
  end.

#[global] Instance script_host : Host script :=
  {| respond := fun X c w => (answer w c, w) |}.

(** What [ssl.create_default_context()] returns. *)
Definition default_context : ssl_context :=
  {| check_hostname := true; verify_mode := CERT_REQUIRED |}.

(** A server that answers the request with the given events, on a
    connection whose allocator reports [next_id]. *)
Definition answering (data : bytes) (events : list event) (next_id : Z)
  : script :=
  {| sc_context := Ok default_context;
     sc_connect := Ok tt;
     sc_recv := Ok data;
     sc_events := Ok events;
     sc_next_id := Ok next_id;
     sc_reset := Ok tt;
     sc_close := Ok tt;
     sc_get := Ok (Response "HTTP/2") |}.

(** A server that closes the connection without sending anything. *)
Definition closing : script := answering [] [] 3.

(** A server that refuses the connection. *)
Definition refusing : script :=
  {| sc_context := Ok default_context;
     sc_connect := Err (Exn "ConnectionRefusedError"
                          "[Errno 111] Connection refused");
     sc_recv := Ok [];
     sc_events := Ok [];
     sc_next_id := Ok 3;
     sc_reset := Ok tt;
     sc_close := Ok tt;
     sc_get := Err (Exn "ConnectError" "[Errno 111] Connection refused") |}.

(** A server that accepts the connection and then stays silent until the
    read times out. *)
Definition timing_out : script :=
  {| sc_context := Ok default_context;
     sc_connect := Ok tt;
     sc_recv := Err (Exn "TimeoutError" "timed out");
     sc_events := Ok [];
     sc_next_id := Ok 3;
     sc_reset := Ok tt;
     sc_close := Ok tt;
     sc_get := Err (Exn "ReadTimeout" "timed out") |}.

(** A server that negotiates the given protocol version. *)
Definition negotiating (version : string) : script :=
  {| sc_context := Ok default_context;
     sc_connect := Ok tt;
     sc_recv := Ok [];
     sc_events := Ok [];
     sc_next_id := Ok 3;
     sc_reset := Ok tt;
     sc_close := Ok tt;
     sc_get := Ok (Response version) |}.

(** Some frame bytes, and events a decoder may yield for them. *)
Definition frame : bytes := [x00; x00; x00; x04; x00].

Definition settings_event : event :=
  {| ev_class := "RemoteSettingsChanged"; ev_stream_id := None |}.

Definition response_event (stream_id : Z) : event :=
  {| ev_class := "ResponseReceived"; ev_stream_id := Some (PyInt stream_id) |}.

End Script.

(** ** One probe, as the main program issues it *)

Module Runs.
Import Reset Script PyUrllib.

(** The call [main] makes: [send_rst_stream_h2(hostname, port, 1, uri,
    proxy=args.proxy)] for ["https://example.com"] without a proxy. *)
Definition probe (w : script) : outcome (Z * string) * state script :=
  send_rst_stream_h2 (U := py_urllib) 1
    (PyStr "example.com") (PyInt 443) 1 "/" 5 None (init w).

Definition checks_off : ssl_context :=
  {| check_hostname := false; verify_mode := CERT_NONE |}.


End Runs.

(** ** What a trace shows *)

Definition is_reset (e : entry) : bool :=
  match e with
  | Called (h2_reset_stream _) => true
  | _ => false
  end.

Definition is_recv (e : entry) : bool :=
  match e with
  | Called (conn_sock_recv _) => true
  | _ => false
  end.

Definition is_close (e : entry) : bool :=
  match e with
  | Called conn_close => true
  | _ => false
  end.

Definition is_connect (e : entry) : bool :=
  match e with
  | Called conn_connect => true
  | _ => false
  end.

(** The transport a constructor call sets up. *)
Inductive transport : Type :=
| TLS (context : ssl_context)
| Plain.

Definition transport_of (e : entry) : list transport :=
  match e with
  | Called (HTTPSConnection _ _ _ context) => [TLS context]
  | Called (HTTPConnection _ _ _) => [Plain]
  | _ => []
  end.

(** The connections a trace creates, oldest first. *)
Definition connections (t : list entry) : list transport :=
  flat_map transport_of t.

Definition count (p : entry -> bool) (t : list entry) : nat :=
  length (List.filter p t).

(** ** What the spec calls a Target *)

(** A resolver result that is a Target: a non-empty host name, a port in
    [1, 65535] or the pair of candidates [(80, 443)], and a non-empty
    path. *)
Definition is_target (r : pyval * pyval * pyval) : Prop :=
  exists h p u,
    r = (PyStr h, p, PyStr u) /\ h <> "" /\ u <> "" /\
    ((exists n, p = PyInt n /\ 1 <= n <= 65535) \/
     p = PyTuple [PyInt 80; PyInt 443]).

(** The documented range of the [port] property. *)
Definition port_in_range (U : Urllib) : Prop :=
  forall p n, parsed_port p = Ok (Some n) -> 0 <= n <= 65535.

(** A host can be extracted from [url]. *)
Definition has_host (U : Urllib) (url : string) (p : parse_result)
  (h : string) : Prop :=
  urlparse url = Ok p /\ parsed_hostname p = Ok (Some h) /\ h <> "".

(** ** Shapes of computations *)

(** [m] always ends with a value or an exception. *)
Definition total {W A} (m : M W A) : Prop :=
  forall s, fst (m s) <> OutOfFuel.

(** [m] only extends the trace, and only with calls that satisfy [p]. *)
Definition only {W A} (p : entry -> bool) (m : M W A) : Prop :=
  forall s, exists acts,
    trace (snd (m s)) = trace s ++ acts /\ forallb p acts = true.

(** Whatever [m] returns satisfies [q]. *)
Definition returns {W A} (q : A -> Prop) (m : M W A) : Prop :=
  forall s a s', m s = (Ret a, s') -> q a.

(** The three status codes of a prober. *)
Definition status_ok (v : Z * string) : Prop :=
  fst v = 1 \/ fst v = 0 \/ fst v = -1.

(** The message of the fallback on stream 1 (line 167). *)
Definition stream_1_message : string :=
  "Able to send RST_STREAM to stream 1 but could not find any available stream ids".

(** The calls of each part of the reset prober. *)
Definition setup_call (e : entry) : bool :=
  match e with
  | Called ssl_create_default_context
  | Called (HTTPSConnection _ _ _ _)
  | Called (HTTPConnection _ _ _)
  | Called (conn_set_tunnel _ _) => true
  | _ => false
  end.

Definition request_call (e : entry) : bool :=
  match e with
  | Called conn_connect
  | Called (H2Configuration _)
  | Called H2Connection
  | Called h2_initiate_connection
  | Called h2_data_to_send
  | Called (conn_send _)
  | Called (h2_send_headers _ _) => true
  | _ => false
  end.

Definition loop_call (e : entry) : bool :=
  match e with
  | Called (conn_sock_recv _)
  | Called (h2_receive_data _)
  | Called (h2_reset_stream _)
  | Called h2_data_to_send
  | Called (conn_send _)
  | Called h2_get_next_available_stream_id => true
  | _ => false
  end.

(** The event is for stream [stream_id]: it has the attribute and the
    attribute equals [stream_id]. *)
Definition on_stream (stream_id : Z) (ev : event) : bool :=
  match ev_stream_id ev with
  | Some v => py_eq_int v stream_id
  | None => false
  end.

Definition creates_transport (e : entry) : bool :=
  match transport_of e with
  | [] => false
  | _ :: _ => true
  end.

(** ** More to read off a trace *)

Definition is_tunnel (e : entry) : bool :=
  match e with
  | Called (conn_set_tunnel _ _) => true
  | _ => false
  end.

Definition is_send (e : entry) : bool :=
  match e with
  | Called (conn_send _) => true
  | _ => false
  end.

Definition is_client_enter (e : entry) : bool :=
  match e with
  | Called client_enter => true
  | _ => false
  end.

Definition is_client_get (e : entry) : bool :=
  match e with
  | Called (client_get _) => true
  | _ => false
  end.

Definition is_client_exit (e : entry) : bool :=
  match e with
  | Called client_exit => true
  | _ => false
  end.

(** Where the constructor calls of a trace point: host, port, timeout. *)
Definition endpoint_of (e : entry) : list (pyval * pyval * Z) :=
  match e with
  | Called (HTTPSConnection host port timeout _) => [(host, port, timeout)]
  | Called (HTTPConnection host port timeout) => [(host, port, timeout)]
  | _ => []
  end.

Definition endpoints (t : list entry) : list (pyval * pyval * Z) :=
  flat_map endpoint_of t.

(** The tunnels a trace asks for. *)
Definition tunnel_of (e : entry) : list (pyval * pyval) :=
  match e with
  | Called (conn_set_tunnel host port) => [(host, port)]
  | _ => []
  end.

Definition tunnels (t : list entry) : list (pyval * pyval) :=
  flat_map tunnel_of t.

(** The keyword arguments of the [httpx.Client] constructions in a
    trace. *)
Definition client_kwargs_of (e : entry) : list (gmap string kwarg) :=
  match e with
  | Called (httpx_Client kwargs) => [kwargs]
  | _ => []
  end.

Definition client_kwargs (t : list entry) : list (gmap string kwarg) :=
  flat_map client_kwargs_of t.

(** The calls of the negotiation prober. *)
Definition negotiation_call (e : entry) : bool :=
  match e with
  | Called (httpx_Client _)
  | Called client_enter
  | Called (client_get _)
  | Called client_exit => true
  | _ => false
  end.

(** The calls of the reset prober once the connection object exists. *)
Definition after_creation_call (e : entry) : bool :=
  request_call e || loop_call e || is_close e.

(** [m] extends the trace with at most [n] calls that satisfy [q]. *)
Definition at_most {W A} (q : entry -> bool) (n : nat) (m : M W A) : Prop :=
  forall s, exists acts,
    trace (snd (m s)) = trace s ++ acts /\ (count q acts <= n)%nat.

(** What the constructor is given when a proxy is set: the host and port
    of the parsed proxy URL, read in this order. *)
Definition proxy_endpoint {U : Urllib} (proxy : string)
  : result (pyval * pyval) :=
  let? proxy_parts := urlparse proxy in
  let? proxy_host := parsed_hostname proxy_parts in
  let? proxy_port := parsed_port proxy_parts in
  Ok (py_of_ostr proxy_host, py_of_oint proxy_port).

(** The constructor call for an endpoint: the class depends on the
    target port alone. *)
Definition constructor_call (target_port : pyval) (host port : pyval)
  (timeout : Z) : entry :=
  if py_eq_int target_port 443
  then Called (HTTPSConnection host port timeout
                 {| check_hostname := false; verify_mode := CERT_NONE |})
  else Called (HTTPConnection host port timeout).

(** The calls of lines 128-139, given the bytes the two flushes
    produced. *)
Definition request_calls (host : pyval) (stream_id : Z) (uri_path : string)
  (preface headers_frame : bytes) : list entry :=
  [Called conn_connect;
   Called (H2Configuration true);
   Called H2Connection;
   Called h2_initiate_connection;
   Called h2_data_to_send;
   Called (conn_send preface);
   Called (h2_send_headers stream_id
             [(":method", PyStr "GET"); (":authority", host);
              (":scheme", PyStr "https"); (":path", PyStr uri_path)]);
   Called h2_data_to_send;
   Called (conn_send headers_frame)].

(** The port the resolver falls back to for a scheme (lines 204-210). *)
Definition scheme_port (scheme : string) : pyval :=
  if String.eqb scheme "http" then PyInt 80
  else if String.eqb scheme "https" then PyInt 443
  else PyTuple [PyInt 80; PyInt 443].

(** The endpoint the constructor is given: the proxy's when a proxy is
    set, the target's otherwise (lines 114-126). *)
Definition connect_endpoint {U : Urllib} (host port : pyval)
  (proxy : option string) : result (pyval * pyval) :=
  match proxy with
  | Some p => if Reset.proxy_set proxy then proxy_endpoint p else Ok (host, port)
  | None => Ok (host, port)
  end.

(** The body of [while True:] with the [for] loop replaced by what it
    amounts to: one reset at the first event for the stream, if any. *)
Definition receive_step_summary {W} {HW : Host W} (stream_id : Z)
  : M W Reset.ctl :=
  let* data := perform (conn_sock_recv 65535) in
  match data with
  | [] => ret Reset.Break
  | _ :: _ =>
      let* events := perform (h2_receive_data data) in
      if existsb (on_stream stream_id) events then
        let* _ := Reset.reset_and_flush (PyInt stream_id) in
        ret (Reset.Return (1, ""))
      else
        let* available_id := perform h2_get_next_available_stream_id in
        if available_id =? 0 then
          let* _ := Reset.reset_and_flush (PyInt 1) in
          ret (Reset.Return (0, stream_1_message))
        else
          let* _ := Reset.reset_and_flush (PyInt available_id) in
          ret (Reset.Return (1, ""))
  end.

(** ** The rest of the outside world

    What [get_source_ips] and the main block call besides the probers:
    [requests], a UDP socket, the console, the clock, the two files and
    the CSV writer.
    Each call may return or raise; two class tests say which exceptions
    the [except] clauses for [requests.exceptions.Timeout] and
    [socket.timeout] select. *)

(** A [requests.Response], as far as the program looks at it. *)
Record http_response : Type := HttpResponse {
  text : string
}.

(** An open input file, as far as the program looks at it: the lines
    that iterating it yields, in order, and the exception that ends the
    iteration, if one does (a decoding or a read error) instead of the
    end of the file. *)
Record infile : Type := Infile {
  in_lines : list string;
  in_error : option exn
}.

Inductive sys_call : Type -> Type :=
| requests_get (url : string) (timeout : Z) (proxies : gmap string string)
    : sys_call http_response
| socket_socket : sys_call unit
| s_settimeout (seconds : Z) : sys_call unit
| s_connect (host : string) (port : Z) : sys_call unit
| s_getsockname : sys_call (string * Z)
| s_close : sys_call unit
| print_stdout (line : string) : sys_call unit
| print_stderr (line : string) : sys_call unit
| datetime_now_strftime (format : string) : sys_call string
| csv_writerow (row : list pyval) : sys_call unit
| open_input (path : string) : sys_call infile
| open_output (path : string) : sys_call unit
| csv_writer : sys_call unit
| outfile_exit : sys_call unit
| infile_exit : sys_call unit.

Inductive sys_entry : Type :=
| SysCalled (X : Type) (c : sys_call X).
Arguments SysCalled {X} c.

Class Sys (W : Type) : Type := {
  sys_respond : forall X : Type, sys_call X -> W -> result X * W;
  is_requests_Timeout : exn -> bool;
  is_socket_timeout : exn -> bool
}.
Arguments sys_respond {W _ X} c w.

(** A world together with the journal of the [sys_call]s made in it,
    oldest first. *)
Definition logged (W : Type) : Type := W * list sys_entry.

(** The probers run in a journalled world as they do in a bare one. *)
#[global] Instance logged_host {W} {HW : Host W} : Host (logged W) :=
  {| respond := fun X c wl =>
       let '(r, w') := respond c (fst wl) in (r, (w', snd wl)) |}.

Definition journal {W} (s : state (logged W)) : list sys_entry :=
  snd (world s).

Definition start {W} (w : W) : state (logged W) := init (w, []).

(** Make a [sys_call]: enter it in the journal, and let the world
    answer. *)
Definition perform_sys {W} {SW : Sys W} {X} (c : sys_call X)
  : M (logged W) X :=
  fun s =>
    let '(r, w') := sys_respond c (fst (world s)) in
    (match r with Ok x => Ret x | Err e => Raise e end,
     State (w', snd (world s) ++ [SysCalled c]) (trace s)).

Notation "'let*' ' x ':=' m 'in' k" := (bind m (fun x => k))
  (at level 10, x strict pattern, m at level 100, k at level 200).

(** [try: m  finally: f]. *)
Definition try_finally {W A} (m : M W A) (f : M W unit) : M W A :=
  fun s =>
    match m s with
    | (Ret a, s') => (let* _ := f in ret a) s'
    | (Raise e, s') => (let* _ := f in fun s'' => (Raise e, s'')) s'
    | (OutOfFuel, s') => (OutOfFuel, s')
    end.

(** [c.isspace()].  A character of a string stands for the code point of
    its number, so the strings here are the Python strings of code points
    below 256.  Among these, the white space is U+0009 to U+000D, U+001C
    to U+0020, U+0085 and U+00A0. *)
Definition py_isspace (c : ascii) : bool :=
  let n := PyUrllib.code c in
  ((9 <=? n) && (n <=? 13)) || ((28 <=? n) && (n <=? 32))
  || (n =? 133) || (n =? 160).

Fixpoint lstrip (s : string) : string :=
  match s with
  | EmptyString => ""
  | String a s' => if py_isspace a then lstrip s' else s
  end.

Fixpoint rstrip (s : string) : string :=
  match s with
  | EmptyString => ""
  | String a s' =>
      match rstrip s' with
      | EmptyString => if py_isspace a then "" else String a ""
      | t => String a t
      end
  end.

(** [s.strip()]: white space removed at both ends. *)
Definition strip (s : string) : string := rstrip (lstrip s).

(** ** The scanning host's addresses *)

Module SourceIps.

(** Lines 35-43: the inner [try] with its two handlers and its
    [finally]. *)
Definition local_address {W} {SW : Sys W} : M (logged W) string :=
  try_finally
    (try_except
       (let* _ := perform_sys (s_connect "8.8.8.8" 1) in
        let* name := perform_sys s_getsockname in
        ret (fst name))
       (fun e =>
          if is_socket_timeout e then ret "127.0.0.1"
          else ret "127.0.0.1"))
    (perform_sys s_close).

(** The outer [try] block (lines 30-45). *)
Definition get_source_ips_try {W} {SW : Sys W}
  (proxies : gmap string string) : M (logged W) (pyval * pyval) :=
  let* response := perform_sys (requests_get "http://ifconfig.me" 5 proxies) in
  let external_ip := strip (text response) in
  let* _ := perform_sys socket_socket in
  let* _ := perform_sys (s_settimeout 2) in
  let* internal_ip := local_address in
  ret (PyStr internal_ip, PyStr external_ip).

(** [get_source_ips(proxies)]. *)
Definition get_source_ips {W} {SW : Sys W}
  (proxies : gmap string string) : M (logged W) (pyval * pyval) :=
  try_except (get_source_ips_try proxies)
    (fun e =>
       if is_requests_Timeout e then
         let* _ := perform_sys (print_stdout "External IP request timed out.") in
         ret (PyNone, PyNone)
       else
         let* _ := perform_sys (print_stdout ("Error: " +:+ exn_str e)) in
         ret (PyNone, PyNone)).

End SourceIps.

(** ** The main block *)

Module Main.

(** The parsed command line. *)
Record args : Type := Args {
  arg_input : string;
  arg_output : string;
  arg_proxy : option string;
  arg_verbose : bool
}.

(** Lines 223-228. *)
Definition main_proxies (a : args) : gmap string string :=
  let proxies : gmap string string := ∅ in
  if truthy (py_of_ostr (arg_proxy a)) then
    match arg_proxy a with
    | Some proxy => <["https" := proxy]> (<["http" := proxy]> ∅)
    | None => proxies
    end
  else proxies.

Definition header : list pyval :=
  [PyStr "Timestamp"; PyStr "Source Internal IP"; PyStr "Source External IP";
   PyStr "URL"; PyStr "Vulnerability Status";
   PyStr "Error/Downgrade Version"].

(** The string a value holds; the resolver's third component always is
    one. *)
Definition str_value (v : pyval) : string :=
  match v with
  | PyStr s => s
  | _ => ""
  end.

(** Lines 237-260: the body of [for line in infile:]. *)
Definition scan_line {W} {HW : Host W} {SW : Sys W} {U : Urllib}
  (fuel : nat) (a : args) (proxies : gmap string string)
  (internal_ip external_ip : pyval) (line : string) : M (logged W) unit :=
  let addr := strip line in
  if negb (String.eqb addr "") then
    let* now := perform_sys (datetime_now_strftime "%Y-%m-%d %H:%M:%S") in
    let* _ :=
      if arg_verbose a
      then perform_sys (print_stderr ("Checking " +:+ addr +:+ "..."))
      else ret tt in
    let* '(http2support, err) :=
      Negotiation.check_http2_support addr proxies in
    let* '(hostname, port, uri) :=
      lift (Resolver.extract_hostname_port_uri addr) in
    if http2support =? 1 then
      let* '(resp, err2) :=
        Reset.send_rst_stream_h2 fuel hostname port 1 (str_value uri) 5
          (arg_proxy a) in
      if resp =? 1 then
        perform_sys (csv_writerow [PyStr now; internal_ip; external_ip;
                                   PyStr addr; PyStr "VULNERABLE"; PyStr ""])
      else if resp =? -1 then
        perform_sys (csv_writerow
                       [PyStr now; internal_ip; external_ip; PyStr addr;
                        PyStr "POSSIBLE";
                        PyStr ("Failed to send RST_STREAM: " +:+ err2)])
      else if resp =? 0 then
        perform_sys (csv_writerow
                       [PyStr now; internal_ip; external_ip; PyStr addr;
                        PyStr "LIKELY";
                        PyStr "Got empty response to RST_STREAM request"])
      else ret tt
    else
      if http2support =? 0 then
        perform_sys (csv_writerow
                       [PyStr now; internal_ip; external_ip; PyStr addr;
                        PyStr "SAFE"; PyStr ("Downgraded to " +:+ err)])
      else
        perform_sys (csv_writerow [PyStr now; internal_ip; external_ip;
                                   PyStr addr; PyStr "ERROR"; PyStr err])
  else ret tt.

(** [for line in infile: ...] over the lines the input yields. *)
Fixpoint scan_lines {W} {HW : Host W} {SW : Sys W} {U : Urllib}
  (fuel : nat) (a : args) (proxies : gmap string string)
  (internal_ip external_ip : pyval) (lines : list string)
  : M (logged W) unit :=
  match lines with
  | [] => ret tt
  | line :: lines' =>
      let* _ := scan_line fuel a proxies internal_ip external_ip line in
      scan_lines fuel a proxies internal_ip external_ip lines'
  end.

(** [raise e]. *)
Definition raise {W A} (e : exn) : M W A := fun s => (Raise e, s).

(** Lines 223-260.  [with open(...) as infile, open(...) as outfile:] is
    two nested [with] blocks: each file's [__exit__] runs on both ways
    out of its block, and an exception of its own replaces the one under
    way.  The [for] loop runs over the lines the input yields and ends
    with the iteration's exception, if there is one. *)
Definition main {W} {HW : Host W} {SW : Sys W} {U : Urllib}
  (fuel : nat) (a : args) : M (logged W) unit :=
  let proxies := main_proxies a in
  let* '(internal_ip, external_ip) := SourceIps.get_source_ips proxies in
  let* infile := perform_sys (open_input (arg_input a)) in
  try_finally
    (let* _ := perform_sys (open_output (arg_output a)) in
     try_finally
       (let* _ := perform_sys csv_writer in
        let* _ := perform_sys (csv_writerow header) in
        let* _ := scan_lines fuel a proxies internal_ip external_ip
                    (in_lines infile) in
        match in_error infile with
        | Some e => raise e
        | None => ret tt
        end)
       (perform_sys outfile_exit))
    (perform_sys infile_exit).

(** What the journal shows of the report: the rows written, oldest
    first. *)
Definition row_of (e : sys_entry) : list (list pyval) :=
  match e with
  | SysCalled (csv_writerow row) => [row]
  | _ => []
  end.

Definition rows (j : list sys_entry) : list (list pyval) :=
  flat_map row_of j.

(** The URL column and the verdict column of a row. *)
Definition url_of (row : list pyval) : pyval := nth 3 row PyNone.
Definition verdict_of (row : list pyval) : pyval := nth 4 row PyNone.

Definition verdicts : list pyval :=
  [PyStr "VULNERABLE"; PyStr "POSSIBLE"; PyStr "LIKELY"; PyStr "SAFE";
   PyStr "ERROR"].

End Main.

(** ** What a journal shows *)

Definition jcount (p : sys_entry -> bool) (j : list sys_entry) : nat :=
  length (List.filter p j).

Definition is_s_connect (e : sys_entry) : bool :=
  match e with
  | SysCalled (s_connect _ _) => true
  | _ => false
  end.

Definition is_s_close (e : sys_entry) : bool :=
  match e with
  | SysCalled s_close => true
  | _ => false
  end.

Definition is_print (e : sys_entry) : bool :=
  match e with
  | SysCalled (print_stdout _) => true
  | _ => false
  end.

(** The console, the clock and the report never fail. *)
Definition console_reliable {W} (SW : Sys W) : Prop :=
  forall w,
    (forall line, exists w', sys_respond (print_stderr line) w = (Ok tt, w')) /\
    (forall fmt, exists now w',
        sys_respond (datetime_now_strftime fmt) w = (Ok now, w')) /\
    (forall row, exists w', sys_respond (csv_writerow row) w = (Ok tt, w')).

(** The output file opens, the CSV writer is built and both files
    close without an exception. *)
Definition files_reliable {W} (SW : Sys W) (output : string) : Prop :=
  forall w,
    (exists w', sys_respond (open_output output) w = (Ok tt, w')) /\
    (exists w', sys_respond csv_writer w = (Ok tt, w')) /\
    (exists w', sys_respond outfile_exit w = (Ok tt, w')) /\
    (exists w', sys_respond infile_exit w = (Ok tt, w')).

(** [m] leaves the journal as it is. *)
Definition keeps_journal {W A} (m : M (logged W) A) : Prop :=
  forall s, journal (snd (m s)) = journal s.

(** ** A scripted machine

    A world for both interfaces: the scripted server of [Script] and
    fixed answers for the request to [ifconfig.me], for the UDP socket
    and for the input file.  The console, the clock, the output file and
    the report always work. *)

Module Lab.

Record lab : Type := Lab {
  lab_server : Script.script;
  lab_ifconfig : result http_response;
  lab_connect : result unit;
  lab_getsockname : result (string * Z);
  lab_close : result unit;
  lab_input : result infile
}.

Definition sys_answer (w : lab) {X : Type} (c : sys_call X) : result X :=
  match c in sys_call X return result X with
  | requests_get _ _ _ => lab_ifconfig w
  | socket_socket => Ok tt
  | s_settimeout _ => Ok tt
  | s_connect _ _ => lab_connect w
  | s_getsockname => lab_getsockname w
  | s_close => lab_close w
  | print_stdout _ => Ok tt
  | print_stderr _ => Ok tt
  | datetime_now_strftime _ => Ok "2023-10-13 12:00:00"
  | csv_writerow _ => Ok tt
  | open_input _ => lab_input w
  | open_output _ => Ok tt
  | csv_writer => Ok tt
  | outfile_exit => Ok tt
  | infile_exit => Ok tt
  end.

Definition class_in (classes : list string) (e : exn) : bool :=
  match e with Exn cls _ => existsb (String.eqb cls) classes end.

#[global] Instance lab_sys : Sys lab :=
  {| sys_respond := fun X c w => (sys_answer w c, w);
     is_requests_Timeout :=
       class_in ["Timeout"; "ConnectTimeout"; "ReadTimeout"];
     is_socket_timeout := class_in ["TimeoutError"; "timeout"] |}.

#[global] Instance lab_host : Host lab :=
  {| respond := fun X c w => (Script.answer (lab_server w) c, w) |}.

(** A machine on a network: [ifconfig.me] answers with the given text,
    the socket reports the given local address. *)
Definition online (server : Script.script) (ifconfig_text local_ip : string)
  : lab :=
  {| lab_server := server;
     lab_ifconfig := Ok (HttpResponse ifconfig_text);
     lab_connect := Ok tt;
     lab_getsockname := Ok (local_ip, 54321);
     lab_close := Ok tt;
     lab_input := Ok (Infile [] None) |}.

(** A machine without a route: the UDP connect fails. *)
Definition unrouted (server : Script.script) (ifconfig_text : string)
  : lab :=
  {| lab_server := server;
     lab_ifconfig := Ok (HttpResponse ifconfig_text);
     lab_connect := Err (Exn "OSError" "[Errno 101] Network is unreachable");
     lab_getsockname := Ok ("0.0.0.0", 0);
     lab_close := Ok tt;
     lab_input := Ok (Infile [] None) |}.

(** A machine that cannot reach [ifconfig.me] in time. *)
Definition offline (server : Script.script) : lab :=
  {| lab_server := server;
     lab_ifconfig := Err (Exn "ConnectTimeout" "timed out");
     lab_connect := Ok tt;
     lab_getsockname := Ok ("192.168.1.10", 54321);
     lab_close := Ok tt;
     lab_input := Ok (Infile [] None) |}.

(** The same machine with an input file that yields [lines]. *)
Definition reading (lines : list string) (w : lab) : lab :=
  {| lab_server := lab_server w;
     lab_ifconfig := lab_ifconfig w;
     lab_connect := lab_connect w;
     lab_getsockname := lab_getsockname w;
     lab_close := lab_close w;
     lab_input := Ok (Infile lines None) |}.

End Lab.

(** * Properties of the target resolver *)

Module ResolverFacts.
Import Resolver PyUrllib.

Lemma string_eqb_false (a b : string) : a <> b -> String.eqb a b = false.
Proof. intros Hne. apply String.eqb_neq. exact Hne. Qed.

(** The [try] block, once the parser and both properties have answered. *)
Lemma try_block_parsed (U : Urllib) url p h po :
  urlparse url = Ok p ->
  parsed_hostname p = Ok h ->
  parsed_port p = Ok po ->
  extract_hostname_port_uri url =
    let uri := if String.eqb (pr_path p) "" then "/" else pr_path p in
    if negb (truthy (py_of_ostr h)) then Ok invalid
    else if truthy (py_of_oint po)
         then Ok (py_of_ostr h, py_of_oint po, PyStr uri)
    else if String.eqb (pr_scheme p) "http"
         then Ok (py_of_ostr h, PyInt 80, PyStr uri)
    else if String.eqb (pr_scheme p) "https"
         then Ok (py_of_ostr h, PyInt 443, PyStr uri)
    else Ok (py_of_ostr h, PyTuple [PyInt 80; PyInt 443], PyStr uri).
Proof.
  intros Hp Hh Hpo.
  unfold extract_hostname_port_uri, extract_hostname_port_uri_try, rtry, rbind.
  rewrite Hp, Hh, Hpo. cbv zeta.
  repeat match goal with |- context [if ?b then _ else _] =>
    destruct b end; reflexivity.
Qed.

(** Whatever the parser does, the resolver returns. *)
Lemma resolver_returns (U : Urllib) url :
  exists r, extract_hostname_port_uri url = Ok r.
Proof.
  unfold extract_hostname_port_uri, rtry.
  destruct (extract_hostname_port_uri_try url); eauto.
Qed.

(** An exception from the parser or from either property gives the
    invalid value. *)
Lemma resolver_handler (U : Urllib) url e :
  extract_hostname_port_uri_try url = Err e ->
  extract_hostname_port_uri url = Ok invalid.
Proof.
  intros H. unfold extract_hostname_port_uri, rtry. rewrite H. reflexivity.
Qed.

Lemma path_default_nonempty (path : string) :
  (if String.eqb path "" then "/" else path) <> "".
Proof.
  destruct (String.eqb path "") eqn:E; [discriminate |].
  apply String.eqb_neq in E. exact E.
Qed.

(** The reference [port] property keeps to its documented range. *)
Lemma py_port_in_range (ip : string -> result ip_version) :
  port_in_range (py_urllib_with ip).
Proof.
  intros p n. simpl. unfold py_port.
  destruct (snd (hostinfo p)) as [ds|]; [| discriminate].
  destruct (nonempty ds && str_forall is_digit ds); [| discriminate].
  destruct (int_of_str ds) as [v | e]; simpl; [| discriminate].
  destruct ((0 <=? v) && (v <=? 65535)) eqn:E; simpl; [| discriminate].
  intros H. injection H as <-.
  apply andb_true_iff in E. destruct E as [E1 E2]. lia.
Qed.

(** A digit string above 65535 makes the reference [port] property
    raise. *)
Lemma py_port_out_of_range p host ds :
  hostinfo p = (host, Some ds) ->
  str_forall is_digit ds = true ->
  65535 < int_of_digits 0 ds ->
  exists e, py_port p = Err e.
Proof.
  intros Hi Hd Hgt. unfold py_port. rewrite Hi. simpl.
  assert (Hne : nonempty ds = true).
  { destruct ds; [simpl in Hgt; lia | reflexivity]. }
  rewrite Hne, Hd. simpl. unfold int_of_str.
  destruct (Nat.ltb int_max_str_digits (String.length ds)); simpl; [eauto |].
  replace (int_of_digits 0 ds <=? 65535) with false
    by (symmetry; apply Z.leb_gt; lia).
  rewrite andb_false_r. simpl. eauto.
Qed.

(** C7, as amended.  When the parser extracts a non-empty host and the
    [port] property yields an integer other than 0, the resolver returns
    that host, that very port and the path (["/"] for an empty one),
    whatever the scheme is. *)
Theorem explicit_nonzero_port_preserved (U : Urllib) url p h n :
  has_host U url p h ->
  parsed_port p = Ok (Some n) ->
  n <> 0 ->
  extract_hostname_port_uri url =
    Ok (PyStr h, PyInt n,
        PyStr (if String.eqb (pr_path p) "" then "/" else pr_path p)).
Proof.
  intros (Hp & Hh & Hne) Hport Hn.
  rewrite (try_block_parsed U url p (Some h) (Some n) Hp Hh Hport).
  simpl. rewrite (string_eqb_false h "" Hne). simpl.
  replace (n =? 0) with false by (symmetry; apply Z.eqb_neq; exact Hn).
  reflexivity.
Qed.

(** ["http://example.com:8080/x"] keeps its port 8080. *)
Lemma explicit_nonzero_port_preserved_witness :
  has_host py_urllib "http://example.com:8080/x"
    (ParseResult "http" "example.com:8080" "/x" "" "" "") "example.com" /\
  extract_hostname_port_uri (U := py_urllib) "http://example.com:8080/x" =
    Ok (PyStr "example.com", PyInt 8080, PyStr "/x").
Proof.
  assert (Hh : has_host py_urllib "http://example.com:8080/x"
            (ParseResult "http" "example.com:8080" "/x" "" "" "")
            "example.com").
  { repeat split. discriminate. }
  split; [exact Hh |].
  apply (explicit_nonzero_port_preserved py_urllib
           "http://example.com:8080/x" _ "example.com" 8080 Hh).
  - reflexivity.
  - discriminate.
Defined.

(** C7, as stated, fails: ["https://example.com:99999/"] names the host
    [example.com] and the explicit port [99999], and the resolver does
    not return that port. *)
Lemma explicit_port_99999_not_returned :
  exists p,
    urlparse (Urllib := py_urllib) "https://example.com:99999/" = Ok p /\
    hostinfo p = ("example.com", Some "99999") /\
    extract_hostname_port_uri (U := py_urllib) "https://example.com:99999/"
      = Ok invalid /\
    ~ (exists h u,
         extract_hostname_port_uri (U := py_urllib)
           "https://example.com:99999/" = Ok (h, PyInt 99999, u)).
Proof.
  eexists. split; [reflexivity |]. split; [reflexivity |].
  split; [reflexivity |].
  intros (h & u & H). vm_compute in H. discriminate.
Qed.

(** An explicit port [0] is falsy, so the scheme default is returned in
    its place. *)
Example explicit_port_zero_replaced :
  extract_hostname_port_uri (U := py_urllib) "http://example.com:0/x" =
    Ok (PyStr "example.com", PyInt 80, PyStr "/x").
Proof. reflexivity. Qed.


(** C8.  When no non-empty host can be extracted from the target (the
    parser raises, a property raises, or the host is [None] or empty) the
    resolver returns [-1, -1, ""]; and for a target with a host, a
    readable port and an empty path the returned path is ["/"]. *)
Theorem malformed_invalid_and_empty_path_slash (U : Urllib) url :
  ((forall p h, ~ has_host U url p h) ->
     extract_hostname_port_uri url = Ok invalid) /\
  (forall p h po,
     has_host U url p h -> parsed_port p = Ok po -> pr_path p = "" ->
     exists port_value,
       extract_hostname_port_uri url = Ok (PyStr h, port_value, PyStr "/")).
Proof.
  split.
  - intros Hno.
    destruct (urlparse url) as [p | e] eqn:Hp.
    2:{ apply (resolver_handler U url e).
        unfold extract_hostname_port_uri_try, rbind. rewrite Hp. reflexivity. }
    destruct (parsed_hostname p) as [h | e] eqn:Hh.
    2:{ apply (resolver_handler U url e).
        unfold extract_hostname_port_uri_try, rbind. rewrite Hp, Hh.
        reflexivity. }
    destruct (parsed_port p) as [po | e] eqn:Hpo.
    2:{ apply (resolver_handler U url e).
        unfold extract_hostname_port_uri_try, rbind. rewrite Hp, Hh, Hpo.
        reflexivity. }
    rewrite (try_block_parsed U url p h po Hp Hh Hpo). cbv zeta.
    destruct h as [h |]; [| reflexivity].
    simpl. destruct (String.eqb h "") eqn:E; [reflexivity |].
    exfalso. apply (Hno p h). repeat split; try assumption.
    apply String.eqb_neq. exact E.
  - intros p h po (Hp & Hh & Hne) Hpo Hpath.
    rewrite (try_block_parsed U url p (Some h) po Hp Hh Hpo). cbv zeta.
    rewrite Hpath. simpl. rewrite (string_eqb_false h "" Hne). simpl.
    repeat match goal with |- context [if ?b then _ else _] =>
      destruct b end; eexists; reflexivity.
Qed.

(** The empty string is invalid; ["https://example.com"] gets the path
    ["/"]. *)
Lemma malformed_invalid_and_empty_path_slash_witness :
  extract_hostname_port_uri (U := py_urllib) "" = Ok invalid /\
  exists port_value,
    extract_hostname_port_uri (U := py_urllib) "https://example.com" =
      Ok (PyStr "example.com", port_value, PyStr "/").
Proof.
  split.
  - apply (proj1 (malformed_invalid_and_empty_path_slash py_urllib "")).
    intros p h (Hp & Hh & _). vm_compute in Hp. injection Hp as <-.
    vm_compute in Hh. discriminate.
  - apply (proj2 (malformed_invalid_and_empty_path_slash py_urllib
                    "https://example.com")
             (ParseResult "https" "example.com" "" "" "" "")
             "example.com" None).
    + repeat split. discriminate.
    + reflexivity.
    + reflexivity.
Defined.

(** C10.  When the [port] property raises, whatever the host, the
    exception handler returns [-1, -1, ""]; and with the reference parser
    a port written as digits whose value exceeds 65535 makes the property
    raise, so such a target resolves to [-1, -1, ""]. *)
Theorem port_exception_gives_invalid :
  (forall (U : Urllib) url p h e,
     urlparse url = Ok p -> parsed_hostname p = Ok h ->
     parsed_port p = Err e ->
     extract_hostname_port_uri url = Ok invalid) /\
  (forall ip url p host ds,
     py_urlparse ip url = Ok p ->
     hostinfo p = (host, Some ds) ->
     str_forall is_digit ds = true ->
     65535 < int_of_digits 0 ds ->
     (exists e, py_port p = Err e) /\
     extract_hostname_port_uri (U := py_urllib_with ip) url = Ok invalid).
Proof.
  assert (General : forall (U : Urllib) url p h e,
     urlparse url = Ok p -> parsed_hostname p = Ok h ->
     parsed_port p = Err e ->
     extract_hostname_port_uri url = Ok invalid).
  { intros U url p h e Hp Hh Hpo. apply (resolver_handler U url e).
    unfold extract_hostname_port_uri_try, rbind. rewrite Hp, Hh, Hpo.
    reflexivity. }
  split; [exact General |].
  intros ip url p host ds Hp Hi Hd Hgt.
  destruct (py_port_out_of_range p host ds Hi Hd Hgt) as [e Hport].
  split; [eauto |].
  assert (Hh : exists h, py_hostname p = Ok h).
  { unfold py_hostname.
    destruct (negb (nonempty (fst (hostinfo p)))); [eauto |].
    destruct (partition "%" (fst (hostinfo p))) as [[a b] c]. eauto. }
  destruct Hh as [h Hh].
  exact (General (py_urllib_with ip) url p h _ Hp Hh Hport).
Qed.

(** ["https://example.com:99999/"] is invalid. *)
Lemma port_exception_gives_invalid_witness :
  extract_hostname_port_uri (U := py_urllib) "https://example.com:99999/" =
    Ok invalid.
Proof.
  apply (proj2 port_exception_gives_invalid no_ip_literals
           "https://example.com:99999/"
           (ParseResult "https" "example.com:99999" "/" "" "" "")
           "example.com" "99999").
  - reflexivity.
  - reflexivity.
  - reflexivity.
  - reflexivity.
Defined.

(** The resolver always returns, and what it returns is the invalid value
    or a Target, provided the [port] property keeps to its range. *)
Lemma resolver_invalid_or_target (U : Urllib) url :
  port_in_range U ->
  exists r, extract_hostname_port_uri url = Ok r /\
            (r = invalid \/ is_target r).
Proof.
  intros Hrange.
  destruct (urlparse url) as [p | e] eqn:Hp.
  2:{ exists invalid. split; [| left; reflexivity].
      apply (resolver_handler U url e).
      unfold extract_hostname_port_uri_try, rbind. rewrite Hp. reflexivity. }
  destruct (parsed_hostname p) as [h | e] eqn:Hh.
  2:{ exists invalid. split; [| left; reflexivity].
      apply (resolver_handler U url e).
      unfold extract_hostname_port_uri_try, rbind. rewrite Hp, Hh.
      reflexivity. }
  destruct (parsed_port p) as [po | e] eqn:Hpo.
  2:{ exists invalid. split; [| left; reflexivity].
      apply (resolver_handler U url e).
      unfold extract_hostname_port_uri_try, rbind. rewrite Hp, Hh, Hpo.
      reflexivity. }
  rewrite (try_block_parsed U url p h po Hp Hh Hpo). cbv zeta.
  destruct h as [h |]; [| exists invalid; split; [reflexivity | now left]].
  simpl. destruct (String.eqb h "") eqn:E;
    [exists invalid; split; [reflexivity | now left] |].
  apply String.eqb_neq in E. simpl.
  pose proof (path_default_nonempty (pr_path p)) as Hu.
  destruct po as [n |]; simpl.
  - destruct (n =? 0) eqn:En; simpl.
    + repeat match goal with |- context [if String.eqb ?a ?b then _ else _] =>
        destruct (String.eqb a b) end;
      eexists; (split; [reflexivity |]); right;
      do 3 eexists; (split; [reflexivity |]); (split; [exact E |]);
      (split; [exact Hu |]);
      first [ right; reflexivity | left; eexists; split; [reflexivity | lia] ].
    + apply Z.eqb_neq in En. pose proof (Hrange p n Hpo).
      eexists; (split; [reflexivity |]); right.
      do 3 eexists; (split; [reflexivity |]); (split; [exact E |]);
      (split; [exact Hu |]). left. eexists; split; [reflexivity | lia].
  - repeat match goal with |- context [if String.eqb ?a ?b then _ else _] =>
      destruct (String.eqb a b) end;
    eexists; (split; [reflexivity |]); right;
    do 3 eexists; (split; [reflexivity |]); (split; [exact E |]);
    (split; [exact Hu |]);
    first [ right; reflexivity | left; eexists; split; [reflexivity | lia] ].
Qed.

End ResolverFacts.


(** * How computations compose *)

Module EffectFacts.

Section WithHost.
Context {W : Type} {HW : Host W}.

Lemma total_ret {A} (a : A) : total (ret (W := W) a).
Proof. intros s. discriminate. Qed.

Lemma total_lift {A} (r : result A) : total (lift (W := W) r).
Proof. intros s. unfold lift. destruct r; discriminate. Qed.

Lemma total_perform {X} (c : call X) : total (perform c).
Proof.
  intros s. unfold perform. destruct (respond c (world s)) as [[x | e] w'];
    discriminate.
Qed.

Lemma total_bind {A B} (m : M W A) (k : A -> M W B) :
  total m -> (forall a, total (k a)) -> total (bind m k).
Proof.
  intros Hm Hk s. unfold bind. specialize (Hm s).
  destruct (m s) as [[a | e |] s']; simpl in *.
  - apply Hk.
  - discriminate.
  - congruence.
Qed.

Lemma total_try_except {A} (m : M W A) (h : exn -> M W A) :
  total m -> (forall e, total (h e)) -> total (try_except m h).
Proof.
  intros Hm Hh s. unfold try_except. specialize (Hm s).
  destruct (m s) as [[a | e |] s']; simpl in *.
  - discriminate.
  - apply Hh.
  - congruence.
Qed.

Lemma only_ret {A} p (a : A) : only p (ret (W := W) a).
Proof. intros s. exists []. simpl. rewrite app_nil_r. auto. Qed.

Lemma only_lift {A} p (r : result A) : only p (lift (W := W) r).
Proof.
  intros s. exists []. unfold lift. destruct r; simpl; rewrite app_nil_r; auto.
Qed.

Lemma only_perform {X} p (c : call X) :
  p (Called c) = true -> only p (perform c).
Proof.
  intros Hp s. exists [Called c]. unfold perform.
  destruct (respond c (world s)) as [r w']. simpl. rewrite Hp. auto.
Qed.

Lemma only_bind {A B} p (m : M W A) (k : A -> M W B) :
  only p m -> (forall a, only p (k a)) -> only p (bind m k).
Proof.
  intros Hm Hk s. unfold bind. destruct (Hm s) as (acts1 & E1 & F1).
  destruct (m s) as [[a | e |] s']; simpl in *; eauto.
  destruct (Hk a s') as (acts2 & E2 & F2).
  exists (acts1 ++ acts2). rewrite E2, E1, <- app_assoc. split; [reflexivity |].
  rewrite forallb_app, F1, F2. reflexivity.
Qed.

Lemma only_try_except {A} p (m : M W A) (h : exn -> M W A) :
  only p m -> (forall e, only p (h e)) -> only p (try_except m h).
Proof.
  intros Hm Hh s. unfold try_except. destruct (Hm s) as (acts1 & E1 & F1).
  destruct (m s) as [[a | e |] s']; simpl in *; eauto.
  destruct (Hh e s') as (acts2 & E2 & F2).
  exists (acts1 ++ acts2). rewrite E2, E1, <- app_assoc. split; [reflexivity |].
  rewrite forallb_app, F1, F2. reflexivity.
Qed.

(** A sequence returns only if its first part returned. *)
Lemma bind_ret_inv {A B} (m : M W A) (k : A -> M W B) s b s' :
  bind m k s = (Ret b, s') ->
  exists a s0, m s = (Ret a, s0) /\ k a s0 = (Ret b, s').
Proof.
  unfold bind. destruct (m s) as [[a | e |] s0]; try discriminate. eauto.
Qed.

(** A call never runs out of fuel and logs exactly itself. *)
Lemma perform_cases {X} (c : call X) s :
  (exists x w', perform c s = (Ret x, State w' (trace s ++ [Called c]))) \/
  (exists e w', perform c s = (Raise e, State w' (trace s ++ [Called c]))).
Proof.
  unfold perform. destruct (respond c (world s)) as [[x | e] w'];
    [left | right]; eauto.
Qed.

End WithHost.

Lemma count_app p t1 t2 : count p (t1 ++ t2) = (count p t1 + count p t2)%nat.
Proof. unfold count. rewrite List.filter_app, length_app. reflexivity. Qed.

Lemma count_none p t :
  forallb (fun e => negb (p e)) t = true -> count p t = 0%nat.
Proof.
  unfold count. induction t as [| e t IH]; simpl; [reflexivity |].
  intros H. apply andb_true_iff in H. destruct H as [He Ht].
  destruct (p e); [discriminate | auto].
Qed.

Lemma only_weaken {W A} (p q : entry -> bool) (m : M W A) :
  (forall e, p e = true -> q e = true) -> only p m -> only q m.
Proof.
  intros Hpq Hm s. destruct (Hm s) as (acts & E & F).
  exists acts. split; [exact E |].
  rewrite forallb_forall in *. auto.
Qed.

Lemma perform_trace {W} {HW : Host W} {X} (c : call X) s r s' :
  perform c s = (r, s') -> trace s' = trace s ++ [Called c].
Proof.
  unfold perform. destruct (respond c (world s)) as [r0 w'].
  intros H. inversion H; subst. reflexivity.
Qed.

Lemma connections_app t1 t2 :
  connections (t1 ++ t2) = connections t1 ++ connections t2.
Proof. unfold connections. apply flat_map_app. Qed.

Lemma connections_none t :
  forallb (fun e => negb (creates_transport e)) t = true ->
  connections t = [].
Proof.
  unfold connections. induction t as [| e t IH]; simpl; [reflexivity |].
  intros H. apply andb_true_iff in H. destruct H as [He Ht].
  rewrite (IH Ht). unfold creates_transport in He.
  destruct (transport_of e); [reflexivity | discriminate].
Qed.

End EffectFacts.

(** * Properties of the negotiation prober *)

Module NegotiationFacts.
Import Negotiation EffectFacts.

Section WithHost.
Context {W : Type} {HW : Host W}.

Lemma total_with_client {A} kwargs (body : M W A) :
  total body -> total (with_client kwargs body).
Proof.
  intros Hb. unfold with_client.
  apply total_bind; [apply total_perform | intros _].
  apply total_bind; [apply total_perform | intros _].
  intros s. specialize (Hb s). destruct (body s) as [[a | e |] s']; simpl in *.
  - apply (total_bind (perform client_exit) (fun _ => ret a));
      [apply total_perform | intros _; apply total_ret].
  - unfold bind. destruct (perform_cases client_exit s')
      as [(x & w' & E) | (e' & w' & E)]; rewrite E; discriminate.
  - congruence.
Qed.

Lemma total_request url proxies : total (request url proxies).
Proof.
  unfold request.
  apply total_bind.
  - destruct (dict_truthy proxies); [| apply total_ret].
    apply total_bind; [apply total_lift | intros http].
    apply total_bind; [apply total_lift | intros https]. apply total_ret.
  - intros local_proxies. apply total_with_client. apply total_perform.
Qed.

(** The response [request] returns is the one [client.get(url)]
    returned. *)
Lemma request_returns_get_response url proxies s resp s' :
  request url proxies s = (Ret resp, s') ->
  exists w w', respond (client_get url) w = (Ok resp, w') /\
               In (Called (client_get url)) (trace s').
Proof.
  unfold request. intros H.
  apply bind_ret_inv in H. destruct H as (local_proxies & s0 & _ & H).
  unfold with_client in H.
  apply bind_ret_inv in H. destruct H as (x1 & s1 & _ & H).
  apply bind_ret_inv in H. destruct H as (x2 & s2 & _ & H).
  unfold perform at 1 in H.
  destruct (respond (client_get url) (world s2)) as [[r | e] w3] eqn:Eget.
  - apply bind_ret_inv in H. destruct H as (x4 & s4 & E4 & H).
    unfold ret in H. injection H as <- <-.
    exists (world s2), w3. split; [exact Eget |].
    destruct (perform_cases client_exit
                (State w3 (trace s2 ++ [Called (client_get url)])))
      as [(x & w' & E) | (e' & w' & E)]; rewrite E in E4; [| discriminate].
    injection E4 as _ <-. simpl.
    apply in_or_app. left. apply in_or_app. right. left. reflexivity.
  - unfold bind in H.
    destruct (perform_cases client_exit
                (State w3 (trace s2 ++ [Called (client_get url)])))
      as [(x & w' & E) | (e' & w' & E)]; rewrite E in H; discriminate.
Qed.

(** The prober on a request that came back with a response. *)
Lemma check_on_response url proxies (s : state W) resp s' :
  request url proxies s = (Ret resp, s') ->
  check_http2_support url proxies s =
    (Ret (if String.eqb (http_version resp) "HTTP/2"
          then (1, "") else (0, http_version resp)), s').
Proof.
  intros Hreq.
  unfold check_http2_support, try_except, check_http2_support_try, bind.
  rewrite Hreq. destruct (String.eqb (http_version resp) "HTTP/2");
    reflexivity.
Qed.

(** The prober on a request that raised. *)
Lemma check_on_exception url proxies (s : state W) e s' :
  request url proxies s = (Raise e, s') ->
  check_http2_support url proxies s =
    (Ret (-1, "check_http2_support - " +:+ exn_str e), s').
Proof.
  intros Hreq.
  unfold check_http2_support, try_except, check_http2_support_try, bind.
  rewrite Hreq. reflexivity.
Qed.

(** C3.  When the request succeeds with a response, the prober returns
    status 1 exactly when the response's version string is ["HTTP/2"],
    and otherwise status 0 with that version string; when the request
    raises, it returns status -1 with a message built from the
    exception. *)
Theorem negotiation_classifies url proxies (s : state W) :
  (forall resp s',
     request url proxies s = (Ret resp, s') ->
     exists st msg,
       check_http2_support url proxies s = (Ret (st, msg), s') /\
       (st = 1 <-> http_version resp = "HTTP/2") /\
       (http_version resp = "HTTP/2" -> msg = "") /\
       (http_version resp <> "HTTP/2" ->
          st = 0 /\ msg = http_version resp)) /\
  (forall e s',
     request url proxies s = (Raise e, s') ->
     check_http2_support url proxies s =
       (Ret (-1, "check_http2_support - " +:+ exn_str e), s')).
Proof.
  split.
  - intros resp s' Hreq. rewrite (check_on_response _ _ _ _ _ Hreq).
    destruct (String.eqb (http_version resp) "HTTP/2") eqn:E.
    + apply String.eqb_eq in E. exists 1, "".
      repeat split; auto; try congruence.
    + apply String.eqb_neq in E. exists 0, (http_version resp).
      repeat split; auto; try congruence; try discriminate.
  - intros e s' Hreq. exact (check_on_exception _ _ _ _ _ Hreq).
Qed.

(** The negotiation prober always returns, with status 1, 0 or -1. *)
Lemma negotiation_returns url proxies (s : state W) :
  exists st msg s',
    check_http2_support url proxies s = (Ret (st, msg), s') /\
    (st = 1 \/ st = 0 \/ st = -1).
Proof.
  pose proof (total_request url proxies s) as Htot.
  destruct (request url proxies s) as [[resp | e |] s'] eqn:Hreq;
    simpl in Htot; [| | congruence].
  - rewrite (check_on_response _ _ _ _ _ Hreq).
    destruct (String.eqb (http_version resp) "HTTP/2");
      do 3 eexists; (split; [reflexivity | auto]).
  - rewrite (check_on_exception _ _ _ _ _ Hreq).
    do 3 eexists. split; [reflexivity | auto].
Qed.

End WithHost.

(** A server that negotiates HTTP/1.1 is reported as status 0 with
    ["HTTP/1.1"]. *)
Lemma negotiation_classifies_witness :
  exists st msg s',
    check_http2_support "https://example.com" ∅
      (init (Script.negotiating "HTTP/1.1")) = (Ret (st, msg), s') /\
    st = 0 /\ msg = "HTTP/1.1".
Proof.
  assert (Hreq :
    request "https://example.com" ∅ (init (Script.negotiating "HTTP/1.1")) =
      (Ret (Response "HTTP/1.1"),
       snd (request "https://example.com" ∅
              (init (Script.negotiating "HTTP/1.1"))))).
  { vm_compute. reflexivity. }
  destruct (proj1 (negotiation_classifies "https://example.com" ∅
                     (init (Script.negotiating "HTTP/1.1")))
              (Response "HTTP/1.1") _ Hreq)
    as (st & msg & E & _ & _ & Hne).
  exists st, msg. eexists. split; [exact E |].
  apply Hne. discriminate.
Defined.

End NegotiationFacts.

(** * Properties of the reset prober *)

Module ResetFacts.
Import Reset EffectFacts.

Section WithHost.
Context {W : Type} {HW : Host W} {U : Urllib}.

(** ** Return values *)

Lemma returns_ret {A} (q : A -> Prop) (a : A) : q a -> returns q (ret (W := W) a).
Proof. intros Hq s a' s' H. injection H as <- _. exact Hq. Qed.

Lemma returns_bind {A B} (pre : A -> Prop) (q : B -> Prop)
  (m : M W A) (k : A -> M W B) :
  returns pre m -> (forall a, pre a -> returns q (k a)) ->
  returns q (bind m k).
Proof.
  intros Hm Hk s b s' H. apply bind_ret_inv in H.
  destruct H as (a & s0 & Ha & Hb). exact (Hk a (Hm s a s0 Ha) s0 b s' Hb).
Qed.

Lemma returns_any {A} (m : M W A) : returns (fun _ => True) m.
Proof. intros s a s' _. exact I. Qed.

Lemma returns_try_except {A} (q : A -> Prop) (m : M W A) (h : exn -> M W A) :
  returns q m -> (forall e, returns q (h e)) -> returns q (try_except m h).
Proof.
  intros Hm Hh s a s' H. unfold try_except in H.
  destruct (m s) as [[a0 | e |] s0] eqn:E; try discriminate.
  - injection H as <- <-. exact (Hm s a0 s0 E).
  - exact (Hh e s0 a s' H).
Qed.

(** ** The pieces of the receive loop *)

Lemma py_eq_int_true v n : py_eq_int v n = true -> v = PyInt n.
Proof.
  destruct v; simpl; try discriminate. intros H. apply Z.eqb_eq in H.
  congruence.
Qed.

Lemma total_reset_and_flush id : total (reset_and_flush id).
Proof.
  unfold reset_and_flush.
  apply total_bind; [apply total_perform | intros _].
  apply total_bind; [apply total_perform | intros d]. apply total_perform.
Qed.

Lemma only_reset_and_flush p id :
  p (Called (h2_reset_stream id)) = true ->
  p (Called h2_data_to_send) = true ->
  (forall d, p (Called (conn_send d)) = true) ->
  only p (reset_and_flush id).
Proof.
  intros H1 H2 H3. unfold reset_and_flush.
  apply only_bind; [apply only_perform, H1 | intros _].
  apply only_bind; [apply only_perform, H2 | intros d].
  apply only_perform, H3.
Qed.

(** A reset that goes through logs the reset, the flush and the send. *)
Lemma reset_and_flush_trace id s s' :
  reset_and_flush id s = (Ret tt, s') ->
  exists d, trace s' = trace s ++ [Called (h2_reset_stream id);
                                  Called h2_data_to_send;
                                  Called (conn_send d)].
Proof.
  unfold reset_and_flush. intros H.
  apply bind_ret_inv in H. destruct H as (x1 & s1 & E1 & H).
  apply bind_ret_inv in H. destruct H as (d & s2 & E2 & H).
  exists d.
  destruct (perform_cases (h2_reset_stream id) s)
    as [(y & w1 & F) | (e & w1 & F)]; rewrite F in E1; [| discriminate].
  inversion E1; subst; clear E1.
  destruct (perform_cases h2_data_to_send
              (State w1 (trace s ++ [Called (h2_reset_stream id)])))
    as [(y2 & w2 & F2) | (e & w2 & F2)]; rewrite F2 in E2; [| discriminate].
  inversion E2; subst; clear E2.
  destruct (perform_cases (conn_send d)
              (State w2 ((trace s ++ [Called (h2_reset_stream id)])
                           ++ [Called h2_data_to_send])))
    as [(y3 & w3 & F3) | (e & w3 & F3)]; rewrite F3 in H; [| discriminate].
  inversion H; subst; clear H. simpl. rewrite <- !app_assoc. reflexivity.
Qed.

(** The [for] loop finds no event for the stream: nothing is sent. *)
Lemma scan_events_no_match stream_id events (s : state W) :
  existsb (on_stream stream_id) events = false ->
  scan_events stream_id events s = (Ret false, s).
Proof.
  induction events as [| ev events IH]; simpl; [reflexivity |].
  intros H. apply orb_false_iff in H. destruct H as [Hev Hrest].
  unfold on_stream in Hev. destruct (ev_stream_id ev) as [v |].
  - rewrite Hev. apply IH, Hrest.
  - apply IH, Hrest.
Qed.

(** The [for] loop finds an event for the stream: it resets that stream
    once, at the first such event, and looks no further. *)
Lemma scan_events_match stream_id events (s : state W) :
  existsb (on_stream stream_id) events = true ->
  scan_events stream_id events s =
    bind (reset_and_flush (PyInt stream_id)) (fun _ => ret true) s.
Proof.
  induction events as [| ev events IH]; simpl; [discriminate |].
  intros H. unfold on_stream at 1 in H.
  destruct (ev_stream_id ev) as [v |].
  - destruct (py_eq_int v stream_id) eqn:E.
    + apply py_eq_int_true in E. subst v. reflexivity.
    + apply IH. exact H.
  - apply IH. exact H.
Qed.

Lemma total_scan_events stream_id events : total (scan_events stream_id events).
Proof.
  induction events as [| ev events IH]; simpl; [apply total_ret |].
  destruct (ev_stream_id ev) as [v |]; [| exact IH].
  destruct (py_eq_int v stream_id); [| exact IH].
  apply total_bind; [apply total_reset_and_flush | intros _; apply total_ret].
Qed.

Lemma only_scan_events p stream_id events :
  (forall id, p (Called (h2_reset_stream id)) = true) ->
  p (Called h2_data_to_send) = true ->
  (forall d, p (Called (conn_send d)) = true) ->
  only p (scan_events stream_id events).
Proof.
  intros H1 H2 H3.
  induction events as [| ev events IH]; simpl; [apply only_ret |].
  destruct (ev_stream_id ev) as [v |]; [| exact IH].
  destruct (py_eq_int v stream_id); [| exact IH].
  apply only_bind; [apply only_reset_and_flush; auto | intros _; apply only_ret].
Qed.

Lemma total_receive_step stream_id : total (receive_step stream_id).
Proof.
  unfold receive_step.
  apply total_bind; [apply total_perform | intros data].
  destruct data as [| b data]; [apply total_ret |].
  apply total_bind; [apply total_perform | intros events].
  apply total_bind; [apply total_scan_events | intros has_sent].
  destruct has_sent; [apply total_ret |].
  apply total_bind; [apply total_perform | intros available_id].
  destruct (available_id =? 0);
    (apply total_bind; [apply total_reset_and_flush | intros _; apply total_ret]).
Qed.

(** One pass through the loop body never asks for another pass: it
    breaks, returns status 1 or 0, or raises. *)
Lemma returns_receive_step stream_id :
  returns (fun c => c = Break \/ c = Return (1, "") \/
                    c = Return (0, stream_1_message))
          (receive_step stream_id).
Proof.
  unfold receive_step.
  apply (returns_bind (fun _ => True)); [apply returns_any | intros data _].
  destruct data as [| b data]; [apply returns_ret; auto |].
  apply (returns_bind (fun _ => True)); [apply returns_any | intros events _].
  apply (returns_bind (fun _ => True)); [apply returns_any | intros has_sent _].
  destruct has_sent; [apply returns_ret; auto |].
  apply (returns_bind (fun _ => True)); [apply returns_any | intros id _].
  destruct (id =? 0);
    (apply (returns_bind (fun _ => True)); [apply returns_any | intros _ _]);
    apply returns_ret; auto.
Qed.

Lemma only_receive_step p stream_id :
  (forall n, p (Called (conn_sock_recv n)) = true) ->
  (forall d, p (Called (h2_receive_data d)) = true) ->
  (forall id, p (Called (h2_reset_stream id)) = true) ->
  p (Called h2_data_to_send) = true ->
  (forall d, p (Called (conn_send d)) = true) ->
  p (Called h2_get_next_available_stream_id) = true ->
  only p (receive_step stream_id).
Proof.
  intros H1 H2 H3 H4 H5 H6. unfold receive_step.
  apply only_bind; [apply only_perform, H1 | intros data].
  destruct data as [| b data]; [apply only_ret |].
  apply only_bind; [apply only_perform, H2 | intros events].
  apply only_bind; [apply only_scan_events; auto | intros has_sent].
  destruct has_sent; [apply only_ret |].
  apply only_bind; [apply only_perform, H6 | intros id].
  destruct (id =? 0);
    (apply only_bind; [apply only_reset_and_flush; auto
                      | intros _; apply only_ret]).
Qed.

(** ** Setting up *)

Lemma only_create_connection host port timeout proxy :
  only setup_call (create_connection (W := W) host port timeout proxy).
Proof.
  unfold create_connection.
  apply only_bind; [apply only_perform; reflexivity | intros ctx0].
  apply only_bind; [apply only_lift | intros ctx1].
  apply only_bind; [apply only_lift | intros ctx2].
  destruct (proxy_set proxy).
  - apply only_bind; [apply only_lift | intros parts].
    destruct (py_eq_int port 443);
      (apply only_bind; [apply only_lift | intros ph]);
      (apply only_bind; [apply only_lift | intros pp]);
      (apply only_bind; [apply only_perform; reflexivity | intros _]);
      apply only_perform; reflexivity.
  - destruct (py_eq_int port 443); apply only_perform; reflexivity.
Qed.

Lemma total_create_connection host port timeout proxy :
  total (create_connection (W := W) host port timeout proxy).
Proof.
  unfold create_connection.
  apply total_bind; [apply total_perform | intros ctx0].
  apply total_bind; [apply total_lift | intros ctx1].
  apply total_bind; [apply total_lift | intros ctx2].
  destruct (proxy_set proxy).
  - apply total_bind; [apply total_lift | intros parts].
    destruct (py_eq_int port 443);
      (apply total_bind; [apply total_lift | intros ph]);
      (apply total_bind; [apply total_lift | intros pp]);
      (apply total_bind; [apply total_perform | intros _]);
      apply total_perform.
  - destruct (py_eq_int port 443); apply total_perform.
Qed.

Lemma only_send_request host stream_id uri_path :
  only request_call (send_request (W := W) host stream_id uri_path).
Proof.
  unfold send_request.
  repeat (apply only_bind; [apply only_perform; reflexivity | intros ?]).
  apply only_perform; reflexivity.
Qed.

Lemma total_send_request host stream_id uri_path :
  total (send_request (W := W) host stream_id uri_path).
Proof.
  unfold send_request.
  repeat (apply total_bind; [apply total_perform | intros ?]).
  apply total_perform.
Qed.

Lemma only_loop_receive_step stream_id :
  only loop_call (receive_step (W := W) stream_id).
Proof. apply only_receive_step; reflexivity. Qed.

(** ** The loop *)

Lemma only_while_true p fuel (body : M W ctl) :
  only p body -> only p (while_true fuel body).
Proof.
  intros Hb. induction fuel as [| fuel IH]; simpl.
  - intros s. exists []. simpl. rewrite app_nil_r. auto.
  - apply only_bind; [exact Hb | intros c].
    destruct c; [exact IH | apply only_ret | apply only_ret].
Qed.

(** With a body that never continues, one iteration is all there is. *)
Lemma while_true_once fuel (body : M W ctl) s :
  returns (fun c => c <> Continue) body ->
  while_true (S fuel) body s =
    match body s with
    | (Ret Break, s') => (Ret None, s')
    | (Ret (Return v), s') => (Ret (Some v), s')
    | (Ret Continue, s') => (OutOfFuel, s')
    | (Raise e, s') => (Raise e, s')
    | (OutOfFuel, s') => (OutOfFuel, s')
    end.
Proof.
  intros Hb. simpl. unfold bind.
  destruct (body s) as [[c | e |] s'] eqn:E; try reflexivity.
  destruct c; try reflexivity. exfalso. exact (Hb s Continue s' E eq_refl).
Qed.

Lemma receive_step_never_continues stream_id :
  returns (fun c => c <> Continue) (receive_step (W := W) stream_id).
Proof.
  intros s c s' H.
  destruct (returns_receive_step stream_id s c s' H) as [-> | [-> | ->]];
    discriminate.
Qed.

Lemma total_receive_loop fuel stream_id :
  total (while_true (W := W) (S fuel) (receive_step stream_id)).
Proof.
  intros s.
  rewrite (while_true_once fuel _ s (receive_step_never_continues stream_id)).
  pose proof (total_receive_step stream_id s) as Ht.
  pose proof (receive_step_never_continues stream_id s) as Hc.
  destruct (receive_step stream_id s) as [[c | e |] s']; simpl in *;
    try discriminate; [| congruence].
  destruct c; try discriminate. exfalso. exact (Hc Continue s' eq_refl eq_refl).
Qed.

(** The loop body runs once: more fuel changes nothing. *)
Lemma receive_loop_fuel fuel stream_id (s : state W) :
  while_true (S fuel) (receive_step stream_id) s =
  while_true 1 (receive_step stream_id) s.
Proof.
  rewrite !(while_true_once _ _ s (receive_step_never_continues stream_id)).
  reflexivity.
Qed.

(** ** After the request has been sent *)

Section AfterSetup.
Variables (fuel : nat) (host port : pyval) (stream_id : Z)
          (uri_path : string) (timeout : Z) (proxy : option string).
Variables (s s0 s1 : state W).
Hypothesis Hcreate :
  create_connection host port timeout proxy s = (Ret tt, s0).
Hypothesis Hrequest :
  send_request host stream_id uri_path s0 = (Ret tt, s1).

Lemma run_after_setup :
  send_rst_stream_h2 (S fuel) host port stream_id uri_path timeout proxy s =
    match receive_step stream_id s1 with
    | (Ret (Return v), s2) => (Ret v, s2)
    | (Ret Break, s2) =>
        match perform conn_close s2 with
        | (Ret _, s3) => (Ret (0, "No response"), s3)
        | (Raise e, s3) =>
            (Ret (-1, "send_rst_stream_h2 - " +:+ exn_str e), s3)
        | (OutOfFuel, s3) => (OutOfFuel, s3)
        end
    | (Ret Continue, s2) => (OutOfFuel, s2)
    | (Raise e, s2) => (Ret (-1, "send_rst_stream_h2 - " +:+ exn_str e), s2)
    | (OutOfFuel, s2) => (OutOfFuel, s2)
    end.
Proof.
  unfold send_rst_stream_h2, try_except, send_rst_stream_h2_try.
  unfold bind at 1. rewrite Hcreate.
  unfold bind at 1. rewrite Hrequest.
  unfold bind at 1.
  rewrite (while_true_once fuel _ s1 (receive_step_never_continues stream_id)).
  destruct (receive_step stream_id s1) as [[c | e |] s2]; try reflexivity.
  destruct c; try reflexivity.
  unfold bind. destruct (perform conn_close s2) as [[x | e |] s3]; reflexivity.
Qed.

(** The trace up to the first read holds no read, no reset and no
    close. *)
Lemma setup_trace_quiet :
  s = init (world s) ->
  count is_recv (trace s1) = 0%nat /\ count is_reset (trace s1) = 0%nat /\
  count is_close (trace s1) = 0%nat.
Proof.
  intros Hs.
  destruct (only_create_connection host port timeout proxy s)
    as (acts0 & E0 & F0).
  destruct (only_send_request host stream_id uri_path s0)
    as (acts1 & E1 & F1).
  rewrite Hcreate in E0. rewrite Hrequest in E1. simpl in E0, E1.
  rewrite Hs in E0. simpl in E0. rewrite E1, E0.
  rewrite !count_app.
  assert (Q0 : forall q, (forall e, setup_call e = true -> q e = false) ->
                         count q acts0 = 0%nat).
  { intros q Hq. apply count_none. rewrite forallb_forall in *.
    intros e He. rewrite (Hq e (F0 e He)). reflexivity. }
  assert (Q1 : forall q, (forall e, request_call e = true -> q e = false) ->
                         count q acts1 = 0%nat).
  { intros q Hq. apply count_none. rewrite forallb_forall in *.
    intros e He. rewrite (Hq e (F1 e He)). reflexivity. }
  repeat split; (rewrite Q0, Q1; [reflexivity | |]);
    intros [X c]; destruct c; simpl; congruence.
Qed.

End AfterSetup.

(** C5.  Once the request has been sent, a read of zero bytes ends the
    loop; the connection is closed and the prober returns
    [(0, "No response")], having sent no reset. *)
Theorem peer_closed_no_response fuel host port stream_id uri_path timeout
  proxy (w : W) s0 s1 s2 s3 :
  create_connection host port timeout proxy (init w) = (Ret tt, s0) ->
  send_request host stream_id uri_path s0 = (Ret tt, s1) ->
  perform (conn_sock_recv 65535) s1 = (Ret [], s2) ->
  perform conn_close s2 = (Ret tt, s3) ->
  send_rst_stream_h2 (S fuel) host port stream_id uri_path timeout proxy
    (init w) = (Ret (0, "No response"), s3) /\
  count is_reset (trace s3) = 0%nat.
Proof.
  intros Hc Hr Hrecv Hclose.
  rewrite (run_after_setup fuel host port stream_id uri_path timeout proxy
             (init w) s0 s1 Hc Hr).
  unfold receive_step, bind. rewrite Hrecv. unfold ret. rewrite Hclose.
  split; [reflexivity |].
  destruct (setup_trace_quiet host port stream_id uri_path timeout proxy
              (init w) s0 s1 Hc Hr eq_refl) as (_ & Hreset & _).
  rewrite (perform_trace _ _ _ _ Hclose), (perform_trace _ _ _ _ Hrecv).
  rewrite !count_app, Hreset. reflexivity.
Qed.



(** A return from inside the loop leaves without closing the
    connection. *)
Lemma early_return_skips_close fuel host port stream_id uri_path timeout
  proxy (w : W) s0 s1 s2 v :
  create_connection host port timeout proxy (init w) = (Ret tt, s0) ->
  send_request host stream_id uri_path s0 = (Ret tt, s1) ->
  receive_step stream_id s1 = (Ret (Return v), s2) ->
  send_rst_stream_h2 (S fuel) host port stream_id uri_path timeout proxy
    (init w) = (Ret v, s2) /\
  count is_close (trace s2) = 0%nat.
Proof.
  intros Hc Hr Hstep.
  rewrite (run_after_setup fuel host port stream_id uri_path timeout proxy
             (init w) s0 s1 Hc Hr), Hstep.
  split; [reflexivity |].
  destruct (setup_trace_quiet host port stream_id uri_path timeout proxy
              (init w) s0 s1 Hc Hr eq_refl) as (_ & _ & Qclose).
  destruct (only_loop_receive_step stream_id s1) as (acts & E & F).
  rewrite Hstep in E. simpl in E. rewrite E, count_app, Qclose.
  rewrite count_none; [reflexivity |].
  rewrite forallb_forall in *. intros e He. specialize (F e He).
  destruct e as [X c]; destruct c; simpl in *; congruence.
Qed.

(** An exception in the loop is reported as status -1, and the
    connection is not closed either. *)
Lemma loop_exception_skips_close fuel host port stream_id uri_path timeout
  proxy (w : W) s0 s1 s2 e :
  create_connection host port timeout proxy (init w) = (Ret tt, s0) ->
  send_request host stream_id uri_path s0 = (Ret tt, s1) ->
  receive_step stream_id s1 = (Raise e, s2) ->
  send_rst_stream_h2 (S fuel) host port stream_id uri_path timeout proxy
    (init w) = (Ret (-1, "send_rst_stream_h2 - " +:+ exn_str e), s2) /\
  count is_close (trace s2) = 0%nat.
Proof.
  intros Hc Hr Hstep.
  rewrite (run_after_setup fuel host port stream_id uri_path timeout proxy
             (init w) s0 s1 Hc Hr), Hstep.
  split; [reflexivity |].
  destruct (setup_trace_quiet host port stream_id uri_path timeout proxy
              (init w) s0 s1 Hc Hr eq_refl) as (_ & _ & Qclose).
  destruct (only_loop_receive_step stream_id s1) as (acts & E & F).
  rewrite Hstep in E. simpl in E. rewrite E, count_app, Qclose.
  rewrite count_none; [reflexivity |].
  rewrite forallb_forall in *. intros x Hx. specialize (F x Hx).
  destruct x as [X c]; destruct c; simpl in *; congruence.
Qed.

(** With an event for the stream, a reset that raises is reported as
    status -1. *)
Lemma failed_reset_is_error fuel host port stream_id uri_path timeout
  proxy (w : W) s0 s1 s2 s3 s4 data events e :
  create_connection host port timeout proxy (init w) = (Ret tt, s0) ->
  send_request host stream_id uri_path s0 = (Ret tt, s1) ->
  perform (conn_sock_recv 65535) s1 = (Ret data, s2) ->
  data <> [] ->
  perform (h2_receive_data data) s2 = (Ret events, s3) ->
  existsb (on_stream stream_id) events = true ->
  reset_and_flush (PyInt stream_id) s3 = (Raise e, s4) ->
  send_rst_stream_h2 (S fuel) host port stream_id uri_path timeout proxy
    (init w) = (Ret (-1, "send_rst_stream_h2 - " +:+ exn_str e), s4).
Proof.
  intros Hc Hr Hrecv Hdata Hdecode Hmatch Hreset.
  rewrite (run_after_setup fuel host port stream_id uri_path timeout proxy
             (init w) s0 s1 Hc Hr).
  unfold receive_step. unfold bind at 1. rewrite Hrecv.
  destruct data as [| b data]; [congruence |].
  unfold bind at 1. rewrite Hdecode.
  unfold bind at 1. rewrite (scan_events_match stream_id events s3 Hmatch).
  unfold bind at 1. rewrite Hreset. reflexivity.
Qed.

(** ** The transport *)

(** The context handed to [HTTPSConnection] has both checks off,
    whatever [ssl.create_default_context()] returned. *)
Lemma context_checks_disabled ctx0 :
  rbind (set_check_hostname false ctx0) (set_verify_mode CERT_NONE) =
    Ok {| check_hostname := false; verify_mode := CERT_NONE |}.
Proof. destruct ctx0 as [ch vm]. destruct vm; reflexivity. Qed.

(** What [create_connection] constructs: nothing if it raises early, a
    TLS connection with both checks off when [port == 443], a plain one
    otherwise; with or without a proxy. *)
Lemma constructor_then (c : call unit) (k : M W unit) (s : state W) r s' :
  only (fun e => negb (creates_transport e)) k ->
  bind (perform c) (fun _ => k) s = (r, s') ->
  exists acts,
    trace s' = trace s ++ acts /\
    connections acts = connections [Called c].
Proof.
  intros Hk. unfold bind.
  destruct (perform_cases c s) as [(x & w' & F) | (e & w' & F)]; rewrite F.
  - destruct (Hk (State w' (trace s ++ [Called c]))) as (acts & Ea & Fa).
    intros H. rewrite H in Ea. simpl in Ea.
    exists ([Called c] ++ acts). rewrite Ea, <- app_assoc.
    split; [reflexivity |].
    rewrite connections_app, (connections_none acts Fa), app_nil_r.
    reflexivity.
  - intros H. inversion H; subst. exists [Called c]. split; reflexivity.
Qed.

Lemma create_connection_transport host port timeout proxy (s : state W) r s' :
  create_connection host port timeout proxy s = (r, s') ->
  exists acts,
    trace s' = trace s ++ acts /\
    ((connections acts = [] /\ exists e, r = Raise e)
     \/ (py_eq_int port 443 = true /\
         connections acts =
           [TLS {| check_hostname := false; verify_mode := CERT_NONE |}])
     \/ (py_eq_int port 443 = false /\ connections acts = [Plain])).
Proof.
  unfold create_connection. unfold bind at 1.
  destruct (perform_cases ssl_create_default_context s)
    as [(ctx0 & w0 & E) | (e & w0 & E)]; rewrite E.
  2:{ intros H. inversion H; subst.
      exists [Called ssl_create_default_context]. split; [reflexivity |].
      left. split; [reflexivity | eauto]. }
  pose proof (context_checks_disabled ctx0) as Hctx.
  unfold bind at 1. unfold lift at 1.
  destruct (set_check_hostname false ctx0) as [ctx1 | e1]; [| discriminate].
  unfold rbind in Hctx. unfold bind at 1. unfold lift at 1. rewrite Hctx.
  set (s1 := State w0 (trace s ++ [Called ssl_create_default_context])).
  intros H.
  enough (Hrest : exists acts,
    trace s' = trace s1 ++ acts /\
    ((connections acts = [] /\ exists e, r = Raise e)
     \/ (py_eq_int port 443 = true /\
         connections acts =
           [TLS {| check_hostname := false; verify_mode := CERT_NONE |}])
     \/ (py_eq_int port 443 = false /\ connections acts = [Plain]))).
  { destruct Hrest as (acts & Ea & Hcases).
    exists ([Called ssl_create_default_context] ++ acts).
    rewrite Ea. unfold s1. simpl trace. rewrite <- app_assoc.
    split; [reflexivity |]. rewrite connections_app. exact Hcases. }
  assert (Htunnel : only (fun e => negb (creates_transport e))
                      (perform (conn_set_tunnel host port))).
  { apply only_perform. reflexivity. }
  assert (Hraise : forall e, (Raise e, s1) = (r, s') ->
    exists acts,
      trace s' = trace s1 ++ acts /\
      ((connections acts = [] /\ exists e, r = Raise e)
       \/ (py_eq_int port 443 = true /\
           connections acts =
             [TLS {| check_hostname := false; verify_mode := CERT_NONE |}])
       \/ (py_eq_int port 443 = false /\ connections acts = [Plain]))).
  { intros e He. inversion He; subst. exists []. rewrite app_nil_r.
    split; [reflexivity |]. left. eauto. }
  destruct (proxy_set proxy).
  - unfold bind at 1 in H. unfold lift at 1 in H.
    destruct (urlparse _) as [parts | e]; [| exact (Hraise e H)].
    destruct (py_eq_int port 443) eqn:E443.
    + unfold bind at 1 in H. unfold lift at 1 in H.
      destruct (parsed_hostname parts) as [ph | e]; [| exact (Hraise e H)].
      unfold bind at 1 in H. unfold lift at 1 in H.
      destruct (parsed_port parts) as [pp | e]; [| exact (Hraise e H)].
      destruct (constructor_then _ _ s1 r s' Htunnel H) as (acts & Ea & Ca).
      exists acts. split; [exact Ea |]. right. left. auto.
    + unfold bind at 1 in H. unfold lift at 1 in H.
      destruct (parsed_hostname parts) as [ph | e]; [| exact (Hraise e H)].
      unfold bind at 1 in H. unfold lift at 1 in H.
      destruct (parsed_port parts) as [pp | e]; [| exact (Hraise e H)].
      destruct (constructor_then _ _ s1 r s' Htunnel H) as (acts & Ea & Ca).
      exists acts. split; [exact Ea |]. right. right. auto.
  - destruct (py_eq_int port 443) eqn:E443.
    + exists [Called (HTTPSConnection host port timeout
                        {| check_hostname := false; verify_mode := CERT_NONE |})].
      split; [exact (perform_trace _ _ _ _ H) | right; left; auto].
    + exists [Called (HTTPConnection host port timeout)].
      split; [exact (perform_trace _ _ _ _ H) | right; right; auto].
Qed.

Lemma try_except_bind {A B} (m : M W A) (k : A -> M W B) h s :
  try_except (bind m k) h s =
    match m s with
    | (Ret a, s') => try_except (k a) h s'
    | (Raise e, s') => h e s'
    | (OutOfFuel, s') => (OutOfFuel, s')
    end.
Proof.
  unfold try_except, bind. destruct (m s) as [[a | e |] s']; reflexivity.
Qed.

(** After the connection object exists, no other is constructed. *)
Lemma only_after_creation fuel host stream_id uri_path :
  only (fun e => negb (creates_transport e))
    (try_except
       (let* _ := send_request (W := W) host stream_id uri_path in
        let* returned := while_true fuel (receive_step stream_id) in
        match returned with
        | Some v => ret v
        | None => let* _ := perform conn_close in ret (0, "No response")
        end)
       (fun e => ret (-1, "send_rst_stream_h2 - " +:+ exn_str e))).
Proof.
  apply only_try_except; [| intros e; apply only_ret].
  apply only_bind.
  { apply (only_weaken request_call); [| apply only_send_request].
    intros [X c]; destruct c; simpl; congruence. }
  intros _. apply only_bind.
  { apply only_while_true.
    apply (only_weaken loop_call); [| apply only_loop_receive_step].
    intros [X c]; destruct c; simpl; congruence. }
  intros [v |]; [apply only_ret |].
  apply only_bind; [apply only_perform; reflexivity | intros _].
  apply only_ret.
Qed.

(** What [create_connection] constructs, read off the world: when
    [ssl.create_default_context()] returns and the endpoint can be read
    (always without a proxy; with one, when its URL parses and its host
    and port can be read), exactly one connection, TLS with both checks
    off for [port == 443] and plain otherwise; nothing, and an
    exception, in the other cases. *)
Lemma create_connection_world host port timeout proxy (s : state W) r s' :
  create_connection host port timeout proxy s = (r, s') ->
  exists acts,
    trace s' = trace s ++ acts /\
    match fst (respond ssl_create_default_context (world s)),
          connect_endpoint host port proxy with
    | Ok _, Ok _ =>
        connections acts =
          [if py_eq_int port 443
           then TLS {| check_hostname := false; verify_mode := CERT_NONE |}
           else Plain]
    | _, _ => connections acts = [] /\ exists e, r = Raise e
    end.
Proof.
  unfold create_connection. unfold bind at 1. unfold perform at 1.
  destruct (respond ssl_create_default_context (world s)) as [[ctx0 | e] w0].
  2:{ intros H. inversion H; subst.
      exists [Called ssl_create_default_context]. split; [reflexivity |].
      simpl. split; [reflexivity | eauto]. }
  pose proof (context_checks_disabled ctx0) as Hctx.
  unfold bind at 1. unfold lift at 1.
  destruct (set_check_hostname false ctx0) as [ctx1 | e1]; [| discriminate].
  unfold rbind in Hctx. unfold bind at 1. unfold lift at 1. rewrite Hctx.
  set (s1 := State w0 (trace s ++ [Called ssl_create_default_context])).
  intros H. cbn [fst].
  enough (Hrest : exists acts,
    trace s' = trace s1 ++ acts /\
    match connect_endpoint host port proxy with
    | Ok _ =>
        connections acts =
          [if py_eq_int port 443
           then TLS {| check_hostname := false; verify_mode := CERT_NONE |}
           else Plain]
    | Err _ => connections acts = [] /\ exists e, r = Raise e
    end).
  { destruct Hrest as (acts & Ea & Hcases).
    exists ([Called ssl_create_default_context] ++ acts).
    rewrite Ea. unfold s1. simpl trace. rewrite <- app_assoc.
    split; [reflexivity |]. rewrite connections_app. exact Hcases. }
  assert (Htunnel : only (fun e => negb (creates_transport e))
                      (perform (conn_set_tunnel host port))).
  { apply only_perform. reflexivity. }
  unfold connect_endpoint, proxy_endpoint, rbind.
  destruct proxy as [p |]; [destruct (proxy_set (Some p)) |];
    [| change (proxy_set None) with false in H ..].
  - assert (Hraise : forall e, (Raise e, s1) = (r, s') ->
      exists acts,
        trace s' = trace s1 ++ acts /\
        (connections acts = [] /\ exists e, r = Raise e)).
    { intros e He. inversion He; subst. exists []. rewrite app_nil_r.
      split; [reflexivity |]. eauto. }
    unfold bind at 1 in H. unfold lift at 1 in H.
    destruct (urlparse p) as [parts | e]; [| exact (Hraise e H)].
    destruct (py_eq_int port 443) eqn:E443;
      unfold bind at 1 in H; unfold lift at 1 in H;
      (destruct (parsed_hostname parts) as [ph | e]; [| exact (Hraise e H)]);
      unfold bind at 1 in H; unfold lift at 1 in H;
      (destruct (parsed_port parts) as [pp | e]; [| exact (Hraise e H)]);
      destruct (constructor_then _ _ s1 r s' Htunnel H) as (acts & Ea & Ca);
      exists acts; (split; [exact Ea | exact Ca]).
  - destruct (py_eq_int port 443) eqn:E443; eexists;
      (split; [exact (perform_trace _ _ _ _ H) | reflexivity]).
  - destruct (py_eq_int port 443) eqn:E443; eexists;
      (split; [exact (perform_trace _ _ _ _ H) | reflexivity]).
Qed.

(** C6.  Whether the connection is wrapped in TLS is decided by
    [port == 443] alone, with or without a proxy.  In every run from a
    fresh trace in which [ssl.create_default_context()] returned and the
    endpoint could be read (the target's without a proxy, which always
    can; the proxy's host and port otherwise), exactly one connection
    constructor is called: [HTTPSConnection], with host-name checking
    off and [CERT_NONE], if [port == 443], and [HTTPConnection] if not.
    When the context creation raised, or the proxy URL could not be
    read, no constructor is called. *)
Theorem tls_iff_port_443 fuel host port stream_id uri_path timeout proxy
  (w : W) :
  let t := trace (snd (send_rst_stream_h2 fuel host port stream_id uri_path
                         timeout proxy (init w))) in
  (forall ctx w1 h p,
     respond ssl_create_default_context w = (Ok ctx, w1) ->
     connect_endpoint host port proxy = Ok (h, p) ->
     connections t =
       [if py_eq_int port 443
        then TLS {| check_hostname := false; verify_mode := CERT_NONE |}
        else Plain]) /\
  (forall e w1,
     respond ssl_create_default_context w = (Err e, w1) ->
     connections t = []) /\
  (forall e,
     connect_endpoint host port proxy = Err e -> connections t = []).
Proof.
  cbv zeta.
  destruct (create_connection host port timeout proxy (init w))
    as [r s0] eqn:Hc.
  destruct (create_connection_world _ _ _ _ _ _ _ Hc)
    as (acts & Ea & Hcases). simpl in Ea, Hcases.
  assert (Ht : connections
                 (trace (snd (send_rst_stream_h2 fuel host port stream_id
                                uri_path timeout proxy (init w))))
               = connections acts).
  { unfold send_rst_stream_h2, send_rst_stream_h2_try.
    rewrite try_except_bind, Hc.
    destruct r as [[] | e |].
    - destruct (only_after_creation fuel host stream_id uri_path s0)
        as (acts2 & E2 & F2).
      rewrite E2, Ea, connections_app, (connections_none acts2 F2), app_nil_r.
      reflexivity.
    - simpl. rewrite Ea. reflexivity.
    - simpl. rewrite Ea. reflexivity. }
  rewrite Ht. split; [| split].
  - intros ctx w1 h p Hctx Hend. rewrite Hctx, Hend in Hcases. exact Hcases.
  - intros e w1 Hctx. rewrite Hctx in Hcases. apply Hcases.
  - intros e Hend. rewrite Hend in Hcases.
    destruct (fst (respond ssl_create_default_context w)); apply Hcases.
Qed.

(** ** Every run returns *)

Lemma returns_while_true (q : Z * string -> Prop) fuel (body : M W ctl) :
  returns (fun c => match c with Return v => q v | _ => True end) body ->
  returns (fun r => match r with Some v => q v | None => True end)
          (while_true fuel body).
Proof.
  intros Hb. induction fuel as [| fuel IH]; simpl.
  - intros s a s' H. discriminate.
  - apply (returns_bind
             (fun c => match c with Return v => q v | _ => True end));
      [exact Hb | intros c Hc].
    destruct c; [exact IH | apply returns_ret; exact I
                | apply returns_ret; exact Hc].
Qed.

Lemma total_send_rst_stream_h2 fuel host port stream_id uri_path timeout
  proxy :
  total (send_rst_stream_h2 (W := W) (S fuel) host port stream_id uri_path
           timeout proxy).
Proof.
  unfold send_rst_stream_h2, send_rst_stream_h2_try.
  apply total_try_except; [| intros e; apply total_ret].
  apply total_bind; [apply total_create_connection | intros _].
  apply total_bind; [apply total_send_request | intros _].
  apply total_bind; [apply total_receive_loop | intros returned].
  destruct returned as [v |]; [apply total_ret |].
  apply total_bind; [apply total_perform | intros _; apply total_ret].
Qed.

Lemma returns_send_rst_stream_h2 fuel host port stream_id uri_path timeout
  proxy :
  returns status_ok
    (send_rst_stream_h2 (W := W) fuel host port stream_id uri_path
       timeout proxy).
Proof.
  unfold send_rst_stream_h2, send_rst_stream_h2_try.
  apply returns_try_except;
    [| intros e; apply returns_ret; right; right; reflexivity].
  apply (returns_bind (fun _ => True)); [apply returns_any | intros _ _].
  apply (returns_bind (fun _ => True)); [apply returns_any | intros _ _].
  apply (returns_bind
           (fun r => match r with Some v => status_ok v | None => True end)).
  - apply returns_while_true. intros s c s' H.
    destruct (returns_receive_step stream_id s c s' H) as [-> | [-> | ->]].
    + exact I.
    + left. reflexivity.
    + right. left. reflexivity.
  - intros [v |] Hv; [apply returns_ret; exact Hv |].
    apply (returns_bind (fun _ => True)); [apply returns_any | intros _ _].
    apply returns_ret. right. left. reflexivity.
Qed.

(** The reset prober always returns, with status 1, 0 or -1; the loop
    needs one iteration. *)
Lemma reset_prober_returns fuel host port stream_id uri_path timeout proxy
  (s : state W) :
  exists st msg s',
    send_rst_stream_h2 (S fuel) host port stream_id uri_path timeout proxy s
      = (Ret (st, msg), s') /\
    (st = 1 \/ st = 0 \/ st = -1).
Proof.
  pose proof (total_send_rst_stream_h2 fuel host port stream_id uri_path
                timeout proxy s) as Ht.
  pose proof (returns_send_rst_stream_h2 (S fuel) host port stream_id
                uri_path timeout proxy s) as Hr.
  destruct (send_rst_stream_h2 (S fuel) host port stream_id uri_path timeout
              proxy s) as [[[st msg] | e |] s'] eqn:E; simpl in Ht.
  - exists st, msg, s'. split; [reflexivity |]. exact (Hr (st, msg) s' eq_refl).
  - exfalso.
    unfold send_rst_stream_h2, try_except, ret in E.
    destruct (send_rst_stream_h2_try _ _ _ _ _ _ _ s) as [[a | e0 |] s0];
      discriminate.
  - congruence.
Qed.

(** More fuel than one iteration changes nothing. *)
Lemma fuel_is_irrelevant fuel host port stream_id uri_path timeout proxy
  (s : state W) :
  send_rst_stream_h2 (S fuel) host port stream_id uri_path timeout proxy s =
  send_rst_stream_h2 1 host port stream_id uri_path timeout proxy s.
Proof.
  unfold send_rst_stream_h2, send_rst_stream_h2_try.
  rewrite !try_except_bind.
  destruct (create_connection host port timeout proxy s) as [[[] | e |] s0];
    try reflexivity.
  rewrite !try_except_bind.
  destruct (send_request host stream_id uri_path s0) as [[[] | e |] s1];
    try reflexivity.
  rewrite !try_except_bind, (receive_loop_fuel fuel stream_id s1).
  reflexivity.
Qed.

End WithHost.
End ResetFacts.

(** * Runs against scripted servers *)

Module RunFacts.
Import Resolver Negotiation Reset Script PyUrllib Runs.
Import ResolverFacts NegotiationFacts ResetFacts.

(** A server that closes at once: [(0, "No response")]. *)
Lemma peer_closed_no_response_witness :
  exists s3,
    probe closing = (Ret (0, "No response"), s3) /\
    count is_reset (trace s3) = 0%nat.
Proof.
  eexists. unfold probe.
  eapply (peer_closed_no_response (U := py_urllib) 0 (PyStr "example.com")
            (PyInt 443) 1 "/" 5 None closing).
  - vm_compute. reflexivity.
  - vm_compute. reflexivity.
  - vm_compute. reflexivity.
  - vm_compute. reflexivity.
Defined.




(** Port 443 gives the TLS connection with both checks off, port 80 the
    plain one, directly and through a proxy. *)
Lemma tls_iff_port_443_witness :
  connections (trace (snd (probe closing))) = [TLS checks_off] /\
  connections
    (trace (snd (send_rst_stream_h2 (U := py_urllib) 1 (PyStr "example.com")
                   (PyInt 80) 1 "/" 5 None (init closing)))) = [Plain] /\
  connections
    (trace (snd (send_rst_stream_h2 (U := py_urllib) 1 (PyStr "example.com")
                   (PyInt 443) 1 "/" 5 (Some "http://proxy.example:3128")
                   (init closing)))) = [TLS checks_off] /\
  connections
    (trace (snd (send_rst_stream_h2 (U := py_urllib) 1 (PyStr "example.com")
                   (PyInt 80) 1 "/" 5 (Some "http://proxy.example:3128")
                   (init closing)))) = [Plain].
Proof.
  split; [| split; [| split]].
  - exact (proj1 (tls_iff_port_443 (U := py_urllib) 1 (PyStr "example.com")
                    (PyInt 443) 1 "/" 5 None closing)
             default_context closing (PyStr "example.com") (PyInt 443)
             eq_refl eq_refl).
  - exact (proj1 (tls_iff_port_443 (U := py_urllib) 1 (PyStr "example.com")
                    (PyInt 80) 1 "/" 5 None closing)
             default_context closing (PyStr "example.com") (PyInt 80)
             eq_refl eq_refl).
  - exact (proj1 (tls_iff_port_443 (U := py_urllib) 1 (PyStr "example.com")
                    (PyInt 443) 1 "/" 5 (Some "http://proxy.example:3128")
                    closing)
             default_context closing (PyStr "proxy.example") (PyInt 3128)
             eq_refl eq_refl).
  - exact (proj1 (tls_iff_port_443 (U := py_urllib) 1 (PyStr "example.com")
                    (PyInt 80) 1 "/" 5 (Some "http://proxy.example:3128")
                    closing)
             default_context closing (PyStr "proxy.example") (PyInt 3128)
             eq_refl eq_refl).
Defined.

(** C9, on the code.  When the prober returns from inside the loop, and
    when a read raises, the connection it connected is never closed
    before the prober returns; only the zero-byte path closes it. *)
Theorem early_exits_leave_connection_open :
  (exists s',
     probe (answering frame [response_event 1] 3) = (Ret (1, ""), s') /\
     count is_connect (trace s') = 1%nat /\
     count is_close (trace s') = 0%nat) /\
  (exists s',
     probe timing_out = (Ret (-1, "send_rst_stream_h2 - timed out"), s') /\
     count is_connect (trace s') = 1%nat /\
     count is_close (trace s') = 0%nat) /\
  (exists s',
     probe closing = (Ret (0, "No response"), s') /\
     count is_connect (trace s') = 1%nat /\
     count is_close (trace s') = 1%nat).
Proof.
  repeat split; eexists; (split; [reflexivity |]); split; reflexivity.
Qed.

(** C2.  Each of the three operations returns on every input and in every
    world: the two probers a status of 1, 0 or -1 (the reset prober after
    one loop iteration), the resolver the invalid value or a Target, as
    long as the [port] property keeps to its documented range. *)
Theorem core_operations_return (W : Type) (HW : Host W) (U : Urllib) :
  port_in_range U ->
  (forall url proxies (s : state W),
     exists st msg s',
       check_http2_support url proxies s = (Ret (st, msg), s') /\
       (st = 1 \/ st = 0 \/ st = -1)) /\
  (forall fuel host port stream_id uri_path timeout proxy (s : state W),
     exists st msg s',
       send_rst_stream_h2 (S fuel) host port stream_id uri_path timeout
         proxy s = (Ret (st, msg), s') /\
       (st = 1 \/ st = 0 \/ st = -1)) /\
  (forall url,
     exists r, extract_hostname_port_uri url = Ok r /\
               (r = invalid \/ is_target r)).
Proof.
  intros Hrange. split; [| split].
  - intros url proxies s. apply negotiation_returns.
  - intros. apply reset_prober_returns.
  - intros url. apply resolver_invalid_or_target. exact Hrange.
Qed.

(** The three operations against a server that refuses the connection,
    and the resolver on a target without a scheme. *)
Lemma core_operations_return_witness :
  port_in_range py_urllib /\
  (exists st msg s',
     check_http2_support "https://example.com" ∅ (init refusing)
       = (Ret (st, msg), s') /\ (st = 1 \/ st = 0 \/ st = -1)) /\
  (exists st msg s',
     probe refusing = (Ret (st, msg), s') /\
     (st = 1 \/ st = 0 \/ st = -1)) /\
  (exists r, extract_hostname_port_uri (U := py_urllib) "example.com:8080"
               = Ok r /\ (r = invalid \/ is_target r)).
Proof.
  pose proof (py_port_in_range no_ip_literals) as Hrange.
  destruct (core_operations_return script script_host py_urllib Hrange)
    as (Hneg & Hreset & Hres).
  split; [exact Hrange |]. split; [| split].
  - apply Hneg.
  - apply (Hreset 0%nat).
  - apply Hres.
Defined.

End RunFacts.

(** * Further properties of the target resolver *)

Module MoreResolverFacts.
Import Resolver PyUrllib ResolverFacts.

(** X1.  Without a port, or with port 0 (which [if port:] takes for absent),
    the resolver returns the host, the default port of the scheme (80 for
    [http], 443 for [https], the pair [(80, 443)] for anything else) and
    the path, ["/"] for an empty one. *)
Theorem absent_or_zero_port_gets_scheme_default (U : Urllib) url p h po :
  has_host U url p h ->
  parsed_port p = Ok po ->
  po = None \/ po = Some 0 ->
  extract_hostname_port_uri url =
    Ok (PyStr h, scheme_port (pr_scheme p),
        PyStr (if String.eqb (pr_path p) "" then "/" else pr_path p)).
Proof.
  intros (Hp & Hh & Hne) Hport Hpo.
  rewrite (try_block_parsed U url p (Some h) po Hp Hh Hport).
  simpl. rewrite (string_eqb_false h "" Hne). simpl.
  assert (Hfalsy : truthy (py_of_oint po) = false)
    by (destruct Hpo as [-> | ->]; reflexivity).
  rewrite Hfalsy. unfold scheme_port.
  destruct (String.eqb (pr_scheme p) "http"); [reflexivity |].
  destruct (String.eqb (pr_scheme p) "https"); reflexivity.
Qed.

(** A target without a scheme: both candidate ports. *)
Lemma absent_or_zero_port_gets_scheme_default_witness :
  extract_hostname_port_uri (U := py_urllib) "//Example.com:0" =
    Ok (PyStr "example.com", PyTuple [PyInt 80; PyInt 443], PyStr "/").
Proof.
  apply (absent_or_zero_port_gets_scheme_default py_urllib "//Example.com:0"
           (ParseResult "" "Example.com:0" "" "" "" "") "example.com"
           (Some 0)).
  - repeat split. discriminate.
  - reflexivity.
  - right. reflexivity.
Defined.

(** The third component of what the resolver returns is always a
    string, and the first is a string or [-1]. *)
Lemma resolver_shape (U : Urllib) url :
  exists hv pv u,
    extract_hostname_port_uri url = Ok (hv, pv, PyStr u) /\
    (hv = PyInt (-1) \/ exists h, hv = PyStr h /\ h <> "").
Proof.
  destruct (urlparse url) as [p | e] eqn:Hp.
  2:{ exists (PyInt (-1)), (PyInt (-1)), "". split; [| now left].
      apply (resolver_handler U url e).
      unfold extract_hostname_port_uri_try, rbind. rewrite Hp. reflexivity. }
  destruct (parsed_hostname p) as [h | e] eqn:Hh.
  2:{ exists (PyInt (-1)), (PyInt (-1)), "". split; [| now left].
      apply (resolver_handler U url e).
      unfold extract_hostname_port_uri_try, rbind. rewrite Hp, Hh.
      reflexivity. }
  destruct (parsed_port p) as [po | e] eqn:Hpo.
  2:{ exists (PyInt (-1)), (PyInt (-1)), "". split; [| now left].
      apply (resolver_handler U url e).
      unfold extract_hostname_port_uri_try, rbind. rewrite Hp, Hh, Hpo.
      reflexivity. }
  rewrite (try_block_parsed U url p h po Hp Hh Hpo). cbv zeta.
  destruct h as [h |]; simpl.
  2:{ do 3 eexists. split; [reflexivity | now left]. }
  destruct (String.eqb h "") eqn:E; simpl.
  { do 3 eexists. split; [reflexivity | now left]. }
  apply String.eqb_neq in E.
  repeat match goal with |- context [if ?b then _ else _] =>
    destruct b end;
  do 3 eexists; (split; [reflexivity | right; eauto]).
Qed.

End MoreResolverFacts.

(** * Further properties of the reset prober *)

Module MoreResetFacts.
Import Reset EffectFacts ResetFacts.

Section WithHost.
Context {W : Type} {HW : Host W} {U : Urllib}.

(** ** Counting calls *)

Lemma at_most_of_only {A} q (m : M W A) :
  only (fun e => negb (q e)) m -> at_most q 0 m.
Proof.
  intros Hm s. destruct (Hm s) as (acts & E & F).
  exists acts. split; [exact E |]. rewrite (count_none q acts F). lia.
Qed.

Lemma at_most_ret {A} q (a : A) : at_most q 0 (ret (W := W) a).
Proof. intros s. exists []. simpl. rewrite app_nil_r. split; [reflexivity | unfold count; simpl; lia]. Qed.

Lemma at_most_perform {X} q (c : call X) n :
  (count q [Called c] <= n)%nat -> at_most q n (perform c).
Proof.
  intros Hn s. exists [Called c]. split; [| exact Hn].
  apply (perform_trace c s (fst (perform c s))). apply surjective_pairing.
Qed.

Lemma at_most_bind {A B} q n1 n2 (m : M W A) (k : A -> M W B) :
  at_most q n1 m -> (forall a, at_most q n2 (k a)) ->
  at_most q (n1 + n2) (bind m k).
Proof.
  intros Hm Hk s. unfold bind. destruct (Hm s) as (acts1 & E1 & F1).
  destruct (m s) as [[a | e |] s']; simpl in *;
    try (exists acts1; split; [exact E1 | lia]).
  destruct (Hk a s') as (acts2 & E2 & F2).
  exists (acts1 ++ acts2). rewrite E2, E1, <- app_assoc.
  split; [reflexivity |]. rewrite count_app. lia.
Qed.

Lemma at_most_try_except {A} q n1 n2 (m : M W A) (h : exn -> M W A) :
  at_most q n1 m -> (forall e, at_most q n2 (h e)) ->
  at_most q (n1 + n2) (try_except m h).
Proof.
  intros Hm Hh s. unfold try_except. destruct (Hm s) as (acts1 & E1 & F1).
  destruct (m s) as [[a | e |] s']; simpl in *;
    try (exists acts1; split; [exact E1 | lia]).
  destruct (Hh e s') as (acts2 & E2 & F2).
  exists (acts1 ++ acts2). rewrite E2, E1, <- app_assoc.
  split; [reflexivity |]. rewrite count_app. lia.
Qed.

Lemma at_most_mono {A} q n n' (m : M W A) :
  (n <= n')%nat -> at_most q n m -> at_most q n' m.
Proof.
  intros Hn Hm s. destruct (Hm s) as (acts & E & F).
  exists acts. split; [exact E | lia].
Qed.

Lemma at_most_ext {A} q n (m m' : M W A) :
  (forall s, m s = m' s) -> at_most q n m' -> at_most q n m.
Proof. intros He Hm s. rewrite He. apply Hm. Qed.

(** ** The loop body, summarised *)

Lemma bind_ext {A B} (m : M W A) (k k' : A -> M W B) s :
  (forall a s', k a s' = k' a s') -> bind m k s = bind m k' s.
Proof.
  intros Hk. unfold bind. destruct (m s) as [[a | e |] s']; auto.
Qed.

(** The [for] loop amounts to one reset at the first event for the
    stream. *)
Lemma receive_step_summary_eq stream_id (s : state W) :
  receive_step stream_id s = receive_step_summary stream_id s.
Proof.
  unfold receive_step, receive_step_summary.
  apply bind_ext. intros data s1.
  destruct data as [| b data]; [reflexivity |].
  apply bind_ext. intros events s2.
  destruct (existsb (on_stream stream_id) events) eqn:Hm.
  - unfold bind.
    rewrite (scan_events_match stream_id events s2 Hm). unfold bind.
    destruct (reset_and_flush (PyInt stream_id) s2) as [[[] | e |] s3];
      reflexivity.
  - unfold bind at 1.
    rewrite (scan_events_no_match stream_id events s2 Hm). reflexivity.
Qed.

(** What one pass through the loop body leaves in the trace, by the way
    it ends. *)
Lemma receive_step_outcomes stream_id (s : state W) c s' :
  receive_step stream_id s = (Ret c, s') ->
  (c = Break /\ trace s' = trace s ++ [Called (conn_sock_recv 65535)]) \/
  (exists data d id,
     trace s' = trace s ++ [Called (conn_sock_recv 65535);
                            Called (h2_receive_data data);
                            Called (h2_reset_stream (PyInt id));
                            Called h2_data_to_send; Called (conn_send d)] /\
     c = Return (1, "") /\ id = stream_id) \/
  (exists data d id,
     trace s' = trace s ++ [Called (conn_sock_recv 65535);
                            Called (h2_receive_data data);
                            Called h2_get_next_available_stream_id;
                            Called (h2_reset_stream (PyInt id));
                            Called h2_data_to_send; Called (conn_send d)] /\
     ((c = Return (0, stream_1_message) /\ id = 1) \/
      (c = Return (1, "") /\ id <> 0))).
Proof.
  rewrite receive_step_summary_eq. unfold receive_step_summary. intros H.
  apply bind_ret_inv in H. destruct H as (data & s1 & E1 & H).
  pose proof (perform_trace _ _ _ _ E1) as T1.
  destruct data as [| b data].
  { injection H as <- <-. left. auto. }
  apply bind_ret_inv in H. destruct H as (events & s2 & E2 & H).
  pose proof (perform_trace _ _ _ _ E2) as T2.
  destruct (existsb (on_stream stream_id) events).
  - apply bind_ret_inv in H. destruct H as ([] & s3 & E3 & H).
    injection H as <- <-.
    destruct (reset_and_flush_trace _ _ _ E3) as (d & T3).
    right. left. exists (b :: data), d, stream_id.
    rewrite T3, T2, T1, <- !app_assoc. auto.
  - apply bind_ret_inv in H. destruct H as (id & s3 & E3 & H).
    pose proof (perform_trace _ _ _ _ E3) as T3.
    destruct (id =? 0) eqn:Eid.
    + apply Z.eqb_eq in Eid. subst id.
      apply bind_ret_inv in H. destruct H as ([] & s4 & E4 & H).
      injection H as <- <-.
      destruct (reset_and_flush_trace _ _ _ E4) as (d & T4).
      right. right. exists (b :: data), d, 1.
      rewrite T4, T3, T2, T1, <- !app_assoc. auto.
    + apply Z.eqb_neq in Eid.
      apply bind_ret_inv in H. destruct H as ([] & s4 & E4 & H).
      injection H as <- <-.
      destruct (reset_and_flush_trace _ _ _ E4) as (d & T4).
      right. right. exists (b :: data), d, id.
      rewrite T4, T3, T2, T1, <- !app_assoc. auto.
Qed.

(** ** The fallback on a fresh stream id *)

(** X2.  When no event of the read is for the stream and the allocator
    answers an id other than 0, the prober tries to reset that id, not
    the stream the request went out on.  If [reset_stream] raises, as
    [h2] does for a stream that was never opened, the result is status -1
    with the exception's text, and the run ends with the allocator query
    and the reset call: nothing is flushed or sent.  If the reset, the
    flush and the send return, the result is [(1, "")], and that reset
    is the only one of the run. *)
Theorem next_available_id_fallback fuel host port stream_id uri_path
  timeout proxy (w : W) s0 s1 s2 s3 s4 data events id :
  create_connection host port timeout proxy (init w) = (Ret tt, s0) ->
  send_request host stream_id uri_path s0 = (Ret tt, s1) ->
  perform (conn_sock_recv 65535) s1 = (Ret data, s2) ->
  data <> [] ->
  perform (h2_receive_data data) s2 = (Ret events, s3) ->
  existsb (on_stream stream_id) events = false ->
  perform h2_get_next_available_stream_id s3 = (Ret id, s4) ->
  id <> 0 ->
  (forall e s5,
     perform (h2_reset_stream (PyInt id)) s4 = (Raise e, s5) ->
     send_rst_stream_h2 (S fuel) host port stream_id uri_path timeout proxy
       (init w) = (Ret (-1, "send_rst_stream_h2 - " +:+ exn_str e), s5) /\
     trace s5 = trace s3 ++ [Called h2_get_next_available_stream_id;
                             Called (h2_reset_stream (PyInt id))]) /\
  (forall s5,
     reset_and_flush (PyInt id) s4 = (Ret tt, s5) ->
     send_rst_stream_h2 (S fuel) host port stream_id uri_path timeout proxy
       (init w) = (Ret (1, ""), s5) /\
     count is_reset (trace s5) = 1%nat /\
     exists d, trace s5 =
                 trace s3 ++ [Called h2_get_next_available_stream_id;
                              Called (h2_reset_stream (PyInt id));
                              Called h2_data_to_send; Called (conn_send d)]).
Proof.
  intros Hc Hr Hrecv Hdata Hdecode Hmatch Hnext Hid.
  assert (Hrun : forall r s5,
            reset_and_flush (PyInt id) s4 = (r, s5) ->
            send_rst_stream_h2 (S fuel) host port stream_id uri_path timeout
              proxy (init w) =
              match r with
              | Ret _ => (Ret (1, ""), s5)
              | Raise e => (Ret (-1, "send_rst_stream_h2 - " +:+ exn_str e), s5)
              | OutOfFuel => (OutOfFuel, s5)
              end).
  { intros r s5 Hreset.
    rewrite (run_after_setup fuel host port stream_id uri_path timeout proxy
               (init w) s0 s1 Hc Hr).
    rewrite receive_step_summary_eq. unfold receive_step_summary.
    unfold bind at 1. rewrite Hrecv.
    destruct data as [| b data]; [congruence |].
    unfold bind at 1. rewrite Hdecode, Hmatch.
    unfold bind at 1. rewrite Hnext.
    replace (id =? 0) with false by (symmetry; apply Z.eqb_neq; exact Hid).
    unfold bind at 1. rewrite Hreset. destruct r; reflexivity. }
  pose proof (perform_trace _ _ _ _ Hnext) as Tn.
  split.
  - intros e s5 Hreset.
    assert (Hflush : reset_and_flush (PyInt id) s4 = (Raise e, s5)).
    { unfold reset_and_flush. unfold bind at 1. rewrite Hreset. reflexivity. }
    split; [exact (Hrun _ _ Hflush) |].
    rewrite (perform_trace _ _ _ _ Hreset), Tn, <- app_assoc. reflexivity.
  - intros s5 Hreset.
    split; [exact (Hrun _ _ Hreset) |].
    destruct (setup_trace_quiet host port stream_id uri_path timeout proxy
                (init w) s0 s1 Hc Hr eq_refl) as (_ & Qreset & _).
    destruct (reset_and_flush_trace _ _ _ Hreset) as (d & Et).
    split.
    + rewrite Et, Tn, (perform_trace _ _ _ _ Hdecode),
        (perform_trace _ _ _ _ Hrecv).
      rewrite !count_app, Qreset. reflexivity.
    + exists d. rewrite Et, Tn, <- app_assoc. reflexivity.
Qed.

(** ** No step is taken twice *)

Lemma at_most_reset_and_flush q id :
  (forall d, q (Called (conn_send d)) = false) ->
  q (Called h2_data_to_send) = false ->
  at_most (W := W) q 1 (reset_and_flush id).
Proof.
  intros Hsend Hdts. unfold reset_and_flush.
  apply (at_most_bind q 1 0).
  { apply at_most_perform. unfold count. simpl.
    destruct (q (Called (h2_reset_stream id))); simpl; lia. }
  intros _. apply (at_most_bind q 0 0).
  { apply at_most_perform. unfold count. simpl. rewrite Hdts. simpl. lia. }
  intros d. apply at_most_perform. unfold count. simpl. rewrite Hsend.
  simpl. lia.
Qed.

Lemma at_most_receive_step_reset stream_id :
  at_most (W := W) is_reset 1 (receive_step stream_id).
Proof.
  apply (at_most_ext _ _ _ (receive_step_summary stream_id));
    [apply receive_step_summary_eq |].
  unfold receive_step_summary.
  apply (at_most_bind is_reset 0 1);
    [apply at_most_perform; unfold count; simpl; lia | intros data].
  destruct data as [| b data];
    [apply (at_most_mono _ 0); [lia | apply at_most_ret] |].
  apply (at_most_bind is_reset 0 1);
    [apply at_most_perform; unfold count; simpl; lia | intros events].
  destruct (existsb (on_stream stream_id) events).
  - apply (at_most_bind is_reset 1 0);
      [apply at_most_reset_and_flush; reflexivity
      | intros _; apply at_most_ret].
  - apply (at_most_bind is_reset 0 1);
      [apply at_most_perform; unfold count; simpl; lia | intros id].
    destruct (id =? 0);
      (apply (at_most_bind is_reset 1 0);
       [apply at_most_reset_and_flush; reflexivity
       | intros _; apply at_most_ret]).
Qed.

Lemma at_most_receive_step_recv stream_id :
  at_most (W := W) is_recv 1 (receive_step stream_id).
Proof.
  unfold receive_step.
  apply (at_most_bind is_recv 1 0);
    [apply at_most_perform; unfold count; simpl; lia | intros data].
  apply at_most_of_only.
  destruct data as [| b data]; [apply only_ret |].
  apply only_bind; [apply only_perform; reflexivity | intros events].
  apply only_bind; [apply only_scan_events; reflexivity | intros has_sent].
  destruct has_sent; [apply only_ret |].
  apply only_bind; [apply only_perform; reflexivity | intros id].
  destruct (id =? 0);
    (apply only_bind; [apply only_reset_and_flush; reflexivity
                      | intros _; apply only_ret]).
Qed.

Lemma at_most_receive_loop q n fuel stream_id :
  at_most (W := W) q n (receive_step stream_id) ->
  at_most q n (while_true fuel (receive_step stream_id)).
Proof.
  intros Hb. destruct fuel as [| fuel].
  - intros s. exists []. simpl. rewrite app_nil_r.
    split; [reflexivity | unfold count; simpl; lia].
  - intros s.
    rewrite (while_true_once fuel _ s (receive_step_never_continues stream_id)).
    destruct (Hb s) as (acts & E & F). exists acts. split; [| exact F].
    destruct (receive_step stream_id s) as [[c | e |] s']; simpl in *;
      [destruct c |..]; exact E.
Qed.

Lemma quiet_only {A} (p q : entry -> bool) (m : M W A) :
  (forall e, p e = true -> q e = false) -> only p m -> at_most q 0 m.
Proof.
  intros Hpq Hm. apply at_most_of_only. apply (only_weaken p); [| exact Hm].
  intros e He. rewrite (Hpq e He). reflexivity.
Qed.

Lemma at_most_send_request_connect host stream_id uri_path :
  at_most (W := W) is_connect 1 (send_request host stream_id uri_path).
Proof.
  unfold send_request.
  apply (at_most_bind is_connect 1 0);
    [apply at_most_perform; unfold count; simpl; lia | intros _].
  apply at_most_of_only.
  repeat (apply only_bind; [apply only_perform; reflexivity | intros ?]).
  apply only_perform; reflexivity.
Qed.

(** The parts of the run after the connection object exists. *)
Lemma at_most_run q n_request n_loop n_close fuel host port stream_id
  uri_path timeout proxy :
  (forall e, setup_call e = true -> q e = false) ->
  at_most (W := W) q n_request (send_request host stream_id uri_path) ->
  at_most (W := W) q n_loop (receive_step stream_id) ->
  (count q [Called conn_close] <= n_close)%nat ->
  at_most (W := W) q (n_request + n_loop + n_close)
    (send_rst_stream_h2 fuel host port stream_id uri_path timeout proxy).
Proof.
  intros Hsetup Hreq Hloop Hclose.
  unfold send_rst_stream_h2, send_rst_stream_h2_try.
  apply (at_most_mono q (0 + (n_request + (n_loop + (n_close + 0))) + 0));
    [lia |].
  apply at_most_try_except; [| intros e; apply at_most_ret].
  apply at_most_bind.
  { apply (quiet_only setup_call); [exact Hsetup
                                  | apply only_create_connection]. }
  intros _. apply at_most_bind; [exact Hreq | intros _].
  apply at_most_bind; [apply at_most_receive_loop, Hloop | intros returned].
  destruct returned as [v |].
  - apply (at_most_mono q 0); [lia | apply at_most_ret].
  - apply at_most_bind; [apply at_most_perform, Hclose
                        | intros _; apply at_most_ret].
Qed.

(** X3.  In every run, in every world and for every number of loop
    iterations allowed, the prober connects at most once, reads at most
    once, sends at most one reset and closes at most once: nothing is
    retried. *)
Theorem no_step_twice fuel host port stream_id uri_path timeout proxy
  (w : W) :
  let t := trace (snd (send_rst_stream_h2 fuel host port stream_id uri_path
                         timeout proxy (init w))) in
  (count is_connect t <= 1)%nat /\ (count is_recv t <= 1)%nat /\
  (count is_reset t <= 1)%nat /\ (count is_close t <= 1)%nat.
Proof.
  cbv zeta.
  assert (Hq : forall q n,
    at_most (W := W) q n
      (send_rst_stream_h2 fuel host port stream_id uri_path timeout proxy) ->
    (count q (trace (snd (send_rst_stream_h2 fuel host port stream_id
                            uri_path timeout proxy (init w)))) <= n)%nat).
  { intros q n H. destruct (H (init w)) as (acts & E & F).
    rewrite E. exact F. }
  repeat split.
  - apply (Hq is_connect (1 + 0 + 0)%nat). apply at_most_run.
    + intros [X c]; destruct c; simpl; congruence.
    + apply at_most_send_request_connect.
    + apply (quiet_only loop_call); [| apply only_loop_receive_step].
      intros [X c]; destruct c; simpl; congruence.
    + unfold count; simpl; lia.
  - apply (Hq is_recv (0 + 1 + 0)%nat). apply at_most_run.
    + intros [X c]; destruct c; simpl; congruence.
    + apply (quiet_only request_call); [| apply only_send_request].
      intros [X c]; destruct c; simpl; congruence.
    + apply at_most_receive_step_recv.
    + unfold count; simpl; lia.
  - apply (Hq is_reset (0 + 1 + 0)%nat). apply at_most_run.
    + intros [X c]; destruct c; simpl; congruence.
    + apply (quiet_only request_call); [| apply only_send_request].
      intros [X c]; destruct c; simpl; congruence.
    + apply at_most_receive_step_reset.
    + unfold count; simpl; lia.
  - apply (Hq is_close (0 + 0 + 1)%nat). apply at_most_run.
    + intros [X c]; destruct c; simpl; congruence.
    + apply (quiet_only request_call); [| apply only_send_request].
      intros [X c]; destruct c; simpl; congruence.
    + apply (quiet_only loop_call); [| apply only_loop_receive_step].
      intros [X c]; destruct c; simpl; congruence.
    + unfold count; simpl; lia.
Qed.

(** ** What a returned status says about the run *)

(** X4.  The status tells what the prober did last.  Status 1 comes right
    after a reset that was sent (reset, flush, send all returned), the
    only one of the run, with the connection left open; [(0, "No
    response")] comes right after the one read and the close, with no
    reset sent; status 0 with the stream-1 message comes right after a
    reset of stream 1 for which the allocator was asked; status -1
    carries the text of an exception. *)
Theorem status_tells_last_step fuel host port stream_id uri_path timeout
  proxy (w : W) st msg s' :
  send_rst_stream_h2 (S fuel) host port stream_id uri_path timeout proxy
    (init w) = (Ret (st, msg), s') ->
  (st = 1 /\ msg = "" /\
   exists pre id d,
     trace s' = pre ++ [Called (h2_reset_stream (PyInt id));
                        Called h2_data_to_send; Called (conn_send d)] /\
     count is_reset pre = 0%nat /\ count is_close pre = 0%nat) \/
  (st = 0 /\ msg = "No response" /\
   exists pre,
     trace s' = pre ++ [Called (conn_sock_recv 65535); Called conn_close] /\
     count is_reset pre = 0%nat /\ count is_recv pre = 0%nat) \/
  (st = 0 /\ msg = stream_1_message /\
   exists pre d,
     trace s' = pre ++ [Called h2_get_next_available_stream_id;
                        Called (h2_reset_stream (PyInt 1));
                        Called h2_data_to_send; Called (conn_send d)] /\
     count is_reset pre = 0%nat /\ count is_close pre = 0%nat) \/
  (st = -1 /\ exists e, msg = "send_rst_stream_h2 - " +:+ exn_str e).
Proof.
  intros H.
  destruct (create_connection host port timeout proxy (init w))
    as [r0 s0] eqn:Hc.
  destruct r0 as [[] | e |].
  2:{ unfold send_rst_stream_h2, send_rst_stream_h2_try in H.
      rewrite try_except_bind, Hc in H. injection H as <- <- <-.
      right. right. right. eauto. }
  2:{ unfold send_rst_stream_h2, send_rst_stream_h2_try in H.
      rewrite try_except_bind, Hc in H. discriminate. }
  destruct (send_request host stream_id uri_path s0) as [r1 s1] eqn:Hr.
  destruct r1 as [[] | e |].
  2:{ unfold send_rst_stream_h2, send_rst_stream_h2_try in H.
      rewrite try_except_bind, Hc, try_except_bind, Hr in H.
      injection H as <- <- <-. right. right. right. eauto. }
  2:{ unfold send_rst_stream_h2, send_rst_stream_h2_try in H.
      rewrite try_except_bind, Hc, try_except_bind, Hr in H. discriminate. }
  rewrite (run_after_setup fuel host port stream_id uri_path timeout proxy
             (init w) s0 s1 Hc Hr) in H.
  destruct (setup_trace_quiet host port stream_id uri_path timeout proxy
              (init w) s0 s1 Hc Hr eq_refl) as (Qrecv & Qreset & Qclose).
  destruct (receive_step stream_id s1) as [[c | e |] s2] eqn:Hs.
  3:{ discriminate. }
  2:{ injection H as <- <- <-. right. right. right. eauto. }
  destruct (receive_step_outcomes stream_id s1 c s2 Hs)
    as [(-> & T) | [(data & d & id & T & -> & _)
                   | (data & d & id & T & [(-> & ->) | (-> & _)])]].
  - destruct (perform conn_close s2) as [[x | e |] s3] eqn:Hcl.
    + injection H as <- <- <-. right. left.
      split; [reflexivity |]. split; [reflexivity |].
      exists (trace s1). rewrite (perform_trace _ _ _ _ Hcl), T, <- app_assoc.
      auto.
    + injection H as <- <- <-. right. right. right. eauto.
    + discriminate.
  - injection H as <- <- <-. left.
    split; [reflexivity |]. split; [reflexivity |].
    exists (trace s1 ++ [Called (conn_sock_recv 65535);
                         Called (h2_receive_data data)]), id, d.
    rewrite T, <- app_assoc, !count_app, Qreset, Qclose. auto.
  - injection H as <- <- <-. right. right. left.
    split; [reflexivity |]. split; [reflexivity |].
    exists (trace s1 ++ [Called (conn_sock_recv 65535);
                         Called (h2_receive_data data)]), d.
    rewrite T, <- app_assoc, !count_app, Qreset, Qclose. auto.
  - injection H as <- <- <-. left.
    split; [reflexivity |]. split; [reflexivity |].
    exists (trace s1 ++ [Called (conn_sock_recv 65535);
                         Called (h2_receive_data data);
                         Called h2_get_next_available_stream_id]), id, d.
    rewrite T, <- app_assoc, !count_app, Qreset, Qclose. auto.
Qed.

(** ** Where the connection goes *)

(** The calls of [create_connection], exactly: the context, then the
    constructor for the endpoint, then the tunnel when a proxy is set. *)
Lemma create_connection_calls host port timeout proxy (s : state W) r s' :
  create_connection host port timeout proxy s = (r, s') ->
  exists acts,
    trace s' = trace s ++ Called ssl_create_default_context :: acts /\
    ((acts = [] /\ exists e, r = Raise e) \/
     (exists h p,
        connect_endpoint host port proxy = Ok (h, p) /\
        ((acts = [constructor_call port h p timeout] /\
          (proxy_set proxy = false \/ exists e, r = Raise e)) \/
         (acts = [constructor_call port h p timeout;
                  Called (conn_set_tunnel host port)] /\
          proxy_set proxy = true)))).
Proof.
  unfold create_connection. unfold bind at 1.
  destruct (perform_cases ssl_create_default_context s)
    as [(ctx0 & w0 & E) | (e & w0 & E)]; rewrite E.
  2:{ intros H. inversion H; subst. exists []. split; [reflexivity |].
      left. eauto. }
  pose proof (context_checks_disabled ctx0) as Hctx.
  unfold bind at 1. unfold lift at 1.
  destruct (set_check_hostname false ctx0) as [ctx1 | e1]; [| discriminate].
  unfold rbind in Hctx. unfold bind at 1. unfold lift at 1. rewrite Hctx.
  set (s1 := State w0 (trace s ++ [Called ssl_create_default_context])).
  intros H.
  enough (Hrest : exists acts,
    trace s' = trace s1 ++ acts /\
    ((acts = [] /\ exists e, r = Raise e) \/
     (exists h p,
        connect_endpoint host port proxy = Ok (h, p) /\
        ((acts = [constructor_call port h p timeout] /\
          (proxy_set proxy = false \/ exists e, r = Raise e)) \/
         (acts = [constructor_call port h p timeout;
                  Called (conn_set_tunnel host port)] /\
          proxy_set proxy = true))))).
  { destruct Hrest as (acts & Ea & Hcases). exists acts.
    rewrite Ea. unfold s1. simpl trace. rewrite <- app_assoc.
    split; [reflexivity | exact Hcases]. }
  assert (Hraise : forall e, (Raise e, s1) = (r, s') ->
    trace s' = trace s1 ++ [] /\ exists e, r = Raise e).
  { intros e He. inversion He; subst. rewrite app_nil_r. eauto. }
  assert (Htunnel : forall (c : call unit),
    bind (perform c) (fun _ => perform (conn_set_tunnel host port)) s1
      = (r, s') ->
    (trace s' = trace s1 ++ [Called c] /\ exists e, r = Raise e) \/
    trace s' = trace s1 ++ [Called c; Called (conn_set_tunnel host port)]).
  { intros c Hb. unfold bind in Hb.
    destruct (perform_cases c s1) as [(x & w1 & F) | (e & w1 & F)];
      rewrite F in Hb.
    - right. rewrite (perform_trace _ _ _ _ Hb). simpl.
      rewrite <- app_assoc. reflexivity.
    - left. inversion Hb; subst. simpl. eauto. }
  destruct proxy as [p |].
  2:{ change (proxy_set None) with false in H. cbv iota in H.
      unfold constructor_call.
      destruct (py_eq_int port 443);
        (eexists; split; [exact (perform_trace _ _ _ _ H) |]);
        right; exists host, port; (split; [reflexivity |]); left; auto. }
  destruct (proxy_set (Some p)) eqn:Hset.
  - unfold bind at 1 in H. unfold lift at 1 in H.
    destruct (urlparse p) as [parts | e] eqn:Eparts; [| destruct (Hraise e H) as (T & Hr); exists []; split; [exact T | left; auto]].
    assert (Hends : forall ph pp,
      parsed_hostname parts = Ok ph -> parsed_port parts = Ok pp ->
      connect_endpoint host port (Some p)
        = Ok (py_of_ostr ph, py_of_oint pp)).
    { intros ph pp Eh Ep. unfold connect_endpoint, proxy_endpoint, rbind.
      rewrite Hset, Eparts, Eh, Ep. reflexivity. }
    unfold constructor_call.
    destruct (py_eq_int port 443) eqn:E443.
    + unfold bind at 1 in H. unfold lift at 1 in H.
      destruct (parsed_hostname parts) as [ph | e] eqn:Eh;
        [| destruct (Hraise e H) as (T & Hr); exists []; split; [exact T | left; auto]].
      unfold bind at 1 in H. unfold lift at 1 in H.
      destruct (parsed_port parts) as [pp | e] eqn:Ep;
        [| destruct (Hraise e H) as (T & Hr); exists []; split; [exact T | left; auto]].
      destruct (Htunnel _ H) as [(T & Hr) | T];
        (eexists; split; [exact T |]); right;
        exists (py_of_ostr ph), (py_of_oint pp);
        (split; [exact (Hends ph pp eq_refl eq_refl) |]);
        [left | right]; auto.
    + unfold bind at 1 in H. unfold lift at 1 in H.
      destruct (parsed_hostname parts) as [ph | e] eqn:Eh;
        [| destruct (Hraise e H) as (T & Hr); exists []; split; [exact T | left; auto]].
      unfold bind at 1 in H. unfold lift at 1 in H.
      destruct (parsed_port parts) as [pp | e] eqn:Ep;
        [| destruct (Hraise e H) as (T & Hr); exists []; split; [exact T | left; auto]].
      destruct (Htunnel _ H) as [(T & Hr) | T];
        (eexists; split; [exact T |]); right;
        exists (py_of_ostr ph), (py_of_oint pp);
        (split; [exact (Hends ph pp eq_refl eq_refl) |]);
        [left | right]; auto.
  - assert (Hend : connect_endpoint host port (Some p) = Ok (host, port)).
    { unfold connect_endpoint. rewrite Hset. reflexivity. }
    unfold constructor_call.
    destruct (py_eq_int port 443);
      (eexists; split; [exact (perform_trace _ _ _ _ H) |]);
      right; exists host, port; (split; [exact Hend |]); left; auto.
Qed.

Lemma endpoints_app t1 t2 : endpoints (t1 ++ t2) = endpoints t1 ++ endpoints t2.
Proof. unfold endpoints. apply flat_map_app. Qed.

Lemma tunnels_app t1 t2 : tunnels (t1 ++ t2) = tunnels t1 ++ tunnels t2.
Proof. unfold tunnels. apply flat_map_app. Qed.

Lemma after_creation_no_endpoint acts :
  forallb after_creation_call acts = true ->
  endpoints acts = [] /\ tunnels acts = [].
Proof.
  induction acts as [| e acts IH]; simpl; [auto |].
  intros H. apply andb_true_iff in H. destruct H as [He Ht].
  destruct (IH Ht) as [IH1 IH2]. unfold endpoints, tunnels in *. simpl.
  rewrite IH1, IH2.
  destruct e as [X c]; destruct c; simpl in *; try discriminate; auto.
Qed.

Lemma setup_no_connect acts :
  forallb setup_call acts = true -> count is_connect acts = 0%nat.
Proof.
  intros H. apply count_none. rewrite forallb_forall in *.
  intros e He. specialize (H e He).
  destruct e as [X c]; destruct c; simpl in *; congruence.
Qed.

Lemma endpoints_constructor target_port h p timeout :
  endpoints [constructor_call target_port h p timeout] = [(h, p, timeout)] /\
  tunnels [constructor_call target_port h p timeout] = [].
Proof.
  unfold constructor_call. destruct (py_eq_int target_port 443); auto.
Qed.

(** The whole run: what follows the creation of the connection object
    only makes request, loop and close calls, and nothing follows a
    creation that raised. *)
Lemma run_after_creation fuel host port stream_id uri_path timeout proxy
  (s : state W) r0 s0 :
  create_connection host port timeout proxy s = (r0, s0) ->
  exists acts,
    trace (snd (send_rst_stream_h2 fuel host port stream_id uri_path timeout
                  proxy s)) = trace s0 ++ acts /\
    forallb after_creation_call acts = true /\
    (r0 <> Ret tt -> acts = []).
Proof.
  intros Hc. unfold send_rst_stream_h2, send_rst_stream_h2_try.
  rewrite try_except_bind, Hc.
  destruct r0 as [[] | e |].
  - assert (Hrest : only after_creation_call
      (try_except
         (let* _ := send_request (W := W) host stream_id uri_path in
          let* returned := while_true fuel (receive_step stream_id) in
          match returned with
          | Some v => ret v
          | None => let* _ := perform conn_close in ret (0, "No response")
          end)
         (fun e => ret (-1, "send_rst_stream_h2 - " +:+ exn_str e)))).
    { apply only_try_except; [| intros e; apply only_ret].
      apply only_bind.
      { apply (only_weaken request_call); [| apply only_send_request].
        intros e He. unfold after_creation_call. rewrite He. reflexivity. }
      intros _. apply only_bind.
      { apply only_while_true.
        apply (only_weaken loop_call); [| apply only_loop_receive_step].
        intros e He. unfold after_creation_call. rewrite He.
        rewrite orb_true_r. reflexivity. }
      intros [v |]; [apply only_ret |].
      apply only_bind; [apply only_perform; reflexivity | intros _].
      apply only_ret. }
    destruct (Hrest s0) as (acts & E & F). exists acts.
    split; [exact E |]. split; [exact F | congruence].
  - exists []. simpl. rewrite app_nil_r. auto.
  - exists []. simpl. rewrite app_nil_r. auto.
Qed.

(** X5.  Without a proxy ([None] or the empty string) the connection object
    is built for the target host and port and no tunnel is asked for;
    with a proxy it is built for the host and port of the proxy URL, and
    a run that gets to connect has asked, once, for a tunnel to the
    target host and port.  The timeout is passed on in both cases. *)
Theorem proxy_decides_endpoint fuel host port stream_id uri_path timeout
  proxy (w : W) :
  let t := trace (snd (send_rst_stream_h2 fuel host port stream_id uri_path
                         timeout proxy (init w))) in
  (endpoints t = [] \/
   exists h p, connect_endpoint host port proxy = Ok (h, p) /\
               endpoints t = [(h, p, timeout)]) /\
  (tunnels t = [] \/
   (proxy_set proxy = true /\ tunnels t = [(host, port)])) /\
  (count is_connect t = 0%nat \/
   tunnels t = if proxy_set proxy then [(host, port)] else []).
Proof.
  cbv zeta.
  destruct (create_connection host port timeout proxy (init w))
    as [r0 s0] eqn:Hc.
  destruct (run_after_creation fuel host port stream_id uri_path timeout
              proxy (init w) r0 s0 Hc) as (acts2 & T2 & F2 & Hstop).
  destruct (create_connection_calls _ _ _ _ _ _ _ Hc) as (acts & T & Hcases).
  simpl in T. destruct (after_creation_no_endpoint acts2 F2) as [N1 N2].
  rewrite T2, T.
  replace (Called ssl_create_default_context :: acts)
    with ([Called ssl_create_default_context] ++ acts) by reflexivity.
  rewrite !endpoints_app, !tunnels_app, N1, N2, !app_nil_r. simpl.
  destruct Hcases as [(-> & e & ->) | (h & p & Hend & Hacts)].
  - simpl. repeat split; auto. left.
    rewrite (Hstop ltac:(discriminate)). reflexivity.
  - destruct (endpoints_constructor port h p timeout) as [E1 E2].
    destruct Hacts as [(-> & Hwhy) | (-> & Hset)].
    + rewrite E1, E2. repeat split; eauto.
      destruct Hwhy as [Hset | (e & ->)].
      * right. rewrite Hset. reflexivity.
      * left. rewrite (Hstop ltac:(discriminate)). rewrite app_nil_r.
        apply setup_no_connect. unfold constructor_call.
        destruct (py_eq_int port 443); reflexivity.
    + replace [constructor_call port h p timeout;
               Called (conn_set_tunnel host port)]
        with ([constructor_call port h p timeout]
                ++ [Called (conn_set_tunnel host port)]) by reflexivity.
      rewrite endpoints_app, tunnels_app, E1, E2. simpl.
      repeat split; eauto. right. rewrite Hset. reflexivity.
Qed.

(** X6.  A proxy URL the parser rejects, or whose host or port cannot be
    read, ends the probe before any connection object is built: the
    result is status -1 with the parser's message, and the only call made
    is the creation of the SSL context. *)
Theorem proxy_url_error_stops_before_connecting fuel host port stream_id
  uri_path timeout p e (w w' : W) ctx :
  proxy_set (Some p) = true ->
  proxy_endpoint p = Err e ->
  respond ssl_create_default_context w = (Ok ctx, w') ->
  send_rst_stream_h2 fuel host port stream_id uri_path timeout (Some p)
    (init w) =
    (Ret (-1, "send_rst_stream_h2 - " +:+ exn_str e),
     State w' [Called ssl_create_default_context]).
Proof.
  intros Hset Hend Hssl.
  unfold send_rst_stream_h2, send_rst_stream_h2_try.
  rewrite try_except_bind.
  assert (Hc : create_connection host port timeout (Some p) (init w)
               = (Raise e, State w' [Called ssl_create_default_context])).
  { unfold create_connection. unfold bind at 1. unfold perform at 1.
    simpl world. rewrite Hssl. simpl trace.
    pose proof (context_checks_disabled ctx) as Hctx.
    unfold bind at 1. unfold lift at 1.
    destruct (set_check_hostname false ctx) as [ctx1 | e1]; [| discriminate].
    unfold rbind in Hctx. unfold bind at 1. unfold lift at 1. rewrite Hctx.
    rewrite Hset. unfold proxy_endpoint, rbind in Hend.
    unfold bind at 1. unfold lift at 1.
    destruct (urlparse p) as [parts | e0];
      [| inversion Hend; subst; reflexivity].
    destruct (py_eq_int port 443);
      (unfold bind at 1; unfold lift at 1;
       destruct (parsed_hostname parts) as [ph | e0];
         [| inversion Hend; subst; reflexivity];
       unfold bind at 1; unfold lift at 1;
       destruct (parsed_port parts) as [pp | e0];
         [discriminate | inversion Hend; subst; reflexivity]). }
  rewrite Hc. reflexivity.
Qed.

(** ** Order of the exchange *)

Lemma send_request_trace host stream_id uri_path (s0 s1 : state W) :
  send_request host stream_id uri_path s0 = (Ret tt, s1) ->
  exists preface headers_frame,
    trace s1 = trace s0 ++ request_calls host stream_id uri_path preface
                              headers_frame.
Proof.
  unfold send_request. intros H.
  apply bind_ret_inv in H. destruct H as (x1 & t1 & E1 & H).
  apply bind_ret_inv in H. destruct H as (x2 & t2 & E2 & H).
  apply bind_ret_inv in H. destruct H as (x3 & t3 & E3 & H).
  apply bind_ret_inv in H. destruct H as (x4 & t4 & E4 & H).
  apply bind_ret_inv in H. destruct H as (d1 & t5 & E5 & H).
  apply bind_ret_inv in H. destruct H as (x6 & t6 & E6 & H).
  apply bind_ret_inv in H. destruct H as (x7 & t7 & E7 & H).
  apply bind_ret_inv in H. destruct H as (d2 & t8 & E8 & H).
  exists d1, d2.
  rewrite (perform_trace _ _ _ _ H), (perform_trace _ _ _ _ E8),
    (perform_trace _ _ _ _ E7), (perform_trace _ _ _ _ E6),
    (perform_trace _ _ _ _ E5), (perform_trace _ _ _ _ E4),
    (perform_trace _ _ _ _ E3), (perform_trace _ _ _ _ E2),
    (perform_trace _ _ _ _ E1).
  unfold request_calls. rewrite <- !app_assoc. reflexivity.
Qed.

Lemma receive_step_starts_with_read stream_id (s : state W) :
  exists post,
    trace (snd (receive_step stream_id s))
      = trace s ++ Called (conn_sock_recv 65535) :: post /\
    forallb (fun e => negb (is_recv e)) post = true.
Proof.
  destruct (at_most_receive_step_recv stream_id s) as (acts & T & F).
  unfold receive_step in *. unfold bind at 1. unfold bind at 1 in T.
  destruct (perform_cases (conn_sock_recv 65535) s)
    as [(data & w1 & E) | (e & w1 & E)]; rewrite E in *.
  2:{ exists []. split; reflexivity. }
  match goal with |- context [snd (?k ?s1)] =>
    assert (Hk : only (fun e => negb (is_recv e)) k) end.
  { destruct data as [| b data]; [apply only_ret |].
    apply only_bind; [apply only_perform; reflexivity | intros events].
    apply only_bind; [apply only_scan_events; reflexivity | intros has_sent].
    destruct has_sent; [apply only_ret |].
    apply only_bind; [apply only_perform; reflexivity | intros id].
    destruct (id =? 0);
      (apply only_bind; [apply only_reset_and_flush; reflexivity
                        | intros _; apply only_ret]). }
  destruct (Hk (State w1 (trace s ++ [Called (conn_sock_recv 65535)])))
    as (post & Tp & Fp).
  exists post. rewrite Tp. simpl. rewrite <- app_assoc. auto.
Qed.

Lemma no_read_among p acts :
  (forall e, p e = true -> is_recv e = false) ->
  forallb p acts = true -> existsb is_recv acts = false.
Proof.
  intros Hp. induction acts as [| e acts IH]; simpl; [reflexivity |].
  intros H. apply andb_true_iff in H. destruct H as [He Ht].
  rewrite (Hp e He), (IH Ht). reflexivity.
Qed.

(** X7.  The prober reads only after it has connected, sent the connection
    preface and sent the request headers, in this order: every run either
    has no read at all, or its trace is setup calls, then the nine calls
    of the request (with [:method GET], [:authority] the host, [:scheme
    https], [:path] the URI path, on the given stream), then one read of
    at most 65535 bytes, then calls none of which is a read. *)
Theorem request_precedes_read fuel host port stream_id uri_path timeout
  proxy (w : W) :
  let t := trace (snd (send_rst_stream_h2 fuel host port stream_id uri_path
                         timeout proxy (init w))) in
  existsb is_recv t = false \/
  exists pre preface headers_frame post,
    t = pre ++ request_calls host stream_id uri_path preface headers_frame
            ++ Called (conn_sock_recv 65535) :: post /\
    forallb setup_call pre = true /\
    forallb (fun e => negb (is_recv e)) post = true.
Proof.
  cbv zeta.
  destruct (create_connection host port timeout proxy (init w))
    as [r0 s0] eqn:Hc.
  destruct (only_create_connection host port timeout proxy (init w))
    as (acts0 & T0 & F0). rewrite Hc in T0. simpl in T0.
  assert (Q0 : existsb is_recv acts0 = false).
  { apply (no_read_among setup_call); [| exact F0].
    intros [X c]; destruct c; simpl; congruence. }
  assert (Hearly : r0 <> Ret tt ->
    existsb is_recv
      (trace (snd (send_rst_stream_h2 fuel host port stream_id uri_path
                     timeout proxy (init w)))) = false).
  { intros Hr0.
    destruct (run_after_creation fuel host port stream_id uri_path timeout
                proxy (init w) r0 s0 Hc) as (acts2 & T2 & _ & Hstop).
    rewrite T2, (Hstop Hr0), app_nil_r, T0. exact Q0. }
  destruct r0 as [[] | e |]; [| left; apply Hearly; discriminate
                             | left; apply Hearly; discriminate].
  clear Hearly.
  destruct (send_request host stream_id uri_path s0) as [r1 s1] eqn:Hr.
  destruct (only_send_request host stream_id uri_path s0)
    as (acts1 & T1 & F1). rewrite Hr in T1. simpl in T1.
  assert (Q1 : existsb is_recv acts1 = false).
  { apply (no_read_among request_call); [| exact F1].
    intros [X c]; destruct c; simpl; congruence. }
  assert (Hquiet : existsb is_recv (trace s1) = false).
  { rewrite T1, T0, existsb_app, Q0, Q1. reflexivity. }
  destruct r1 as [[] | e |].
  2:{ left. unfold send_rst_stream_h2, send_rst_stream_h2_try.
      rewrite try_except_bind, Hc, try_except_bind, Hr. exact Hquiet. }
  2:{ left. unfold send_rst_stream_h2, send_rst_stream_h2_try.
      rewrite try_except_bind, Hc, try_except_bind, Hr. exact Hquiet. }
  destruct fuel as [| fuel].
  { left. unfold send_rst_stream_h2, send_rst_stream_h2_try.
    rewrite try_except_bind, Hc, try_except_bind, Hr. exact Hquiet. }
  right.
  rewrite (run_after_setup fuel host port stream_id uri_path timeout proxy
             (init w) s0 s1 Hc Hr).
  destruct (send_request_trace _ _ _ _ _ Hr) as (d1 & d2 & Treq).
  destruct (receive_step_starts_with_read stream_id s1) as (post & Tp & Fp).
  exists acts0, d1, d2.
  destruct (receive_step stream_id s1) as [[c | e |] s2]; simpl in Tp;
    [destruct c |..].
  - exists post. simpl. rewrite Tp, Treq, T0, <- app_assoc. auto.
  - destruct (perform conn_close s2) as [r3 s3] eqn:Hcl.
    exists (post ++ [Called conn_close]).
    assert (T3 : trace s3 = trace s2 ++ [Called conn_close])
      by exact (perform_trace _ _ _ _ Hcl).
    split.
    + destruct r3 as [x | e |]; simpl; rewrite T3, Tp, Treq, T0;
        rewrite <- !app_assoc; reflexivity.
    + split; [exact F0 |]. rewrite forallb_app, Fp. reflexivity.
  - exists post. simpl. rewrite Tp, Treq, T0, <- app_assoc. auto.
  - exists post. simpl. rewrite Tp, Treq, T0, <- app_assoc. auto.
  - exists post. simpl. rewrite Tp, Treq, T0, <- app_assoc. auto.
Qed.

(** X8.  A connect that raises (refused, timed out, TLS handshake failed) is
    reported as status -1 with the exception's text after the function's
    name; nothing has been sent, read or closed by then. *)
Theorem failed_connect_sends_nothing fuel host port stream_id uri_path
  timeout proxy (w : W) s0 s1 e :
  create_connection host port timeout proxy (init w) = (Ret tt, s0) ->
  perform conn_connect s0 = (Raise e, s1) ->
  send_rst_stream_h2 fuel host port stream_id uri_path timeout proxy
    (init w) = (Ret (-1, "send_rst_stream_h2 - " +:+ exn_str e), s1) /\
  count is_send (trace s1) = 0%nat /\ count is_recv (trace s1) = 0%nat /\
  count is_close (trace s1) = 0%nat.
Proof.
  intros Hc Hconn.
  unfold send_rst_stream_h2, send_rst_stream_h2_try.
  rewrite try_except_bind, Hc, try_except_bind.
  unfold send_request. unfold bind at 1. rewrite Hconn.
  split; [reflexivity |].
  destruct (only_create_connection host port timeout proxy (init w))
    as (acts0 & T0 & F0). rewrite Hc in T0. simpl in T0.
  rewrite (perform_trace _ _ _ _ Hconn), T0.
  assert (Q : forall q, (forall e, setup_call e = true -> q e = false) ->
                        count q acts0 = 0%nat).
  { intros q Hq. apply count_none. rewrite forallb_forall in *.
    intros x Hx. rewrite (Hq x (F0 x Hx)). reflexivity. }
  repeat split; rewrite count_app, Q; try reflexivity;
    intros [X c]; destruct c; simpl; congruence.
Qed.

End WithHost.
End MoreResetFacts.

(** * Further runs against scripted servers *)

Module MoreRunFacts.
Import Resolver Negotiation Reset Script PyUrllib Runs.
Import MoreResetFacts.

(** A server whose first frames carry no event for stream 1, on a
    connection that behaves as [h2] does: the allocator answers 3, and
    the reset of stream 3, which was never opened, raises
    [NoSuchStreamError(3)].  The prober returns status -1. *)
Lemma next_available_id_fallback_witness :
  exists s3 s5 : state script,
    send_rst_stream_h2 (U := py_urllib) 1 (PyStr "example.com") (PyInt 443)
      1 "/" 5 None
      (init {| sc_context := Ok default_context;
               sc_connect := Ok tt;
               sc_recv := Ok frame;
               sc_events := Ok [settings_event];
               sc_next_id := Ok 3;
               sc_reset := Err (Exn "NoSuchStreamError" "3");
               sc_close := Ok tt;
               sc_get := Ok (Response "HTTP/2") |})
      = (Ret (-1, "send_rst_stream_h2 - 3"), s5) /\
    trace s5 =
      trace s3 ++ [Called h2_get_next_available_stream_id;
                   Called (h2_reset_stream (PyInt 3))].
Proof.
  do 2 eexists.
  refine (proj1 (next_available_id_fallback (U := py_urllib) 0
                   (PyStr "example.com") (PyInt 443) 1 "/" 5 None
                   {| sc_context := Ok default_context;
                      sc_connect := Ok tt;
                      sc_recv := Ok frame;
                      sc_events := Ok [settings_event];
                      sc_next_id := Ok 3;
                      sc_reset := Err (Exn "NoSuchStreamError" "3");
                      sc_close := Ok tt;
                      sc_get := Ok (Response "HTTP/2") |}
                   _ _ _ _ _ frame [settings_event] 3 _ _ _ _ _ _ _ _)
            (Exn "NoSuchStreamError" "3") _ _).
  - vm_compute. reflexivity.
  - vm_compute. reflexivity.
  - vm_compute. reflexivity.
  - discriminate.
  - vm_compute. reflexivity.
  - reflexivity.
  - vm_compute. reflexivity.
  - discriminate.
  - vm_compute. reflexivity.
Defined.

(** A server that closes at once: status 0 after the one read and the
    close. *)
Lemma status_tells_last_step_witness :
  exists pre,
    trace (snd (probe closing)) =
      pre ++ [Called (conn_sock_recv 65535); Called conn_close] /\
    count is_reset pre = 0%nat /\ count is_recv pre = 0%nat.
Proof.
  assert (Hrun : probe closing = (Ret (0, "No response"), snd (probe closing)))
    by (vm_compute; reflexivity).
  destruct (status_tells_last_step (U := py_urllib) 0 (PyStr "example.com")
              (PyInt 443) 1 "/" 5 None closing 0 "No response"
              (snd (probe closing)) Hrun)
    as [(Hst & _) | [(_ & _ & H) | [(_ & Hmsg & _) | (Hst & _)]]].
  - discriminate Hst.
  - exact H.
  - discriminate Hmsg.
  - discriminate Hst.
Defined.

(** A proxy URL with a port out of range: the prober gives up after
    creating the TLS context. *)
Lemma proxy_url_error_stops_before_connecting_witness :
  send_rst_stream_h2 (U := py_urllib) 1 (PyStr "example.com") (PyInt 443) 1
    "/" 5 (Some "http://proxy.example:99999") (init closing) =
    (Ret (-1, "send_rst_stream_h2 - Port out of range 0-65535"),
     State closing [Called ssl_create_default_context]).
Proof.
  apply (proxy_url_error_stops_before_connecting (U := py_urllib) 1
           (PyStr "example.com") (PyInt 443) 1 "/" 5
           "http://proxy.example:99999"
           (Exn "ValueError" "Port out of range 0-65535")
           closing closing default_context).
  - reflexivity.
  - vm_compute. reflexivity.
  - reflexivity.
Defined.

(** A server that refuses the connection: status -1, and nothing was
    sent, read or closed. *)
Lemma failed_connect_sends_nothing_witness :
  exists s1,
    probe refusing =
      (Ret (-1, "send_rst_stream_h2 - [Errno 111] Connection refused"), s1) /\
    count is_send (trace s1) = 0%nat /\ count is_recv (trace s1) = 0%nat /\
    count is_close (trace s1) = 0%nat.
Proof.
  eexists. unfold probe.
  eapply (failed_connect_sends_nothing (U := py_urllib) 1
            (PyStr "example.com") (PyInt 443) 1 "/" 5 None refusing _ _
            (Exn "ConnectionRefusedError" "[Errno 111] Connection refused")).
  - vm_compute. reflexivity.
  - vm_compute. reflexivity.
Defined.

End MoreRunFacts.

(** * Further properties of the negotiation prober *)

Module MoreNegotiationFacts.
Import Negotiation EffectFacts NegotiationFacts.

Section WithHost.
Context {W : Type} {HW : Host W}.

(** The proxies handed to the client: none for an empty [proxies], else
    the two entries read from it. *)
Lemma local_proxies_cases (proxies : gmap string string) (s : state W) :
  (proxies = ∅ /\
   forall url, request url proxies s =
     with_client (<["verify" := KwBool false]> (<["http2" := KwBool true]> ∅))
       (perform (client_get url)) s) \/
  (proxies <> ∅ /\ exists k,
     ((k = "http" /\ proxies !! "http" = None) \/
      (k = "https" /\ is_Some (proxies !! "http") /\
       proxies !! "https" = None)) /\
     forall url, request url proxies s =
       (Raise (Exn "KeyError" ("'" +:+ k +:+ "'")), s)) \/
  (proxies <> ∅ /\ exists http https,
     proxies !! "http" = Some http /\ proxies !! "https" = Some https /\
     forall url, request url proxies s =
       with_client
         (<["proxies" := KwDict (<["https://" := https]>
                                   (<["http://" := http]> ∅))]>
            (<["verify" := KwBool false]> (<["http2" := KwBool true]> ∅)))
         (perform (client_get url)) s).
Proof.
  unfold request, dict_truthy.
  destruct (Nat.eqb (size proxies) 0) eqn:Esize; simpl negb; cbv iota.
  - left. apply Nat.eqb_eq in Esize. apply map_size_empty_iff in Esize.
    split; [exact Esize |]. intros url. reflexivity.
  - right. apply Nat.eqb_neq in Esize.
    assert (Hne : proxies <> ∅).
    { intros ->. apply Esize. apply map_size_empty. }
    unfold getitem.
    destruct (proxies !! "http") as [http |] eqn:Ehttp.
    + destruct (proxies !! "https") as [https |] eqn:Ehttps.
      * right. split; [exact Hne |]. exists http, https.
        split; [reflexivity |]. split; [reflexivity |]. intros url.
        unfold bind at 1. unfold bind at 1. unfold lift at 1.
        unfold bind at 1. unfold lift at 1. unfold ret at 1.
        rewrite map_size_insert. 
        destruct (<["http://":=http]> (∅ : gmap string string) !! "https://");
          reflexivity.
      * left. split; [exact Hne |]. exists "https".
        split; [right; eauto |]. intros url. reflexivity.
    + left. split; [exact Hne |]. exists "http".
      split; [left; auto |]. intros url. reflexivity.
Qed.

(** The calls of the [with] block, by how far it got. *)
Lemma with_client_shapes kwargs url (s : state W) r s' :
  with_client kwargs (perform (client_get url)) s = (r, s') ->
  trace s' = trace s ++ [Called (httpx_Client kwargs); Called client_enter;
                         Called (client_get url); Called client_exit] \/
  ((exists e, r = Raise e) /\
   (trace s' = trace s ++ [Called (httpx_Client kwargs)] \/
    trace s' = trace s ++ [Called (httpx_Client kwargs);
                           Called client_enter])).
Proof.
  unfold with_client. unfold bind at 1.
  destruct (perform_cases (httpx_Client kwargs) s)
    as [(x1 & w1 & E1) | (e & w1 & E1)]; rewrite E1.
  2:{ intros H. inversion H; subst. right. simpl. eauto. }
  unfold bind at 1.
  destruct (perform_cases client_enter
              (State w1 (trace s ++ [Called (httpx_Client kwargs)])))
    as [(x2 & w2 & E2) | (e & w2 & E2)]; rewrite E2.
  2:{ intros H. inversion H; subst. right. simpl.
      rewrite <- app_assoc. eauto. }
  simpl trace.
  destruct (perform_cases (client_get url)
              (State w2 ((trace s ++ [Called (httpx_Client kwargs)])
                           ++ [Called client_enter])))
    as [(x3 & w3 & E3) | (e & w3 & E3)]; rewrite E3; simpl trace;
    unfold bind;
    match goal with |- context [perform client_exit ?st] =>
      destruct (perform_cases client_exit st)
        as [(x4 & w4 & E4) | (e4 & w4 & E4)]; rewrite E4
    end;
    intros H; inversion H; subst; left; simpl; rewrite <- !app_assoc;
    reflexivity.
Qed.

Lemma check_state url proxies (s : state W) :
  snd (check_http2_support url proxies s) = snd (request url proxies s).
Proof.
  unfold check_http2_support, try_except, check_http2_support_try, bind.
  destruct (request url proxies s) as [[resp | e |] s']; try reflexivity.
  destruct (String.eqb (http_version resp) "HTTP/2"); reflexivity.
Qed.

(** X9.  A [proxies] dict that is not empty but lacks ['http'], or has
    ['http'] and lacks ['https'], is an error before anything is done:
    the result is status -1 with the missing key, quoted, as the
    message, and no call is made. *)
Theorem missing_proxy_key_is_error url (proxies : gmap string string) k
  (s : state W) :
  proxies <> ∅ ->
  (k = "http" /\ proxies !! "http" = None) \/
  (k = "https" /\ is_Some (proxies !! "http") /\
   proxies !! "https" = None) ->
  check_http2_support url proxies s =
    (Ret (-1, "check_http2_support - '" +:+ k +:+ "'"), s).
Proof.
  intros Hne Hk.
  destruct (local_proxies_cases proxies s)
    as [(Hempty & _) | [(_ & k' & Hk' & Hreq)
                       | (_ & http & https & Eh & Ehs & _)]].
  - contradiction.
  - rewrite (check_on_exception _ _ _ _ _ (Hreq url)). simpl.
    destruct Hk as [(-> & Hn) | (-> & [v Hs] & Hn)];
      destruct Hk' as [(-> & Hn') | (-> & [v' Hs'] & Hn')];
      try reflexivity; congruence.
  - destruct Hk as [(_ & Hn) | (_ & _ & Hn)]; congruence.
Qed.

(** X10.  The client is always built with HTTP/2 on and certificate
    verification off; it is given proxies exactly when [proxies] is not
    empty, and then ['http://'] and ['https://'] carry what [proxies] has
    under ['http'] and ['https']. *)
Theorem client_options_fixed url (proxies : gmap string string) (w : W) :
  let t := trace (snd (check_http2_support url proxies (init w))) in
  client_kwargs t = [] \/
  exists kwargs,
    client_kwargs t = [kwargs] /\
    kwargs !! "http2" = Some (KwBool true) /\
    kwargs !! "verify" = Some (KwBool false) /\
    ((proxies = ∅ /\ kwargs !! "proxies" = None) \/
     exists http https d,
       proxies !! "http" = Some http /\ proxies !! "https" = Some https /\
       kwargs !! "proxies" = Some (KwDict d) /\
       d !! "http://" = Some http /\ d !! "https://" = Some https).
Proof.
  cbv zeta. rewrite check_state.
  destruct (local_proxies_cases proxies (init w))
    as [(Hempty & Hreq) | [(_ & k' & Hk' & Hreq)
                          | (_ & http & https & Eh & Ehs & Hreq)]];
    rewrite (Hreq url).
  - right. eexists. split; [| split; [| split]].
    + destruct (with_client _ (perform (client_get url)) (init w))
        as [r s'] eqn:E.
      destruct (with_client_shapes _ _ _ _ _ E) as [T | (_ & [T | T])];
        simpl snd; rewrite T; reflexivity.
    + reflexivity.
    + reflexivity.
    + left. split; [exact Hempty | reflexivity].
  - left. reflexivity.
  - right. eexists. split; [| split; [| split]].
    + destruct (with_client _ (perform (client_get url)) (init w))
        as [r s'] eqn:E.
      destruct (with_client_shapes _ _ _ _ _ E) as [T | (_ & [T | T])];
        simpl snd; rewrite T; reflexivity.
    + reflexivity.
    + reflexivity.
    + right. exists http, https. eexists.
      split; [exact Eh |]. split; [exact Ehs |].
      split; [reflexivity |]. split; reflexivity.
Qed.

(** X11.  One request, and the client is always closed after it: a run makes
    either the four calls constructor, [__enter__], one GET for the given
    URL, [__exit__] (whether the GET returned or raised), or it fails
    before the GET with status -1, having made no call, the constructor
    call, or the constructor call and [__enter__]. *)
Theorem client_used_once_and_closed url (proxies : gmap string string)
  (w : W) :
  let run := check_http2_support url proxies (init w) in
  (exists kwargs,
     trace (snd run) = [Called (httpx_Client kwargs); Called client_enter;
                        Called (client_get url); Called client_exit]) \/
  ((exists e, fst run
              = Ret (-1, "check_http2_support - " +:+ exn_str e)) /\
   (trace (snd run) = [] \/
    exists kwargs,
      trace (snd run) = [Called (httpx_Client kwargs)] \/
      trace (snd run) = [Called (httpx_Client kwargs);
                         Called client_enter])).
Proof.
  cbv zeta.
  destruct (request url proxies (init w)) as [r s'] eqn:Hreq.
  pose proof (check_state url proxies (init w)) as Hs. rewrite Hreq in Hs.
  simpl in Hs. rewrite Hs.
  assert (Hfail : forall e, r = Raise e ->
    exists e0, fst (check_http2_support url proxies (init w))
               = Ret (-1, "check_http2_support - " +:+ exn_str e0)).
  { intros e ->. exists e. rewrite (check_on_exception _ _ _ _ _ Hreq).
    reflexivity. }
  destruct (local_proxies_cases proxies (init w))
    as [(_ & Hw) | [(_ & k' & _ & Hw) | (_ & http & https & _ & _ & Hw)]];
    rewrite (Hw url) in Hreq.
  - destruct (with_client_shapes _ _ _ _ _ Hreq)
      as [T | ((e & He) & HT)].
    + left. eexists. exact T.
    + right. split; [exact (Hfail e He) |]. right. eexists. exact HT.
  - inversion Hreq; subst. right. split; [eapply Hfail; reflexivity |].
    left. reflexivity.
  - destruct (with_client_shapes _ _ _ _ _ Hreq)
      as [T | ((e & He) & HT)].
    + left. eexists. exact T.
    + right. split; [exact (Hfail e He) |]. right. eexists. exact HT.
Qed.

End WithHost.

(** A proxies dict with only ['http']: the key ['https'] is missing. *)
Lemma missing_proxy_key_is_error_witness :
  check_http2_support "https://example.com"
    ({["http" := "http://127.0.0.1:8080"]} : gmap string string)
    (init (Script.negotiating "HTTP/2")) =
    (Ret (-1, "check_http2_support - 'https'"),
     init (Script.negotiating "HTTP/2")).
Proof.
  apply (missing_proxy_key_is_error "https://example.com"
           ({["http" := "http://127.0.0.1:8080"]} : gmap string string)
           "https" (init (Script.negotiating "HTTP/2"))).
  - intros H. apply (f_equal (fun m => m !! "http")) in H.
    vm_compute in H. discriminate.
  - right. split; [reflexivity |]. split; [| reflexivity].
    exists "http://127.0.0.1:8080". reflexivity.
Defined.

End MoreNegotiationFacts.

(** * Properties of [get_source_ips] *)

Module SysFacts.
Import EffectFacts.

Section WithSys.
Context {W : Type} {SW : Sys W}.

Lemma perform_sys_cases {X} (c : sys_call X) (s : state (logged W)) :
  (exists x w', perform_sys c s
     = (Ret x, State (w', journal s ++ [SysCalled c]) (trace s))) \/
  (exists e w', perform_sys c s
     = (Raise e, State (w', journal s ++ [SysCalled c]) (trace s))).
Proof.
  unfold perform_sys, journal.
  destruct (sys_respond c (fst (world s))) as [[x | e] w'];
    [left | right]; eauto.
Qed.

Lemma perform_sys_journal {X} (c : sys_call X) (s : state (logged W)) r s' :
  perform_sys c s = (r, s') ->
  journal s' = journal s ++ [SysCalled c] /\ trace s' = trace s.
Proof.
  intros H.
  destruct (perform_sys_cases c s) as [(x & w' & E) | (e & w' & E)];
    rewrite E in H; inversion H; subst; auto.
Qed.

Lemma total_perform_sys {X} (c : sys_call X) : total (perform_sys c).
Proof.
  intros s.
  destruct (perform_sys_cases c s) as [(x & w' & E) | (e & w' & E)];
    rewrite E; discriminate.
Qed.

Lemma total_try_finally {A} (m : M (logged W) A) f :
  total m -> total f -> total (try_finally m f).
Proof.
  intros Hm Hf s. unfold try_finally. specialize (Hm s).
  destruct (m s) as [[a | e |] s']; simpl in *; [| | congruence].
  - apply (total_bind f (fun _ => ret a)); [exact Hf | intros; apply total_ret].
  - unfold bind. specialize (Hf s').
    destruct (f s') as [[x | e' |] s'']; simpl in *; congruence.
Qed.

Lemma jcount_app p j1 j2 :
  jcount p (j1 ++ j2) = (jcount p j1 + jcount p j2)%nat.
Proof. unfold jcount. rewrite List.filter_app, length_app. reflexivity. Qed.

End WithSys.
End SysFacts.

Module SourceIpsFacts.
Import SourceIps EffectFacts SysFacts.

Section WithSys.
Context {W : Type} {SW : Sys W}.

Ltac step_sys H c :=
  match type of H with
  | context [perform_sys c ?st] =>
      let E := fresh "E" in
      destruct (perform_sys_cases c st) as [(? & ? & E) | (? & ? & E)];
      rewrite E in H; clear E; cbn [journal world trace snd fst] in H
  end.

(** The inner [try] with its handlers: an address comes out whatever
    happens, the socket's own if both calls returned and 127.0.0.1
    otherwise. *)
Lemma guarded_address_paths (s : state (logged W)) r s' :
  try_except
    (let* _ := perform_sys (s_connect "8.8.8.8" 1) in
     let* name := perform_sys s_getsockname in
     ret (fst name))
    (fun e =>
       if is_socket_timeout e then ret "127.0.0.1" else ret "127.0.0.1") s
    = (r, s') ->
  trace s' = trace s /\
  exists ip mid,
    r = Ret ip /\
    journal s' = journal s ++ [SysCalled (s_connect "8.8.8.8" 1)] ++ mid /\
    (mid = [] \/ mid = [SysCalled s_getsockname]).
Proof.
  unfold try_except, bind, ret. intros H.
  step_sys H (s_connect "8.8.8.8" 1).
  - step_sys H s_getsockname.
    + inversion H; subst. unfold journal; simpl.
      rewrite <- app_assoc. split; [reflexivity |].
      do 2 eexists. split; [reflexivity |]. split; [reflexivity | auto].
    + destruct (is_socket_timeout _); inversion H; subst;
        unfold journal; simpl; rewrite <- app_assoc;
        (split; [reflexivity |]); do 2 eexists;
        (split; [reflexivity |]); (split; [reflexivity | auto]).
  - destruct (is_socket_timeout _); inversion H; subst;
      unfold journal; simpl;
      (split; [reflexivity |]); exists "127.0.0.1", [];
      (split; [reflexivity |]); (split; [reflexivity | auto]).
Qed.

(** Lines 35-43 as a whole: the connect, the name query if the connect
    returned, and always the close; an exception can only come from the
    close. *)
Lemma local_address_paths (s : state (logged W)) r s' :
  local_address s = (r, s') ->
  trace s' = trace s /\
  exists mid,
    journal s' = journal s ++ [SysCalled (s_connect "8.8.8.8" 1)] ++ mid
                           ++ [SysCalled s_close] /\
    (mid = [] \/ mid = [SysCalled s_getsockname]) /\
    ((exists ip, r = Ret ip) \/ (exists e, r = Raise e)).
Proof.
  unfold local_address, try_finally. intros H.
  match type of H with context [try_except ?m ?h s] =>
    destruct (try_except m h s) as [r1 s1] eqn:Hin end.
  destruct (guarded_address_paths s r1 s1 Hin)
    as (T1 & ip & mid & -> & J1 & Hmid).
  unfold bind, ret in H. step_sys H s_close; inversion H; subst;
    unfold journal in *; simpl; rewrite J1, <- !app_assoc;
    (split; [exact T1 |]); exists mid; (split; [reflexivity |]);
    (split; [exact Hmid |]); eauto.
Qed.

Lemma total_local_address : total (local_address (W := W)).
Proof.
  unfold local_address. apply total_try_finally; [| apply total_perform_sys].
  apply total_try_except.
  - apply total_bind; [apply total_perform_sys | intros _].
    apply total_bind; [apply total_perform_sys | intros name].
    apply total_ret.
  - intros e. destruct (is_socket_timeout e); apply total_ret.
Qed.

(** The outer [try] block, by how far it got. *)
Lemma get_source_ips_try_paths proxies (s : state (logged W)) r s' :
  get_source_ips_try proxies s = (r, s') ->
  trace s' = trace s /\
  (((exists e, r = Raise e) /\
    (journal s' = journal s
       ++ [SysCalled (requests_get "http://ifconfig.me" 5 proxies)] \/
     journal s' = journal s
       ++ [SysCalled (requests_get "http://ifconfig.me" 5 proxies);
           SysCalled socket_socket] \/
     journal s' = journal s
       ++ [SysCalled (requests_get "http://ifconfig.me" 5 proxies);
           SysCalled socket_socket; SysCalled (s_settimeout 2)])) \/
   (exists mid,
      journal s' = journal s
        ++ [SysCalled (requests_get "http://ifconfig.me" 5 proxies);
            SysCalled socket_socket; SysCalled (s_settimeout 2);
            SysCalled (s_connect "8.8.8.8" 1)] ++ mid
        ++ [SysCalled s_close] /\
      (mid = [] \/ mid = [SysCalled s_getsockname]) /\
      ((exists ip response s1,
          perform_sys (requests_get "http://ifconfig.me" 5 proxies) s
            = (Ret response, s1) /\
          r = Ret (PyStr ip, PyStr (strip (text response)))) \/
       (exists e, r = Raise e)))).
Proof.
  unfold get_source_ips_try. unfold bind at 1. intros H.
  destruct (perform_sys_cases (requests_get "http://ifconfig.me" 5 proxies) s)
    as [(response & w1 & E0) | (e0 & w1 & E0)];
    rewrite E0 in H; cbn [journal world trace snd fst] in H.
  2:{ inversion H; subst. unfold journal; simpl. split; [reflexivity |].
      left. eauto. }
  unfold bind at 1 in H. step_sys H socket_socket.
  2:{ inversion H; subst. unfold journal; simpl. rewrite <- app_assoc.
      split; [reflexivity |]. left. eauto. }
  unfold bind at 1 in H. step_sys H (s_settimeout 2).
  2:{ inversion H; subst. unfold journal; simpl. rewrite <- !app_assoc.
      split; [reflexivity |]. left. split; [eauto |]. right. right.
      reflexivity. }
  unfold bind in H.
  match type of H with context [local_address ?st] =>
    destruct (local_address st) as [r1 s1] eqn:Hloc end.
  destruct (local_address_paths _ _ _ Hloc) as (T1 & mid & J1 & Hmid & Hr1).
  unfold journal in J1. simpl in J1, T1.
  assert (Hj : journal s1 = journal s
            ++ [SysCalled (requests_get "http://ifconfig.me" 5 proxies);
                SysCalled socket_socket; SysCalled (s_settimeout 2);
                SysCalled (s_connect "8.8.8.8" 1)] ++ mid
            ++ [SysCalled s_close]).
  { unfold journal. rewrite J1, <- !app_assoc. reflexivity. }
  destruct Hr1 as [(ip & ->) | (e & ->)]; inversion H; subst;
    (split; [exact T1 |]); right; exists mid;
    (split; [exact Hj |]); (split; [exact Hmid |]).
  - left. exists ip, response. eexists. split; [exact E0 | reflexivity].
  - right. eauto.
Qed.

Lemma total_get_source_ips proxies : total (get_source_ips (W := W) proxies).
Proof.
  unfold get_source_ips, get_source_ips_try.
  apply total_try_except.
  - apply total_bind; [apply total_perform_sys | intros response].
    apply total_bind; [apply total_perform_sys | intros _].
    apply total_bind; [apply total_perform_sys | intros _].
    apply total_bind; [apply total_local_address | intros ip].
    apply total_ret.
  - intros e. destruct (is_requests_Timeout e);
      (apply total_bind; [apply total_perform_sys | intros _; apply total_ret]).
Qed.

(** What the handler adds: one line on standard output. *)
Lemma handler_paths e (s : state (logged W)) r s' :
  (if is_requests_Timeout e then
     let* _ := perform_sys (print_stdout "External IP request timed out.") in
     ret (PyNone, PyNone)
   else
     let* _ := perform_sys (print_stdout ("Error: " +:+ exn_str e)) in
     ret (PyNone, PyNone)) s = (r, s') ->
  trace s' = trace s /\
  exists line,
    journal s' = journal s ++ [SysCalled (print_stdout line)] /\
    line = (if is_requests_Timeout e then "External IP request timed out."
            else "Error: " +:+ exn_str e) /\
    (r = Ret (PyNone, PyNone) \/ exists e', r = Raise e').
Proof.
  intros H. destruct (is_requests_Timeout e); unfold bind, ret in H;
    match type of H with context [perform_sys ?c s] => step_sys H c end;
    inversion H; subst; unfold journal; simpl;
    (split; [reflexivity |]); eexists; (split; [reflexivity |]);
    (split; [reflexivity |]); eauto.
Qed.

(** X12.  Once its timeout is set, the UDP socket is closed on every path,
    whether the connect and the name query return, time out or fail, and
    exactly once: a run either never connects and never closes, or its
    journal has one connect and, after it, one close. *)
Theorem socket_closed_on_every_path proxies (w : W) :
  let j := journal (snd (get_source_ips proxies (start w))) in
  (jcount is_s_connect j = 0%nat /\ jcount is_s_close j = 0%nat) \/
  exists pre mid post,
    j = pre ++ [SysCalled (s_connect "8.8.8.8" 1)] ++ mid
            ++ [SysCalled s_close] ++ post /\
    jcount is_s_connect (pre ++ mid ++ post) = 0%nat /\
    jcount is_s_close (pre ++ mid ++ post) = 0%nat.
Proof.
  cbv zeta. unfold get_source_ips, try_except.
  destruct (get_source_ips_try proxies (start w)) as [r0 s0] eqn:Htry.
  destruct (get_source_ips_try_paths _ _ _ _ Htry) as (_ & Hpaths).
  change (journal (start w)) with (@nil sys_entry) in Hpaths.
  cbn [app] in Hpaths.
  destruct Hpaths as [((e & ->) & Hj) | (mid & Hj & Hmid & Hr)].
  - match goal with |- context [snd (?h ?st)] =>
      destruct (h st) as [r1 s1] eqn:Hh end.
    destruct (handler_paths _ _ _ _ Hh) as (_ & line & J & _ & _).
    simpl snd. rewrite J. left.
    destruct Hj as [-> | [-> | ->]]; split; reflexivity.
  - assert (Hok : forall post,
      jcount is_s_connect
        ([SysCalled (requests_get "http://ifconfig.me" 5 proxies);
          SysCalled socket_socket; SysCalled (s_settimeout 2)]
           ++ mid ++ post) = jcount is_s_connect post /\
      jcount is_s_close
        ([SysCalled (requests_get "http://ifconfig.me" 5 proxies);
          SysCalled socket_socket; SysCalled (s_settimeout 2)]
           ++ mid ++ post) = jcount is_s_close post).
    { intros post. destruct Hmid as [-> | ->]; split; reflexivity. }
    right.
    exists [SysCalled (requests_get "http://ifconfig.me" 5 proxies);
            SysCalled socket_socket; SysCalled (s_settimeout 2)], mid.
    destruct Hr as [(ip & response & sreq & _ & ->) | (e & ->)].
    + exists []. simpl snd. rewrite Hj.
      split; [simpl; rewrite <- ?app_assoc; reflexivity |].
      destruct (Hok []) as [-> ->]. split; reflexivity.
    + match goal with |- context [snd (?h ?st)] =>
        destruct (h st) as [r1 s1] eqn:Hh end.
      destruct (handler_paths _ _ _ _ Hh) as (_ & line & J & _ & _).
      exists [SysCalled (print_stdout line)]. simpl snd. rewrite J, Hj.
      split; [simpl; rewrite <- ?app_assoc; reflexivity |].
      destruct (Hok [SysCalled (print_stdout line)]) as [-> ->].
      split; reflexivity.
Qed.

(** X13.  [get_source_ips] returns a pair of strings and prints nothing,
    or prints one line and returns [(None, None)]; it raises only with
    that [print] as its last call.  The external address, when there is
    one, is the stripped text of the response that the request to
    [ifconfig.me], the first call of the run, returned. *)
Theorem get_source_ips_outcomes proxies (w : W) :
  let run := get_source_ips proxies (start w) in
  (exists ip response,
     fst (perform_sys (requests_get "http://ifconfig.me" 5 proxies) (start w))
       = Ret response /\
     fst run = Ret (PyStr ip, PyStr (strip (text response))) /\
     jcount is_print (journal (snd run)) = 0%nat) \/
  (exists pre line,
     journal (snd run) = pre ++ [SysCalled (print_stdout line)] /\
     jcount is_print pre = 0%nat /\
     (fst run = Ret (PyNone, PyNone) \/ exists e, fst run = Raise e)).
Proof.
  cbv zeta. unfold get_source_ips, try_except.
  destruct (get_source_ips_try proxies (start w)) as [r0 s0] eqn:Htry.
  destruct (get_source_ips_try_paths _ _ _ _ Htry) as (_ & Hpaths).
  change (journal (start w)) with (@nil sys_entry) in Hpaths.
  cbn [app] in Hpaths.
  assert (Hquiet : jcount is_print (journal s0) = 0%nat).
  { destruct Hpaths as [(_ & [-> | [-> | ->]]) | (mid & -> & [-> | ->] & _)];
      reflexivity. }
  assert (Hraise : forall e, r0 = Raise e ->
    exists pre line,
      journal (snd (let (o, s') := (r0, s0) in
                    match o with
                    | Ret a => (Ret a, s')
                    | Raise e =>
                        (if is_requests_Timeout e then
                           let* _ := perform_sys
                             (print_stdout "External IP request timed out.") in
                           ret (PyNone, PyNone)
                         else
                           let* _ := perform_sys
                             (print_stdout ("Error: " +:+ exn_str e)) in
                           ret (PyNone, PyNone)) s'
                    | OutOfFuel => (OutOfFuel, s')
                    end))
        = pre ++ [SysCalled (print_stdout line)] /\
      jcount is_print pre = 0%nat /\
      (fst (let (o, s') := (r0, s0) in
            match o with
            | Ret a => (Ret a, s')
            | Raise e =>
                (if is_requests_Timeout e then
                   let* _ := perform_sys
                     (print_stdout "External IP request timed out.") in
                   ret (PyNone, PyNone)
                 else
                   let* _ := perform_sys
                     (print_stdout ("Error: " +:+ exn_str e)) in
                   ret (PyNone, PyNone)) s'
            | OutOfFuel => (OutOfFuel, s')
            end) = Ret (PyNone, PyNone) \/
       exists e', fst (let (o, s') := (r0, s0) in
            match o with
            | Ret a => (Ret a, s')
            | Raise e =>
                (if is_requests_Timeout e then
                   let* _ := perform_sys
                     (print_stdout "External IP request timed out.") in
                   ret (PyNone, PyNone)
                 else
                   let* _ := perform_sys
                     (print_stdout ("Error: " +:+ exn_str e)) in
                   ret (PyNone, PyNone)) s'
            | OutOfFuel => (OutOfFuel, s')
            end) = Raise e')).
  { intros e ->.
    match goal with |- context [snd (?h s0)] =>
      destruct (h s0) as [r1 s1] eqn:Hh end.
    destruct (handler_paths _ _ _ _ Hh) as (_ & line & J & _ & Hr1).
    exists (journal s0), line. simpl. auto. }
  destruct Hpaths as [((e & He) & _)
                     | (mid & _ & _ & [(ip & response & sreq & Hreq & ->)
                                      | (e & He)])].
  - right. exact (Hraise e He).
  - left. exists ip, response. rewrite Hreq. simpl. auto.
  - right. exact (Hraise e He).
Qed.

(** X14.  When the request to [ifconfig.me] raises, no socket is created: the
    function prints one line, "External IP request timed out." for a
    [requests] timeout and "Error: " with the exception's text for
    anything else, and returns [(None, None)]. *)
Theorem external_failure_gives_none proxies (w : W) e s1 s2 :
  perform_sys (requests_get "http://ifconfig.me" 5 proxies) (start w)
    = (Raise e, s1) ->
  perform_sys
    (print_stdout (if is_requests_Timeout e
                   then "External IP request timed out."
                   else "Error: " +:+ exn_str e)) s1 = (Ret tt, s2) ->
  get_source_ips proxies (start w) = (Ret (PyNone, PyNone), s2) /\
  journal s2 =
    [SysCalled (requests_get "http://ifconfig.me" 5 proxies);
     SysCalled (print_stdout (if is_requests_Timeout e
                              then "External IP request timed out."
                              else "Error: " +:+ exn_str e))].
Proof.
  intros Hget Hprint.
  unfold get_source_ips, try_except, get_source_ips_try.
  unfold bind at 1. rewrite Hget.
  destruct (perform_sys_journal _ _ _ _ Hget) as [J1 _].
  destruct (perform_sys_journal _ _ _ _ Hprint) as [J2 _].
  split.
  - destruct (is_requests_Timeout e); unfold bind; rewrite Hprint;
      reflexivity.
  - rewrite J2, J1. reflexivity.
Qed.

(** X15.  When the request and the socket set-up succeed but the connect or
    the name query raises, whatever the exception, the internal address
    is ["127.0.0.1"] and the external one is still reported, provided the
    close returns. *)
Theorem internal_address_falls_back proxies (w : W) response e
  s1 s2 s3 s4 s5 :
  perform_sys (requests_get "http://ifconfig.me" 5 proxies) (start w)
    = (Ret response, s1) ->
  perform_sys socket_socket s1 = (Ret tt, s2) ->
  perform_sys (s_settimeout 2) s2 = (Ret tt, s3) ->
  (let* _ := perform_sys (s_connect "8.8.8.8" 1) in
   let* name := perform_sys s_getsockname in
   ret (fst name)) s3 = (Raise e, s4) ->
  perform_sys s_close s4 = (Ret tt, s5) ->
  get_source_ips proxies (start w) =
    (Ret (PyStr "127.0.0.1", PyStr (strip (text response))), s5).
Proof.
  intros Hget Hsock Htime Hbody Hclose.
  unfold get_source_ips, try_except, get_source_ips_try.
  unfold bind at 1. rewrite Hget.
  unfold bind at 1. rewrite Hsock.
  unfold bind at 1. rewrite Htime.
  unfold bind at 1. unfold local_address, try_finally, try_except.
  rewrite Hbody.
  destruct (is_socket_timeout e); unfold ret at 1; unfold bind;
    rewrite Hclose; reflexivity.
Qed.

End WithSys.

(** A machine without a route to 8.8.8.8. *)
Lemma internal_address_falls_back_witness :
  get_source_ips ∅ (start (Lab.unrouted Script.closing "  203.0.113.7  ")) =
    (Ret (PyStr "127.0.0.1", PyStr "203.0.113.7"),
     snd (get_source_ips ∅ (start (Lab.unrouted Script.closing "  203.0.113.7  ")))).
Proof.
  eapply (internal_address_falls_back ∅
            (Lab.unrouted Script.closing "  203.0.113.7  ") (HttpResponse "  203.0.113.7  ")).
  - vm_compute. reflexivity.
  - vm_compute. reflexivity.
  - vm_compute. reflexivity.
  - vm_compute. reflexivity.
  - vm_compute. reflexivity.
Defined.

(** A machine that cannot reach [ifconfig.me] in time. *)
Lemma external_failure_gives_none_witness :
  get_source_ips ∅ (start (Lab.offline Script.closing)) =
    (Ret (PyNone, PyNone),
     State (Lab.offline Script.closing,
            [SysCalled (requests_get "http://ifconfig.me" 5 ∅);
             SysCalled (print_stdout "External IP request timed out.")])
       []).
Proof.
  assert (H1 : perform_sys (requests_get "http://ifconfig.me" 5 ∅)
                 (start (Lab.offline Script.closing))
               = (Raise (Exn "ConnectTimeout" "timed out"),
                  State (Lab.offline Script.closing,
                         [SysCalled (requests_get "http://ifconfig.me" 5 ∅)])
                    [])) by (vm_compute; reflexivity).
  assert (H2 : perform_sys
                 (print_stdout
                    (if is_requests_Timeout (Exn "ConnectTimeout" "timed out")
                     then "External IP request timed out."
                     else "Error: " +:+ exn_str (Exn "ConnectTimeout"
                                                    "timed out")))
                 (State (Lab.offline Script.closing,
                         [SysCalled (requests_get "http://ifconfig.me" 5 ∅)])
                    [])
               = (Ret tt,
                  State (Lab.offline Script.closing,
                         [SysCalled (requests_get "http://ifconfig.me" 5 ∅);
                          SysCalled (print_stdout
                                       "External IP request timed out.")])
                    [])) by (vm_compute; reflexivity).
  exact (proj1 (external_failure_gives_none ∅ (Lab.offline Script.closing)
                  _ _ _ H1 H2)).
Defined.

End SourceIpsFacts.

(** * Properties of the main block *)

Module MainFacts.
Import Resolver Negotiation Reset Main.
Import EffectFacts ResolverFacts MoreResolverFacts NegotiationFacts ResetFacts.
Import MoreNegotiationFacts SysFacts SourceIpsFacts.

Section WithWorld.
Context {W : Type} {HW : Host W} {SW : Sys W} {U : Urllib}.

(** ** The probers leave the journal alone *)

Lemma keeps_ret {A} (a : A) : keeps_journal (ret (W := logged W) a).
Proof. intros s. reflexivity. Qed.

Lemma keeps_lift {A} (r : result A) : keeps_journal (lift (W := logged W) r).
Proof. intros s. unfold lift. destruct r; reflexivity. Qed.

Lemma keeps_perform {X} (c : call X) :
  keeps_journal (perform (W := logged W) c).
Proof.
  intros s. unfold perform, journal. simpl.
  destruct (respond c (fst (world s))) as [r w']. reflexivity.
Qed.

Lemma keeps_bind {A B} (m : M (logged W) A) (k : A -> M (logged W) B) :
  keeps_journal m -> (forall a, keeps_journal (k a)) ->
  keeps_journal (bind m k).
Proof.
  intros Hm Hk s. unfold bind. specialize (Hm s).
  destruct (m s) as [[a | e |] s']; simpl in *; try exact Hm.
  rewrite Hk. exact Hm.
Qed.

Lemma keeps_try_except {A} (m : M (logged W) A) h :
  keeps_journal m -> (forall e, keeps_journal (h e)) ->
  keeps_journal (try_except m h).
Proof.
  intros Hm Hh s. unfold try_except. specialize (Hm s).
  destruct (m s) as [[a | e |] s']; simpl in *; try exact Hm.
  rewrite Hh. exact Hm.
Qed.

Lemma keeps_check_http2_support url proxies :
  keeps_journal (check_http2_support (W := logged W) url proxies).
Proof.
  unfold check_http2_support, check_http2_support_try.
  apply keeps_try_except; [| intros e; apply keeps_ret].
  apply keeps_bind.
  2:{ intros response.
      destruct (String.eqb (http_version response) "HTTP/2");
        apply keeps_ret. }
  unfold request. apply keeps_bind.
  { destruct (dict_truthy proxies); [| apply keeps_ret].
    apply keeps_bind; [apply keeps_lift | intros http].
    apply keeps_bind; [apply keeps_lift | intros https]. apply keeps_ret. }
  intros local_proxies. unfold with_client.
  apply keeps_bind; [apply keeps_perform | intros _].
  apply keeps_bind; [apply keeps_perform | intros _].
  intros s. pose proof (keeps_perform (client_get url) s) as Hget.
  destruct (perform (client_get url) s) as [[a | e |] s']; simpl in *.
  - rewrite (keeps_bind (perform client_exit) (fun _ => ret a)
               (keeps_perform client_exit) (fun _ => keeps_ret a) s').
    exact Hget.
  - unfold bind. pose proof (keeps_perform client_exit s') as Hexit.
    destruct (perform client_exit s') as [[x | e' |] s'']; simpl in *;
      congruence.
  - exact Hget.
Qed.

Lemma keeps_reset_and_flush id :
  keeps_journal (reset_and_flush (W := logged W) id).
Proof.
  unfold reset_and_flush.
  apply keeps_bind; [apply keeps_perform | intros _].
  apply keeps_bind; [apply keeps_perform | intros d]. apply keeps_perform.
Qed.

Lemma keeps_scan_events stream_id events :
  keeps_journal (scan_events (W := logged W) stream_id events).
Proof.
  induction events as [| ev events IH]; simpl; [apply keeps_ret |].
  destruct (ev_stream_id ev) as [v |]; [| exact IH].
  destruct (py_eq_int v stream_id); [| exact IH].
  apply keeps_bind; [apply keeps_reset_and_flush | intros _; apply keeps_ret].
Qed.

Lemma keeps_receive_step stream_id :
  keeps_journal (receive_step (W := logged W) stream_id).
Proof.
  unfold receive_step.
  apply keeps_bind; [apply keeps_perform | intros data].
  destruct data as [| b data]; [apply keeps_ret |].
  apply keeps_bind; [apply keeps_perform | intros events].
  apply keeps_bind; [apply keeps_scan_events | intros has_sent].
  destruct has_sent; [apply keeps_ret |].
  apply keeps_bind; [apply keeps_perform | intros id].
  destruct (id =? 0);
    (apply keeps_bind; [apply keeps_reset_and_flush
                       | intros _; apply keeps_ret]).
Qed.

Lemma keeps_while_true fuel (body : M (logged W) ctl) :
  keeps_journal body -> keeps_journal (while_true fuel body).
Proof.
  intros Hb. induction fuel as [| fuel IH]; simpl.
  - intros s. reflexivity.
  - apply keeps_bind; [exact Hb | intros c].
    destruct c; [exact IH | apply keeps_ret | apply keeps_ret].
Qed.

Lemma keeps_send_rst_stream_h2 fuel host port stream_id uri_path timeout
  proxy :
  keeps_journal (send_rst_stream_h2 (W := logged W) fuel host port
                   stream_id uri_path timeout proxy).
Proof.
  unfold send_rst_stream_h2, send_rst_stream_h2_try.
  apply keeps_try_except; [| intros e; apply keeps_ret].
  apply keeps_bind.
  { unfold create_connection.
    apply keeps_bind; [apply keeps_perform | intros ctx0].
    apply keeps_bind; [apply keeps_lift | intros ctx1].
    apply keeps_bind; [apply keeps_lift | intros ctx2].
    destruct (proxy_set proxy).
    - apply keeps_bind; [apply keeps_lift | intros parts].
      destruct (py_eq_int port 443);
        (apply keeps_bind; [apply keeps_lift | intros ph]);
        (apply keeps_bind; [apply keeps_lift | intros pp]);
        (apply keeps_bind; [apply keeps_perform | intros _]);
        apply keeps_perform.
    - destruct (py_eq_int port 443); apply keeps_perform. }
  intros _. apply keeps_bind.
  { unfold send_request.
    repeat (apply keeps_bind; [apply keeps_perform | intros ?]).
    apply keeps_perform. }
  intros _. apply keeps_bind.
  { apply keeps_while_true, keeps_receive_step. }
  intros [v |]; [apply keeps_ret |].
  apply keeps_bind; [apply keeps_perform | intros _; apply keeps_ret].
Qed.


(** ** Steps of the monad *)

Lemma bind_of_ret {V A B} (m : M V A) (k : A -> M V B) s a s1 :
  m s = (Ret a, s1) -> bind m k s = k a s1.
Proof. intros H. unfold bind. rewrite H. reflexivity. Qed.

Lemma rows_app j1 j2 : rows (j1 ++ j2) = rows j1 ++ rows j2.
Proof. apply flat_map_app. Qed.

(** ** A reliable console *)

Lemma reliable_clock fmt (s : state (logged W)) :
  console_reliable SW ->
  exists now s',
    perform_sys (datetime_now_strftime fmt) s = (Ret now, s') /\
    rows (journal s') = rows (journal s) /\ trace s' = trace s.
Proof.
  intros Hrel. destruct (Hrel (fst (world s))) as (_ & Hclock & _).
  destruct (Hclock fmt) as (now & w' & E).
  exists now. eexists. unfold perform_sys. rewrite E.
  split; [reflexivity |]. split; [| reflexivity].
  unfold journal. simpl. rewrite rows_app. simpl. apply app_nil_r.
Qed.

Lemma reliable_stderr line (s : state (logged W)) :
  console_reliable SW ->
  exists s',
    perform_sys (print_stderr line) s = (Ret tt, s') /\
    rows (journal s') = rows (journal s) /\ trace s' = trace s.
Proof.
  intros Hrel. destruct (Hrel (fst (world s))) as (Herr & _ & _).
  destruct (Herr line) as (w' & E).
  eexists. unfold perform_sys. rewrite E.
  split; [reflexivity |]. split; [| reflexivity].
  unfold journal. simpl. rewrite rows_app. simpl. apply app_nil_r.
Qed.

Lemma reliable_writerow row (s : state (logged W)) :
  console_reliable SW ->
  exists s',
    perform_sys (csv_writerow row) s = (Ret tt, s') /\
    rows (journal s') = rows (journal s) ++ [row] /\ trace s' = trace s.
Proof.
  intros Hrel. destruct (Hrel (fst (world s))) as (_ & _ & Hrow).
  destruct (Hrow row) as (w' & E).
  eexists. unfold perform_sys. rewrite E.
  split; [reflexivity |]. split; [| reflexivity].
  unfold journal. simpl. rewrite rows_app. reflexivity.
Qed.

(** ** One line of the input *)

Lemma scan_line_blank fuel a proxies internal_ip external_ip line
  (s : state (logged W)) :
  strip line = "" ->
  scan_line fuel a proxies internal_ip external_ip line s = (Ret tt, s).
Proof. intros H. unfold scan_line. rewrite H. reflexivity. Qed.

(** The body of the loop on a line that is not blank, step by step. *)
Lemma scan_line_spec fuel a proxies internal_ip external_ip line
  (s : state (logged W)) :
  console_reliable SW ->
  strip line <> "" ->
  exists now (s0 s1 : state (logged W)) st err (s2 : state (logged W))
    hv pv u verdict cell (s' : state (logged W)),
    perform_sys (datetime_now_strftime "%Y-%m-%d %H:%M:%S") s
      = (Ret now, s0) /\
    (if arg_verbose a
     then perform_sys (print_stderr ("Checking " +:+ strip line +:+ "..."))
     else ret tt) s0 = (Ret tt, s1) /\
    trace s1 = trace s /\
    check_http2_support (strip line) proxies s1 = (Ret (st, err), s2) /\
    extract_hostname_port_uri (strip line) = Ok (hv, pv, PyStr u) /\
    scan_line (S fuel) a proxies internal_ip external_ip line s
      = (Ret tt, s') /\
    rows (journal s') =
      rows (journal s) ++ [[PyStr now; internal_ip; external_ip;
                            PyStr (strip line); PyStr verdict; PyStr cell]] /\
    ((st = 1 /\
      exists resp err2 s3,
        send_rst_stream_h2 (S fuel) hv pv 1 u 5 (arg_proxy a) s2
          = (Ret (resp, err2), s3) /\
        trace s' = trace s3 /\
        ((resp = 1 /\ verdict = "VULNERABLE" /\ cell = "") \/
         (resp = -1 /\ verdict = "POSSIBLE" /\
          cell = "Failed to send RST_STREAM: " +:+ err2) \/
         (resp = 0 /\ verdict = "LIKELY" /\
          cell = "Got empty response to RST_STREAM request"))) \/
     (st = 0 /\ trace s' = trace s2 /\
      verdict = "SAFE" /\ cell = "Downgraded to " +:+ err) \/
     (st = -1 /\ trace s' = trace s2 /\ verdict = "ERROR" /\ cell = err)).
Proof.
  intros Hrel Hne. unfold scan_line.
  apply String.eqb_neq in Hne as Hb. rewrite Hb. cbn [negb].
  destruct (reliable_clock "%Y-%m-%d %H:%M:%S" s Hrel)
    as (now & sa & Ea & Ja & Ta).
  rewrite (bind_of_ret _ _ _ _ _ Ea).
  assert (exists s1,
            (if arg_verbose a
             then perform_sys (print_stderr ("Checking " +:+ strip line +:+ "..."))
             else ret tt) sa = (Ret tt, s1) /\
            rows (journal s1) = rows (journal sa) /\ trace s1 = trace sa)
    as (s1 & E1 & J1 & T1).
  { destruct (arg_verbose a).
    - apply reliable_stderr. exact Hrel.
    - exists sa. auto. }
  rewrite (bind_of_ret _ _ _ _ _ E1).
  destruct (negotiation_returns (strip line) proxies s1)
    as (st & err & s2 & E2 & Hst).
  pose proof (keeps_check_http2_support (strip line) proxies s1) as J2.
  rewrite E2 in J2. simpl in J2.
  rewrite (bind_of_ret _ _ _ _ _ E2). cbn beta iota.
  destruct (resolver_shape U (strip line)) as (hv & pv & u & Eres & _).
  rewrite Eres.
  rewrite (bind_of_ret (lift (Ok (hv, pv, PyStr u))) _ s2 (hv, pv, PyStr u) s2
             eq_refl).
  cbn beta iota. cbn [str_value].
  assert (Hj : rows (journal s2) = rows (journal s)).
  { rewrite J2, J1, Ja. reflexivity. }
  assert (Ht : trace s1 = trace s) by (rewrite T1; exact Ta).
  destruct Hst as [-> | [-> | ->]].
  - change (1 =? 1) with true. cbn iota.
    destruct (reset_prober_returns fuel hv pv 1 u 5 (arg_proxy a) s2)
      as (resp & err2 & s3 & E3 & Hresp).
    pose proof (keeps_send_rst_stream_h2 (S fuel) hv pv 1 u 5 (arg_proxy a) s2)
      as J3.
    rewrite E3 in J3. simpl in J3.
    rewrite (bind_of_ret _ _ _ _ _ E3). cbn beta iota.
    destruct Hresp as [-> | [-> | ->]]; cbn [Z.eqb Pos.eqb];
      match goal with
      | |- context [perform_sys (csv_writerow
                      [_; _; _; _; PyStr ?verdict; PyStr ?cell]) s3] =>
          destruct (reliable_writerow
                      [PyStr now; internal_ip; external_ip;
                       PyStr (strip line); PyStr verdict; PyStr cell] s3 Hrel)
            as (s' & E' & J' & T');
          exists now, sa, s1, 1, err, s2, hv, pv, u, verdict, cell, s'
      end;
      (split; [exact Ea |]); (split; [exact E1 |]);
      (split; [exact Ht |]); (split; [exact E2 |]);
      (split; [reflexivity |]); (split; [exact E' |]);
      (split; [rewrite J', J3, Hj; reflexivity |]);
      left; (split; [reflexivity |]);
      eexists _, err2, s3; (split; [exact E3 |]); (split; [exact T' |]);
      auto.
  - change (0 =? 1) with false. change (0 =? 0) with true. cbn iota.
    destruct (reliable_writerow
                [PyStr now; internal_ip; external_ip; PyStr (strip line);
                 PyStr "SAFE"; PyStr ("Downgraded to " +:+ err)] s2 Hrel)
      as (s' & E' & J' & T').
    exists now, sa, s1, 0, err, s2, hv, pv, u, "SAFE",
      ("Downgraded to " +:+ err), s'.
    split; [exact Ea |]. split; [exact E1 |]. split; [exact Ht |]. split; [exact E2 |]. split; [reflexivity |].
    split; [exact E' |]. split; [rewrite J', Hj; reflexivity |].
    right. left. auto.
  - change (-1 =? 1) with false. change (-1 =? 0) with false. cbn iota.
    destruct (reliable_writerow
                [PyStr now; internal_ip; external_ip; PyStr (strip line);
                 PyStr "ERROR"; PyStr err] s2 Hrel)
      as (s' & E' & J' & T').
    exists now, sa, s1, (-1), err, s2, hv, pv, u, "ERROR", err, s'.
    split; [exact Ea |]. split; [exact E1 |]. split; [exact Ht |]. split; [exact E2 |]. split; [reflexivity |].
    split; [exact E' |]. split; [rewrite J', Hj; reflexivity |].
    right. right. auto.
Qed.

(** X16.  How the main block turns the two statuses into the row of a target:
    for a line that is not blank, with the console, the clock and the
    report working, the body of the loop returns and appends exactly one
    row [now, internal_ip, external_ip, addr, verdict, cell] with [addr]
    the stripped line.  After the clock is read and, with [--verbose],
    the progress line printed, the negotiation prober runs on [addr].  On
    status 1 the reset prober runs on what the resolver gives for [addr],
    on stream 1 with the [--proxy] option, and its status picks
    VULNERABLE (1), POSSIBLE (-1, with its message) or LIKELY (0); on
    status 0 the row says SAFE with the negotiated version, on status -1
    ERROR with the message, and in both the reset prober is not run. *)
Theorem verdict_follows_statuses fuel a proxies internal_ip external_ip line
  (s : state (logged W)) :
  console_reliable SW ->
  strip line <> "" ->
  exists now (s0 s1 : state (logged W)) st err (s2 : state (logged W))
    hv pv u verdict cell (s' : state (logged W)),
    perform_sys (datetime_now_strftime "%Y-%m-%d %H:%M:%S") s
      = (Ret now, s0) /\
    (if arg_verbose a
     then perform_sys (print_stderr ("Checking " +:+ strip line +:+ "..."))
     else ret tt) s0 = (Ret tt, s1) /\
    trace s1 = trace s /\
    check_http2_support (strip line) proxies s1 = (Ret (st, err), s2) /\
    extract_hostname_port_uri (strip line) = Ok (hv, pv, PyStr u) /\
    scan_line (S fuel) a proxies internal_ip external_ip line s
      = (Ret tt, s') /\
    rows (journal s') =
      rows (journal s) ++ [[PyStr now; internal_ip; external_ip;
                            PyStr (strip line); PyStr verdict; PyStr cell]] /\
    ((st = 1 /\
      exists resp err2 s3,
        send_rst_stream_h2 (S fuel) hv pv 1 u 5 (arg_proxy a) s2
          = (Ret (resp, err2), s3) /\
        trace s' = trace s3 /\
        ((resp = 1 /\ verdict = "VULNERABLE" /\ cell = "") \/
         (resp = -1 /\ verdict = "POSSIBLE" /\
          cell = "Failed to send RST_STREAM: " +:+ err2) \/
         (resp = 0 /\ verdict = "LIKELY" /\
          cell = "Got empty response to RST_STREAM request"))) \/
     (st = 0 /\ trace s' = trace s2 /\
      verdict = "SAFE" /\ cell = "Downgraded to " +:+ err) \/
     (st = -1 /\ trace s' = trace s2 /\ verdict = "ERROR" /\ cell = err)).
Proof. apply scan_line_spec. Qed.

(** ** Which calls a target receives *)

Lemma only_check_http2_support url proxies :
  only negotiation_call (check_http2_support (W := logged W) url proxies).
Proof.
  unfold check_http2_support, check_http2_support_try.
  apply only_try_except; [| intros e; apply only_ret].
  apply only_bind.
  2:{ intros r. destruct (String.eqb (http_version r) "HTTP/2");
        apply only_ret. }
  unfold request. apply only_bind.
  { destruct (dict_truthy proxies); [| apply only_ret].
    apply only_bind; [apply only_lift | intros http].
    apply only_bind; [apply only_lift | intros https]. apply only_ret. }
  intros local_proxies s. cbv zeta.
  match goal with |- context [with_client ?k ?b s] =>
    destruct (with_client k b s) as [r s'] eqn:E end.
  destruct (with_client_shapes _ _ _ _ _ E) as [H | (_ & [H | H])];
    simpl; rewrite H; eexists; split; reflexivity.
Qed.

Lemma extends_send_rst_stream_h2 fuel host port stream_id uri_path timeout
  proxy :
  only (fun _ => true)
    (send_rst_stream_h2 (W := logged W) fuel host port stream_id uri_path
       timeout proxy).
Proof.
  unfold send_rst_stream_h2, send_rst_stream_h2_try.
  apply only_try_except; [| intros e; apply only_ret].
  apply only_bind.
  { apply (only_weaken setup_call); [auto | apply only_create_connection]. }
  intros _. apply only_bind.
  { apply (only_weaken request_call); [auto | apply only_send_request]. }
  intros _. apply only_bind.
  { apply only_while_true.
    apply (only_weaken loop_call); [auto | apply only_loop_receive_step]. }
  intros [v |]; [apply only_ret |].
  apply only_bind; [apply only_perform; reflexivity | intros _].
  apply only_ret.
Qed.

(** X17.  A target reported SAFE or ERROR was only talked to through the HTTP
    client: while its line was handled, with the console, the clock and
    the report working, no call of the reset prober was made: no TLS
    context, no connection, no frame. *)
Theorem safe_or_error_target_gets_no_frames fuel a proxies internal_ip
  external_ip line (s : state (logged W)) :
  console_reliable SW ->
  strip line <> "" ->
  exists acts row (s' : state (logged W)),
    scan_line (S fuel) a proxies internal_ip external_ip line s
      = (Ret tt, s') /\
    trace s' = trace s ++ acts /\
    rows (journal s') = rows (journal s) ++ [row] /\
    (verdict_of row = PyStr "SAFE" \/ verdict_of row = PyStr "ERROR" ->
     forallb negotiation_call acts = true).
Proof.
  intros Hrel Hne.
  destruct (scan_line_spec fuel a proxies internal_ip external_ip line s
              Hrel Hne)
    as (now & sa & s1 & st & err & s2 & hv & pv & u & verdict & cell & s' &
        _ & _ & T1 & E2 & _ & Erun & Hrows & Hcases).
  destruct (only_check_http2_support (strip line) proxies s1)
    as (acts2 & T2 & F2).
  rewrite E2 in T2. simpl in T2. rewrite T1 in T2.
  destruct Hcases as [(_ & resp & err2 & s3 & E3 & T3 & Hv)
                     | [(_ & T' & _) | (_ & T' & _)]].
  - destruct (extends_send_rst_stream_h2 (S fuel) hv pv 1 u 5 (arg_proxy a)
                s2) as (acts3 & T3' & _).
    rewrite E3 in T3'. simpl in T3'.
    exists (acts2 ++ acts3). eexists. exists s'.
    split; [exact Erun |].
    split; [rewrite T3, T3', T2, app_assoc; reflexivity |].
    split; [exact Hrows |].
    unfold verdict_of. simpl.
    destruct Hv as [(_ & -> & _) | [(_ & -> & _) | (_ & -> & _)]];
      intros [H | H]; discriminate H.
  - exists acts2. eexists. exists s'.
    split; [exact Erun |]. split; [rewrite T'; exact T2 |].
    split; [exact Hrows |]. intros _. exact F2.
  - exists acts2. eexists. exists s'.
    split; [exact Erun |]. split; [rewrite T'; exact T2 |].
    split; [exact Hrows |]. intros _. exact F2.
Qed.

(** ** The whole report *)

Lemma scan_lines_rows fuel a proxies internal_ip external_ip lines :
  console_reliable SW ->
  forall s : state (logged W),
  exists (s' : state (logged W)) rs,
    scan_lines (S fuel) a proxies internal_ip external_ip lines s
      = (Ret tt, s') /\
    rows (journal s') = rows (journal s) ++ rs /\
    map url_of rs =
      map PyStr (List.filter (fun t => negb (String.eqb t ""))
                   (map strip lines)) /\
    Forall (fun r => length r = 6%nat /\ In (verdict_of r) verdicts) rs.
Proof.
  intros Hrel. induction lines as [| line lines IH]; intros s.
  - exists s, []. simpl. rewrite app_nil_r. auto.
  - simpl. destruct (String.eqb (strip line) "") eqn:Hb.
    + apply String.eqb_eq in Hb.
      rewrite (bind_of_ret _ _ _ _ _
                 (scan_line_blank (S fuel) a proxies internal_ip external_ip
                    line s Hb)).
      simpl. exact (IH s).
    + apply String.eqb_neq in Hb.
      destruct (scan_line_spec fuel a proxies internal_ip external_ip line s
                  Hrel Hb)
        as (now & sa & s1 & st & err & s2 & hv & pv & u & verdict & cell &
            s0 & _ & _ & _ & _ & _ & Erun & Hrows & Hcases).
      rewrite (bind_of_ret _ _ _ _ _ Erun).
      destruct (IH s0) as (s' & rs & E' & R' & Hu & Hall).
      exists s'. eexists (_ :: rs).
      split; [exact E' |].
      split; [rewrite R', Hrows, <- app_assoc; reflexivity |].
      split; [simpl; rewrite Hu; reflexivity |].
      constructor; [| exact Hall].
      split; [reflexivity |].
      unfold verdict_of, verdicts. simpl.
      destruct Hcases as [(_ & resp & err2 & s3 & _ & _ & Hv)
                         | [(_ & _ & -> & _) | (_ & _ & -> & _)]];
        [| tauto | tauto].
      destruct Hv as [(_ & -> & _) | [(_ & -> & _) | (_ & -> & _)]]; tauto.
Qed.

Lemma reliable_stdout line (s : state (logged W)) :
  (forall w l, exists w', sys_respond (print_stdout l) w = (Ok tt, w')) ->
  exists s',
    perform_sys (print_stdout line) s = (Ret tt, s') /\
    rows (journal s') = rows (journal s).
Proof.
  intros Hout. destruct (Hout (fst (world s)) line) as (w' & E).
  eexists. unfold perform_sys. rewrite E.
  split; [reflexivity |].
  unfold journal. simpl. rewrite rows_app. simpl. apply app_nil_r.
Qed.

(** [get_source_ips] writes no row, and returns if standard output
    works. *)
Lemma get_source_ips_rows proxies (s : state (logged W)) :
  (forall w l, exists w', sys_respond (print_stdout l) w = (Ok tt, w')) ->
  exists internal_ip external_ip (s' : state (logged W)),
    SourceIps.get_source_ips proxies s
      = (Ret (internal_ip, external_ip), s') /\
    rows (journal s') = rows (journal s).
Proof.
  intros Hout. unfold SourceIps.get_source_ips, try_except.
  destruct (SourceIps.get_source_ips_try proxies s) as [r s0] eqn:E.
  destruct (get_source_ips_try_paths _ _ _ _ E)
    as (_ & [((e & ->) & Hj) | (mid & Hj & Hmid & Hr)]).
  - assert (Hrows : rows (journal s0) = rows (journal s)).
    { destruct Hj as [-> | [-> | ->]]; rewrite rows_app; simpl;
        apply app_nil_r. }
    cbn beta iota.
    destruct (is_requests_Timeout e);
      match goal with |- context [perform_sys (print_stdout ?l)] =>
        destruct (reliable_stdout l s0 Hout) as (s' & E' & J') end;
      rewrite (bind_of_ret _ _ _ _ _ E');
      exists PyNone, PyNone, s'; (split; [reflexivity |]);
      rewrite J'; exact Hrows.
  - assert (Hrows : rows (journal s0) = rows (journal s)).
    { rewrite Hj, rows_app.
      destruct Hmid as [-> | ->]; simpl; apply app_nil_r. }
    destruct Hr as [(ip & response & sreq & _ & ->) | (e & ->)].
    + do 2 eexists. exists s0. split; [reflexivity | exact Hrows].
    + cbn beta iota.
      destruct (is_requests_Timeout e);
        match goal with |- context [perform_sys (print_stdout ?l)] =>
          destruct (reliable_stdout l s0 Hout) as (s' & E' & J') end;
        rewrite (bind_of_ret _ _ _ _ _ E');
        exists PyNone, PyNone, s'; (split; [reflexivity |]);
        rewrite J'; exact Hrows.
Qed.

(** A call that cannot fail, made. *)
Lemma reliable_call {X} (c : sys_call X) (x : X) (s : state (logged W)) :
  (exists w', sys_respond c (fst (world s)) = (Ok x, w')) ->
  exists s',
    perform_sys c s = (Ret x, s') /\
    journal s' = journal s ++ [SysCalled c] /\ trace s' = trace s.
Proof.
  intros (w' & E). eexists. unfold perform_sys. rewrite E.
  split; [reflexivity |]. split; reflexivity.
Qed.

Lemma try_finally_done {A} (m : M (logged W) A) f s r s1 s2 :
  m s = (r, s1) -> r <> OutOfFuel -> f s1 = (Ret tt, s2) ->
  try_finally m f s = (r, s2).
Proof.
  intros Hm Hr Hf. unfold try_finally. rewrite Hm.
  destruct r as [a | e |]; [| | congruence];
    unfold bind; rewrite Hf; reflexivity.
Qed.

(** X18.  The report has the header and then one row per input line that is
    not blank, in the order of the input.  With the console, the clock,
    the report and standard output working, the input file opened, the
    output file opening and both files closing, the main block ends
    whatever the servers and the network do: it returns when the input
    is read to its end and raises the iteration's exception otherwise.
    In both cases the rows after the header carry the stripped lines
    that the input yielded in the URL column, each has six cells and a
    verdict among VULNERABLE, POSSIBLE, LIKELY, SAFE and ERROR, so no
    target is left without a row; and the last two calls close the
    output file and the input file. *)
Theorem report_has_one_row_per_target fuel a f (w : W) :
  console_reliable SW ->
  (forall w l, exists w', sys_respond (print_stdout l) w = (Ok tt, w')) ->
  files_reliable SW (arg_output a) ->
  fst (sys_respond (open_input (arg_input a))
         (fst (world (snd (SourceIps.get_source_ips (main_proxies a)
                             (start w)))))) = Ok f ->
  exists (s' : state (logged W)) rs pre,
    main (S fuel) a (start w) =
      (match in_error f with Some e => Raise e | None => Ret tt end, s') /\
    rows (journal s') = header :: rs /\
    map url_of rs =
      map PyStr (List.filter (fun t => negb (String.eqb t ""))
                   (map strip (in_lines f))) /\
    Forall (fun r => length r = 6%nat /\ In (verdict_of r) verdicts) rs /\
    journal s' = pre ++ [SysCalled outfile_exit; SysCalled infile_exit].
Proof.
  intros Hrel Hout Hfiles Hopen. unfold main.
  destruct (get_source_ips_rows (main_proxies a) (start w) Hout)
    as (internal_ip & external_ip & s0 & E0 & J0).
  rewrite E0 in Hopen. simpl snd in Hopen.
  rewrite (bind_of_ret _ _ _ _ _ E0). cbn beta iota.
  destruct (reliable_call (open_input (arg_input a)) f s0)
    as (s1 & E1 & J1 & _).
  { destruct (sys_respond (open_input (arg_input a)) (fst (world s0)))
      as [r w']. simpl in Hopen. subst r. eauto. }
  rewrite (bind_of_ret _ _ _ _ _ E1).
  destruct (reliable_call (open_output (arg_output a)) tt s1)
    as (s2 & E2 & J2 & _); [apply Hfiles |].
  destruct (reliable_call csv_writer tt s2)
    as (s3 & E3 & J3 & _); [apply Hfiles |].
  destruct (reliable_writerow header s3 Hrel) as (s4 & E4 & J4 & _).
  destruct (scan_lines_rows fuel a (main_proxies a) internal_ip external_ip
              (in_lines f) Hrel s4) as (s5 & rs & E5 & R5 & Hu & Hall).
  destruct (reliable_call outfile_exit tt s5)
    as (s6 & E6 & J6 & _); [apply Hfiles |].
  destruct (reliable_call infile_exit tt s6)
    as (s7 & E7 & J7 & _); [apply Hfiles |].
  assert (Hend : match in_error f with
                 | Some e => Raise e
                 | None => Ret tt
                 end <> (OutOfFuel : outcome unit)).
  { destruct (in_error f); discriminate. }
  assert (Hbody :
    (let* _ := perform_sys csv_writer in
     let* _ := perform_sys (csv_writerow header) in
     let* _ := scan_lines (S fuel) a (main_proxies a) internal_ip external_ip
                 (in_lines f) in
     match in_error f with
     | Some e => raise e
     | None => ret tt
     end) s2
    = (match in_error f with Some e => Raise e | None => Ret tt end, s5)).
  { rewrite (bind_of_ret _ _ _ _ _ E3), (bind_of_ret _ _ _ _ _ E4),
      (bind_of_ret _ _ _ _ _ E5).
    destruct (in_error f); reflexivity. }
  assert (Hinner :
    (let* _ := perform_sys (open_output (arg_output a)) in
     try_finally
       (let* _ := perform_sys csv_writer in
        let* _ := perform_sys (csv_writerow header) in
        let* _ := scan_lines (S fuel) a (main_proxies a) internal_ip
                    external_ip (in_lines f) in
        match in_error f with
        | Some e => raise e
        | None => ret tt
        end)
       (perform_sys outfile_exit)) s1
    = (match in_error f with Some e => Raise e | None => Ret tt end, s6)).
  { rewrite (bind_of_ret _ _ _ _ _ E2).
    exact (try_finally_done _ _ _ _ _ _ Hbody Hend E6). }
  exists s7, rs, (journal s5).
  split; [exact (try_finally_done _ _ _ _ _ _ Hinner Hend E7) |].
  assert (Hrows : rows (journal s7) = header :: rs).
  { rewrite J7, J6, !rows_app, R5, J4, J3, J2, J1, !rows_app, J0.
    simpl. rewrite !app_nil_r. reflexivity. }
  split; [exact Hrows |]. split; [exact Hu |]. split; [exact Hall |].
  rewrite J7, J6, <- app_assoc. reflexivity.
Qed.

(** ** The proxy option *)

(** X19.  The [--proxy] option always reaches the HTTP client whole: the
    [proxies] dict the main block builds never lacks a key, so the
    negotiation prober always constructs its client, once, and passes it
    the option under both ['http://'] and ['https://'], or no proxies at
    all when the option is absent or empty. *)
Theorem proxy_option_reaches_client a url (w : W) :
  exists kwargs,
    client_kwargs
      (trace (snd (check_http2_support url (main_proxies a) (init w))))
      = [kwargs] /\
    kwargs !! "proxies" =
      match arg_proxy a with
      | Some p =>
          if String.eqb p "" then None
          else Some (KwDict (<["https://" := p]> (<["http://" := p]> ∅)))
      | None => None
      end.
Proof.
  rewrite check_state.
  assert (Hshape : forall kwargs,
            client_kwargs
              (trace (snd (with_client kwargs (perform (client_get url))
                             (init w)))) = [kwargs]).
  { intros kwargs.
    destruct (with_client kwargs (perform (client_get url)) (init w))
      as [r s'] eqn:E.
    destruct (with_client_shapes _ _ _ _ _ E) as [T | (_ & [T | T])];
      simpl snd; rewrite T; reflexivity. }
  assert (Hcases :
    (main_proxies a = ∅ /\
     match arg_proxy a with
     | Some p => String.eqb p "" = true
     | None => True
     end) \/
    exists p, arg_proxy a = Some p /\ String.eqb p "" = false /\
              main_proxies a = <["https" := p]> (<["http" := p]> ∅)).
  { unfold main_proxies. destruct (arg_proxy a) as [p |]; simpl.
    - destruct (String.eqb p "") eqn:Ep; simpl; [left; auto |].
      right. exists p. auto.
    - left. auto. }
  destruct Hcases as [(Hempty & Hopt) | (p & Hp & Hne & Hmap)].
  - rewrite Hempty.
    destruct (local_proxies_cases (∅ : gmap string string) (init w))
      as [(_ & Hreq) | [(Habs & _) | (Habs & _)]];
      [| contradiction | contradiction].
    rewrite (Hreq url). eexists. split; [apply Hshape |].
    destruct (arg_proxy a) as [p |]; [rewrite Hopt |]; reflexivity.
  - rewrite Hmap, Hp, Hne.
    destruct (local_proxies_cases
                (<["https" := p]> (<["http" := p]> (∅ : gmap string string)))
                (init w))
      as [(Habs & _) | [(_ & k & Hk & _) | (_ & http & https & Eh & Ehs & Hreq)]].
    + exfalso. apply (insert_non_empty _ _ _ Habs).
    + exfalso. destruct Hk as [(_ & Hn) | (_ & _ & Hn)];
        vm_compute in Hn; discriminate Hn.
    + assert (http = p) as -> by (vm_compute in Eh; congruence).
      assert (https = p) as -> by (vm_compute in Ehs; congruence).
      rewrite (Hreq url). eexists. split; [apply Hshape |]. reflexivity.
Qed.

(** ** From the target string to the transport *)

(** X20.  What the resolver gives for a target decides whether it is probed
    over TLS: for a target with a host, the reset prober, given the
    resolver's host and port, creates no transport or exactly one, and
    that one is TLS (with both checks off) exactly when the port written
    in the target is 443 or, with no port or port 0 written, when the
    scheme is ["https"].  A target such as ["https://host:8443/"] is
    probed in clear text, and one without a scheme as well. *)
Theorem tls_follows_resolved_port url p h po :
  has_host U url p h ->
  parsed_port p = Ok po ->
  let tls :=
    match po with
    | Some n => if n =? 0 then String.eqb (pr_scheme p) "https" else n =? 443
    | None => String.eqb (pr_scheme p) "https"
    end in
  exists pv u,
    extract_hostname_port_uri url = Ok (PyStr h, pv, PyStr u) /\
    forall fuel proxy (w : W),
      let t := trace (snd (send_rst_stream_h2 fuel (PyStr h) pv 1 u 5 proxy
                             (init w))) in
      connections t = [] \/
      connections t =
        [if tls
         then TLS {| check_hostname := false; verify_mode := CERT_NONE |}
         else Plain].
Proof.
  intros (Hp & Hh & Hne) Hport tls.
  assert (Hres : exists pv,
            extract_hostname_port_uri url =
              Ok (PyStr h, pv,
                  PyStr (if String.eqb (pr_path p) "" then "/"
                         else pr_path p)) /\
            py_eq_int pv 443 = tls).
  { rewrite (try_block_parsed U url p (Some h) po Hp Hh Hport).
    simpl. rewrite (string_eqb_false h "" Hne). simpl.
    assert (Hdefault :
      exists pv,
        (if String.eqb (pr_scheme p) "http"
         then Ok (PyStr h, PyInt 80,
                  PyStr (if String.eqb (pr_path p) "" then "/" else pr_path p))
         else if String.eqb (pr_scheme p) "https"
         then Ok (PyStr h, PyInt 443,
                  PyStr (if String.eqb (pr_path p) "" then "/" else pr_path p))
         else Ok (PyStr h, PyTuple [PyInt 80; PyInt 443],
                  PyStr (if String.eqb (pr_path p) "" then "/" else pr_path p)))
        = Ok (PyStr h, pv,
              PyStr (if String.eqb (pr_path p) "" then "/" else pr_path p)) /\
        py_eq_int pv 443 = String.eqb (pr_scheme p) "https").
    { destruct (String.eqb (pr_scheme p) "http") eqn:Ehttp.
      - apply String.eqb_eq in Ehttp. rewrite Ehttp.
        exists (PyInt 80). split; reflexivity.
      - destruct (String.eqb (pr_scheme p) "https");
          eexists; split; reflexivity. }
    subst tls. destruct po as [n |]; simpl.
    - destruct (n =? 0); simpl; [exact Hdefault |].
      exists (PyInt n). split; reflexivity.
    - exact Hdefault. }
  destruct Hres as (pv & Hres & Htls).
  exists pv. eexists. split; [exact Hres |].
  intros fuel proxy w. cbv zeta.
  set (u := if String.eqb (pr_path p) "" then "/" else pr_path p).
  destruct (create_connection (PyStr h) pv 5 proxy (init w))
    as [r s0] eqn:Hc.
  destruct (create_connection_transport _ _ _ _ _ _ _ Hc)
    as (acts & Ea & Hcases). simpl in Ea.
  assert (Ht : connections
                 (trace (snd (send_rst_stream_h2 fuel (PyStr h) pv 1 u 5
                                proxy (init w))))
               = connections acts).
  { unfold send_rst_stream_h2, send_rst_stream_h2_try.
    rewrite try_except_bind, Hc.
    destruct r as [[] | e |].
    - destruct (only_after_creation fuel (PyStr h) 1 u s0)
        as (acts2 & E2 & F2).
      rewrite E2, Ea, connections_app, (connections_none acts2 F2), app_nil_r.
      reflexivity.
    - simpl. rewrite Ea. reflexivity.
    - simpl. rewrite Ea. reflexivity. }
  rewrite Ht. rewrite <- Htls.
  destruct Hcases as [(Hnil & _) | [(-> & ->) | (-> & ->)]]; auto.
Qed.

End WithWorld.
End MainFacts.

(** * Runs of the main block on a scripted machine *)

Module MainRunFacts.
Import Resolver Negotiation Reset Main Script PyUrllib.
Import MainFacts.

(** A verbose run without a proxy against a server that negotiates
    HTTP/1.1: the line gets one row, for the stripped target. *)
Lemma verdict_follows_statuses_witness :
  exists row s',
    scan_line (U := py_urllib) 1
      {| arg_input := "targets.txt"; arg_output := "/dev/stdout";
         arg_proxy := None; arg_verbose := true |}
      ∅ (PyStr "192.168.1.10") (PyStr "203.0.113.7") " https://example.com "
      (start (Lab.online (negotiating "HTTP/1.1") "203.0.113.7"
                "192.168.1.10"))
      = (Ret tt, s') /\
    rows (journal s') = [row] /\
    url_of row = PyStr "https://example.com".
Proof.
  assert (Hrel : console_reliable Lab.lab_sys).
  { intros w. split; [| split]; intros;
      [exists w | exists "2023-10-13 12:00:00", w | exists w]; reflexivity. }
  assert (Hne : strip " https://example.com " <> "")
    by (vm_compute; discriminate).
  destruct (verdict_follows_statuses (U := py_urllib) 0
              {| arg_input := "targets.txt"; arg_output := "/dev/stdout";
                 arg_proxy := None; arg_verbose := true |}
              ∅ (PyStr "192.168.1.10") (PyStr "203.0.113.7")
              " https://example.com "
              (start (Lab.online (negotiating "HTTP/1.1") "203.0.113.7"
                        "192.168.1.10"))
              Hrel Hne)
    as (now & s0 & s1 & st & err & s2 & hv & pv & u & verdict & cell & s' &
        _ & _ & _ & _ & _ & Erun & Hrows & _).
  eexists. exists s'. split; [exact Erun |]. split; [exact Hrows |].
  reflexivity.
Defined.

(** The same run: whatever was called, a SAFE or ERROR row means only
    the HTTP client was used. *)
Lemma safe_or_error_target_gets_no_frames_witness :
  exists acts row s',
    scan_line (U := py_urllib) 1
      {| arg_input := "targets.txt"; arg_output := "/dev/stdout";
         arg_proxy := None; arg_verbose := true |}
      ∅ (PyStr "192.168.1.10") (PyStr "203.0.113.7") " https://example.com "
      (start (Lab.online (negotiating "HTTP/1.1") "203.0.113.7"
                "192.168.1.10"))
      = (Ret tt, s') /\
    trace s' = [] ++ acts /\
    rows (journal s') = [] ++ [row] /\
    (verdict_of row = PyStr "SAFE" \/ verdict_of row = PyStr "ERROR" ->
     forallb negotiation_call acts = true).
Proof.
  assert (Hrel : console_reliable Lab.lab_sys).
  { intros w. split; [| split]; intros;
      [exists w | exists "2023-10-13 12:00:00", w | exists w]; reflexivity. }
  assert (Hne : strip " https://example.com " <> "")
    by (vm_compute; discriminate).
  exact (safe_or_error_target_gets_no_frames (U := py_urllib) 0
           {| arg_input := "targets.txt"; arg_output := "/dev/stdout";
              arg_proxy := None; arg_verbose := true |}
           ∅ (PyStr "192.168.1.10") (PyStr "203.0.113.7")
           " https://example.com "
           (start (Lab.online (negotiating "HTTP/1.1") "203.0.113.7"
                     "192.168.1.10"))
           Hrel Hne).
Defined.

(** Three input lines, the second only a no-break space (U+00A0) and so
    blank, against a server that answers on stream 1: the header and
    two rows, in the order of the input, and both files closed. *)
Lemma report_has_one_row_per_target_witness :
  exists s' rs pre,
    main (U := py_urllib) 1
      {| arg_input := "targets.txt"; arg_output := "/dev/stdout";
         arg_proxy := None; arg_verbose := false |}
      (start (Lab.reading
                [" https://example.com ";
                 String (Ascii.ascii_of_nat 160) EmptyString;
                 "http://example.org/x"]
                (Lab.online (answering frame [response_event 1] 3)
                   "203.0.113.7" "192.168.1.10")))
      = (Ret tt, s') /\
    rows (journal s') = header :: rs /\
    map url_of rs =
      [PyStr "https://example.com"; PyStr "http://example.org/x"] /\
    journal s' = pre ++ [SysCalled outfile_exit; SysCalled infile_exit].
Proof.
  assert (Hrel : console_reliable Lab.lab_sys).
  { intros w. split; [| split]; intros;
      [exists w | exists "2023-10-13 12:00:00", w | exists w]; reflexivity. }
  assert (Hout : forall (w : Lab.lab) l,
            exists w', sys_respond (print_stdout l) w = (Ok tt, w')).
  { intros w l. exists w. reflexivity. }
  assert (Hfiles : files_reliable Lab.lab_sys "/dev/stdout").
  { intros w. repeat split; exists w; reflexivity. }
  destruct (report_has_one_row_per_target (U := py_urllib) 0
              {| arg_input := "targets.txt"; arg_output := "/dev/stdout";
                 arg_proxy := None; arg_verbose := false |}
              (Infile [" https://example.com ";
                       String (Ascii.ascii_of_nat 160) EmptyString;
                       "http://example.org/x"] None)
              (Lab.reading
                 [" https://example.com ";
                  String (Ascii.ascii_of_nat 160) EmptyString;
                  "http://example.org/x"]
                 (Lab.online (answering frame [response_event 1] 3)
                    "203.0.113.7" "192.168.1.10"))
              Hrel Hout Hfiles eq_refl)
    as (s' & rs & pre & Erun & Hrows & Hurls & _ & Hclosed).
  exists s', rs, pre. split; [exact Erun |]. split; [exact Hrows |].
  split; [exact Hurls | exact Hclosed].
Defined.

(** ["https://example.com:8443/"] is probed without TLS. *)
Lemma tls_follows_resolved_port_witness :
  exists pv u,
    extract_hostname_port_uri (U := py_urllib) "https://example.com:8443/"
      = Ok (PyStr "example.com", pv, PyStr u) /\
    forall fuel proxy (w : script),
      let t := trace (snd (send_rst_stream_h2 (U := py_urllib) fuel
                             (PyStr "example.com") pv 1 u 5 proxy (init w))) in
      connections t = [] \/ connections t = [Plain].
Proof.
  assert (Hh : has_host py_urllib "https://example.com:8443/"
            (ParseResult "https" "example.com:8443" "/" "" "" "")
            "example.com").
  { repeat split. discriminate. }
  exact (tls_follows_resolved_port (W := script) (U := py_urllib)
           "https://example.com:8443/"
           (ParseResult "https" "example.com:8443" "/" "" "" "")
           "example.com" (Some 8443) Hh eq_refl).
Defined.

End MainRunFacts.
